(** * Custom valuations and loan tracking of paisa: a shallow embedding

    The development follows [internal/service/loan.go]: the loan
    derivation, the summary and the alerts, the valuation formulas with
    their function library, the note parser and the account pattern
    matcher. The sources hold the loan derivation in two versions, the
    one of [loan.go] and one that keeps closed loans (it defines
    [isLoanClosed]); both are embedded, as [LoanService] and
    [LoanRevision]. The handlers of [internal/server/valuation.go] that
    validate the rules and preview a formula, and the account names of
    the loans page of the web client, follow in [server] and
    [LoansPage].

    Conventions.
    - A Go [string] is a Rocq [string], a sequence of bytes, taken to be
      well-formed UTF-8 (notes, account names and patterns are text of a
      ledger and of a configuration file).
    - [float64] is Rocq's primitive binary64 [float]; Go's [==], [<], [>]
      on floats are [eqb], [ltb].
    - Go's [int], [int64] and [time.Duration] are [Z] with the wrap-around
      or saturation written where the source can reach it.
    - [time.Time] is the number of nanoseconds since a fixed epoch.
    - [decimal.Decimal] is an exact decimal number; its [Add], [Sub] and
      comparisons are the exact ones, taken here over [Q].
    - A Go [error] is its message; a call that may panic returns an
      [outcome]. Logging is left out.
    - A Go map is the list of its entries, each key once; it is read
      through its keys.
    - Functions of packages outside the repository ([strconv.ParseFloat],
      [math.Pow], the [expr] compiler, the posting store, ...) and the
      functions of the service that the sources do not hold
      ([GetMarketPrice], [ParseDuration], [ParseRiskLevel]) are variables
      of the sections that use them; the examples instantiate them with
      the definitions of [Strconv], [MiniExpr] and [Examples].

    The definitions come first, the properties after them. *)

From Stdlib Require Import ZArith QArith List String Ascii Bool Lia.
From Stdlib Require Import Uint63 Floats Permutation.
From Stdlib Require Import DecimalString.
Import ListNotations.

Set Warnings "-inexact-float,-register-all".
Local Open Scope string_scope.
Local Open Scope Z_scope.

(* ================================================================== *)
(** * Go's [strings] package, as far as the service uses it *)
(* ================================================================== *)

Module GoStrings.

(** [strings.HasPrefix] together with the rest after the prefix
    ([strings.CutPrefix]). *)
Fixpoint CutPrefix (s pre : string) {struct pre} : option string :=
  match pre with
  | EmptyString => Some s
  | String p pre' =>
      match s with
      | EmptyString => None
      | String c s' => if Ascii.eqb c p then CutPrefix s' pre' else None
      end
  end.

Definition HasPrefix (s pre : string) : bool :=
  match CutPrefix s pre with Some _ => true | None => false end.

(** [strings.Cut]: the text before and after the first occurrence of
    [sep], or nothing when [sep] does not occur. *)
Fixpoint Cut (s sep : string) : option (string * string) :=
  match CutPrefix s sep with
  | Some after => Some (EmptyString, after)
  | None =>
      match s with
      | EmptyString => None
      | String c s' =>
          match Cut s' sep with
          | Some (before, after) => Some (String c before, after)
          | None => None
          end
      end
  end.

(** [strings.Contains(s, substr)]. *)
Definition Contains (s substr : string) : bool :=
  match Cut s substr with Some _ => true | None => false end.

(** Width in bytes of the first UTF-8 sequence of a non-empty string, as
    [utf8.DecodeRuneInString] reports it: an ill-formed sequence has
    width 1. *)
Definition inRange (lo hi : N) (c : ascii) : bool :=
  (N.leb lo (N_of_ascii c) && N.leb (N_of_ascii c) hi)%bool.

Definition isCont (c : ascii) : bool := inRange 128 191 c.

Definition runeWidth (s : string) : nat :=
  match s with
  | EmptyString => 0%nat
  | String b0 rest =>
      let n0 := N_of_ascii b0 in
      if N.ltb n0 128 then 1%nat
      else if inRange 194 223 b0 then
        match rest with
        | String b1 _ => if isCont b1 then 2%nat else 1%nat
        | _ => 1%nat
        end
      else if inRange 224 239 b0 then
        match rest with
        | String b1 (String b2 _) =>
            let lo := if N.eqb n0 224 then 160%N else 128%N in
            let hi := if N.eqb n0 237 then 159%N else 191%N in
            if (inRange lo hi b1 && isCont b2)%bool then 3%nat else 1%nat
        | _ => 1%nat
        end
      else if inRange 240 244 b0 then
        match rest with
        | String b1 (String b2 (String b3 _)) =>
            let lo := if N.eqb n0 240 then 144%N else 128%N in
            let hi := if N.eqb n0 244 then 143%N else 191%N in
            if (inRange lo hi b1 && isCont b2 && isCont b3)%bool
            then 4%nat else 1%nat
        | _ => 1%nat
        end
      else 1%nat
  end.

Fixpoint takeBytes (n : nat) (s : string) : string :=
  match n, s with
  | S n', String c s' => String c (takeBytes n' s')
  | _, _ => EmptyString
  end.

Fixpoint dropBytes (n : nat) (s : string) : string :=
  match n, s with
  | S n', String _ s' => dropBytes n' s'
  | _, _ => s
  end.

(** [strings.explode(s, -1)]: one string per UTF-8 sequence. *)
Fixpoint explode (fuel : nat) (s : string) : list string :=
  match fuel with
  | O => []
  | S fuel' =>
      match s with
      | EmptyString => []
      | _ => let w := runeWidth s in
             takeBytes w s :: explode fuel' (dropBytes w s)
      end
  end.

(** The loop of [strings.Split] for a non-empty separator. *)
Fixpoint splitLoop (fuel : nat) (s sep : string) : list string :=
  match fuel with
  | O => [s]
  | S fuel' =>
      match Cut s sep with
      | Some (before, after) => before :: splitLoop fuel' after sep
      | None => [s]
      end
  end.

(** [strings.Split(s, sep)]. At most [length s] separators fit in [s]. *)
Definition Split (s sep : string) : list string :=
  match sep with
  | EmptyString => explode (String.length s) s
  | _ => splitLoop (String.length s) s sep
  end.

(** The loop of [strings.ReplaceAll] for a non-empty [old]: [skip] counts
    the bytes of a replaced occurrence still to be passed over. *)
Fixpoint replaceLoop (old new : string) (skip : nat) (s : string) : string :=
  match s with
  | EmptyString => EmptyString
  | String c s' =>
      match skip with
      | S k => replaceLoop old new k s'
      | O =>
          if HasPrefix s old
          then new ++ replaceLoop old new (String.length old - 1) s'
          else String c (replaceLoop old new 0 s')
      end
  end.

(** [strings.ReplaceAll(s, old, new)]; an empty [old] matches before
    every UTF-8 sequence and at the end. *)
Definition ReplaceAll (s old new : string) : string :=
  match old with
  | EmptyString =>
      String.concat "" (map (fun r => new ++ r) (explode (String.length s) s))
        ++ new
  | _ => replaceLoop old new 0 s
  end.

(** [strings.ToLower]: the ASCII letters [A]-[Z] are mapped to [a]-[z].
    Bytes of non-ASCII characters are kept (no such character lowers to a
    letter of the words the service looks for). *)
Definition lowerByte (c : ascii) : ascii :=
  if inRange 65 90 c then ascii_of_N (N_of_ascii c + 32) else c.

Fixpoint ToLower (s : string) : string :=
  match s with
  | EmptyString => EmptyString
  | String c s' => String (lowerByte c) (ToLower s')
  end.

(** The part of [s] before the first occurrence of [sep], all of [s] when
    there is none: the first element of [Split s sep]. *)
Definition upTo (sep s : string) : string :=
  match Cut s sep with Some (before, _) => before | None => s end.

End GoStrings.

(* ================================================================== *)
(** * Numbers, time and money *)
(* ================================================================== *)

Module GoNum.

Definition minInt64 : Z := - 2 ^ 63.
Definition maxInt64 : Z := 2 ^ 63 - 1.

(** Two's complement wrap-around of 64-bit signed arithmetic. *)
Definition wrap64 (z : Z) : Z := (z + 2 ^ 63) mod 2 ^ 64 - 2 ^ 63.

(** [float64(n)] for a 64-bit integer [n]: the nearest binary64 value. *)
Definition float_of_int (z : Z) : float :=
  if z =? minInt64 then (-9223372036854775808)%float
  else if z <? 0 then (- of_uint63 (Uint63.of_Z (- z)))%float
  else of_uint63 (Uint63.of_Z z).

(** [int(f)] for a float [f]: the fraction is discarded; outside the
    64-bit range (and for NaN) the conversion gives the smallest integer,
    as on amd64. *)
Definition int_of_float (f : float) : Z :=
  match Prim2SF f with
  | S754_zero _ => 0
  | S754_finite s m e =>
      let v := if 0 <=? e then Z.pos m * 2 ^ e else Z.pos m / 2 ^ (- e) in
      let r := if s then - v else v in
      if (minInt64 <=? r) && (r <=? maxInt64) then r else minInt64
  | _ => minInt64
  end.

(** ** [time.Time] and [time.Duration] *)

Definition Time := Z.
Definition Duration := Z.

Definition Nanosecond : Duration := 1.
Definition Second : Duration := 1000000000.
Definition Hour : Duration := 3600 * Second.

(** [t.Sub(u)]: the difference, saturated to the range of a Duration. *)
Definition Time_Sub (t u : Time) : Duration :=
  let d := t - u in
  if (minInt64 <=? d) && (d <=? maxInt64) then d
  else if t <? u then minInt64 else maxInt64.

(** [t.Add(d)]. *)
Definition Time_Add (t : Time) (d : Duration) : Time := t + d.

(** [t.Before(u)]. *)
Definition Time_Before (t u : Time) : bool := t <? u.

(** [d.Hours()]: whole hours plus the remaining nanoseconds as a
    fraction of an hour. *)
Definition Hours (d : Duration) : float :=
  let hour := Z.quot d Hour in
  let nsec := Z.rem d Hour in
  (float_of_int hour + float_of_int nsec / 3600000000000)%float.

(** ** [decimal.Decimal] *)

Definition Decimal := Q.

Definition decimal_Zero : Decimal := 0%Q.
Definition Add (a b : Decimal) : Decimal := (a + b)%Q.
Definition Sub (a b : Decimal) : Decimal := (a - b)%Q.
Definition LessThanOrEqual (a b : Decimal) : bool := Qle_bool a b.
Definition GreaterThan (a b : Decimal) : bool := negb (Qle_bool a b).
Definition Equal (a b : Decimal) : bool := Qeq_bool a b.
Definition NewFromInt (z : Z) : Decimal := inject_Z z.

Definition sf_of_Z (z : Z) : spec_float :=
  match z with
  | Z0 => S754_zero false
  | Zpos p => S754_finite false p 0
  | Zneg p => S754_finite true p 0
  end.

(** [d.InexactFloat64()]: the binary64 value nearest to the decimal. *)
Definition InexactFloat64 (d : Decimal) : float :=
  SF2Prim (SFdiv prec emax (sf_of_Z (Qnum d)) (sf_of_Z (Zpos (Qden d)))).

(** [fmt.Sprintf] of a [%d] verb. *)
Definition formatInt (z : Z) : string := NilZero.string_of_int (Z.to_int z).

End GoNum.

(** Calls that may end in a Go panic. *)
Inductive outcome (A : Type) : Type :=
| Return (a : A)
| Panic (msg : string).
Arguments Return {A} a.
Arguments Panic {A} msg.

(* ================================================================== *)
(** * A decimal reader standing for [strconv.ParseFloat] in examples *)
(* ================================================================== *)

Module Strconv.

Definition isDigit (c : ascii) : bool := GoStrings.inRange 48 57 c.
Definition digitVal (c : ascii) : Z := Z.of_N (N_of_ascii c) - 48.

(** Leading decimal digits: their number, their value continuing [acc],
    and the rest of the text. *)
Fixpoint readDigits (s : string) (acc : Z) (n : nat) : Z * nat * string :=
  match s with
  | String c s' =>
      if isDigit c then readDigits s' (10 * acc + digitVal c) (S n)
      else (acc, n, s)
  | EmptyString => (acc, n, s)
  end.

Definition readSign (s : string) : bool * string :=
  match s with
  | String "+" s' => (false, s')
  | String "-" s' => (true, s')
  | _ => (false, s)
  end.

(** The optional exponent part, [e] or [E], a sign and digits; [None]
    when it is ill-formed or text is left over. *)
Definition readExponent (s : string) : option Z :=
  match s with
  | EmptyString => Some 0
  | String c s' =>
      if (Ascii.eqb c "e" || Ascii.eqb c "E")%bool then
        let '(neg, s1) := readSign s' in
        match readDigits s1 0 0 with
        | (e, S _, EmptyString) => Some (if neg then - e else e)
        | _ => None
        end
      else None
  end.

(** The value [m * 10 ^ e] rounded to the nearest binary64 number. *)
Definition decimalToFloat (neg : bool) (m e : Z) : float :=
  let sf :=
    if m =? 0 then S754_zero neg
    else if 0 <=? e then
      binary_normalize prec emax (if neg then - (m * 10 ^ e) else m * 10 ^ e) 0 false
    else
      SFdiv prec emax (GoNum.sf_of_Z (if neg then - m else m))
                      (GoNum.sf_of_Z (10 ^ (- e)))
  in SF2Prim sf.

(** Decimal floating-point text: a sign, digits with an optional point,
    an optional exponent. [None] stands for a returned error (ill-formed
    text, or a value out of range). Hexadecimal text, digit separators
    and the words for infinity and NaN, which [strconv.ParseFloat] also
    reads, are not covered: the examples use none. *)
Definition ParseFloat (s : string) : option float :=
  let '(neg, s0) := readSign s in
  let '(ip, ni, s1) := readDigits s0 0 0 in
  let '(m, nf, s2) :=
    match s1 with
    | String "." s1' =>
        let '(m, nf, s2) := readDigits s1' ip 0 in (m, nf, s2)
    | _ => (ip, 0%nat, s1)
    end in
  match (ni + nf)%nat with
  | O => None
  | _ =>
      match readExponent s2 with
      | None => None
      | Some e =>
          let f := decimalToFloat neg m (e - Z.of_nat nf) in
          if is_infinity f then None else Some f
      end
  end.

End Strconv.

(** Go's [error] values are kept by their message. *)
Definition error := string.

Inductive result (A : Type) : Type :=
| Ok (a : A)
| Err (e : error).
Arguments Ok {A} a.
Arguments Err {A} e.

(* ================================================================== *)
(** * Go's [math] functions used by the formula library *)
(* ================================================================== *)

Module GoMath.

Import GoNum.
Local Open Scope float_scope.

Definition Signbit (x : float) : bool := get_sign x.

(** [math.Min]. *)
Definition Min (x y : float) : float :=
  if (x =? neg_infinity) || (y =? neg_infinity) then neg_infinity
  else if is_nan x || is_nan y then nan
  else if (x =? 0) && (x =? y) then (if Signbit x then x else y)
  else if x <? y then x else y.

(** [math.Max]. *)
Definition Max (x y : float) : float :=
  if (x =? infinity) || (y =? infinity) then infinity
  else if is_nan x || is_nan y then nan
  else if (x =? 0) && (x =? y) then (if Signbit x then y else x)
  else if y <? x then x else y.

Definition Abs (x : float) : float := abs x.
Definition Sqrt (x : float) : float := sqrt x.

(** [math.Floor]: the greatest integer value not above [x]; zeros,
    infinities and NaN are returned as they are. *)
Definition Floor (x : float) : float :=
  match Prim2SF x with
  | S754_finite s m e =>
      if (0 <=? e)%Z then x
      else
        let q := (Z.pos m / 2 ^ (- e))%Z in
        let exact := (Z.pos m mod 2 ^ (- e) =? 0)%Z in
        if s then float_of_int (- (if exact then q else q + 1))
        else float_of_int q
  | _ => x
  end.

(** [math.Ceil(x)] is [-Floor(-x)]. *)
Definition Ceil (x : float) : float := - Floor (- x).

(** [math.Round]: the nearest integer value, halves away from zero; the
    sign of [x] is kept. *)
Definition Round (x : float) : float :=
  match Prim2SF x with
  | S754_finite s m e =>
      if (0 <=? e)%Z then x
      else
        let n := ((2 * Z.pos m + 2 ^ (- e)) / 2 ^ (- e + 1))%Z in
        if s then - float_of_int n else float_of_int n
  | _ => x
  end.

End GoMath.

(* ================================================================== *)
(** * Go's [regexp] package on the patterns the service builds *)
(* ================================================================== *)

Module Regexp.

(** The bytes [regexp.QuoteMeta] escapes. *)
Definition special (c : ascii) : bool :=
  existsb (Ascii.eqb c) (list_ascii_of_string "\.+*?()|[]{}^$").

(** [regexp.QuoteMeta]. *)
Fixpoint QuoteMeta (s : string) : string :=
  match s with
  | EmptyString => EmptyString
  | String c s' =>
      if special c then String "\" (String c (QuoteMeta s'))
      else String c (QuoteMeta s')
  end.

(** The expressions read here: a literal byte, or [.*]. *)
Inductive item : Type :=
| Lit (c : ascii)
| AnyStar.

(** The text after the opening [^]: escaped or plain literals and [.*],
    closed by the anchor [$]. *)
Fixpoint parseItems (s : string) : option (list item) :=
  match s with
  | EmptyString => None
  | String c rest =>
      if Ascii.eqb c "$" then
        match rest with
        | EmptyString => Some []
        | _ => None
        end
      else if Ascii.eqb c "\" then
        match rest with
        | String d rest' =>
            if special d then option_map (cons (Lit d)) (parseItems rest')
            else None
        | EmptyString => None
        end
      else if Ascii.eqb c "." then
        match rest with
        | String d rest' =>
            if Ascii.eqb d "*" then option_map (cons AnyStar) (parseItems rest')
            else None
        | EmptyString => None
        end
      else if special c then None
      else option_map (cons (Lit c)) (parseItems rest)
  end.

Definition parse (re : string) : option (list item) :=
  match re with
  | String "^" body => parseItems body
  | _ => None
  end.

Definition newline : ascii := ascii_of_nat 10.

(** Does the whole of [s] match the items? [.] stands for any character
    but a line feed. *)
Fixpoint matchItems (items : list item) (s : string) : bool :=
  match items with
  | [] => match s with EmptyString => true | _ => false end
  | Lit c :: items' =>
      match s with
      | String d s' => Ascii.eqb c d && matchItems items' s'
      | EmptyString => false
      end
  | AnyStar :: items' =>
      (fix star (s : string) : bool :=
         matchItems items' s ||
         match s with
         | String d s' => negb (Ascii.eqb d newline) && star s'
         | EmptyString => false
         end) s
  end.

(** [regexp.MatchString(pattern, s)] for an anchored pattern of literals
    and [.*]; other syntax is reported as an error of the model (the
    service never builds any, see [regexPattern_parses]). *)
Definition MatchString (pattern s : string) : result bool :=
  match parse pattern with
  | Some items => Ok (matchItems items s)
  | None => Err "regexp: syntax outside the modelled fragment"
  end.

End Regexp.

(* ================================================================== *)
(** * Data model *)
(* ================================================================== *)

Import GoNum.

(** [posting.Posting], with the fields the service reads. *)
Module posting.
Record Posting : Type := mkPosting {
  Account : string;
  Amount : Decimal;
  Quantity : Decimal;
  Date : Time;
  Note : string;
  TransactionNote : string;
  Commodity : string
}.
End posting.

(** [config.CustomValuation]. *)
Module config.
Record CustomValuation : Type := mkCustomValuation {
  Name : string;
  Account : string;
  NoteContains : string;
  Formula : string
}.
End config.

(** Values of Go's [any] that formulas handle. *)
Inductive any : Type :=
| AFloat64 (f : float)
| AFloat32 (f : float)
| AInt (n : Z)
| AInt64 (n : Z)
| AInt32 (n : Z)
| AString (s : string)
| ABool (b : bool)
| ATime (t : Time)
| ANil.

(** What [%T] prints for a value. *)
Definition typeName (v : any) : string :=
  match v with
  | AFloat64 _ => "float64"
  | AFloat32 _ => "float32"
  | AInt _ => "int"
  | AInt64 _ => "int64"
  | AInt32 _ => "int32"
  | AString _ => "string"
  | ABool _ => "bool"
  | ATime _ => "time.Time"
  | ANil => "<nil>"
  end.

(** [ValuationContext]: the variables a formula may read. *)
Module ValuationContext.
Record t : Type := mk {
  Amount : float;
  Quantity : float;
  Date : Time;
  DaysHeld : float;
  MonthsHeld : float;
  YearsHeld : float;
  Note : string;
  Account : string;
  Commodity : string
}.
End ValuationContext.

Inductive LoanStatus : Type :=
| LoanStatusActive
| LoanStatusMaturing
| LoanStatusOverdue
| LoanStatusClosed.

Definition LoanStatus_eqb (a b : LoanStatus) : bool :=
  match a, b with
  | LoanStatusActive, LoanStatusActive
  | LoanStatusMaturing, LoanStatusMaturing
  | LoanStatusOverdue, LoanStatusOverdue
  | LoanStatusClosed, LoanStatusClosed => true
  | _, _ => false
  end.

Module Loan.
Record t : Type := mk {
  Account : string;
  Principal : Decimal;
  CurrentValue : Decimal;
  GainAmount : Decimal;
  InterestRate : float;
  Period : string;
  StartDate : Time;
  MaturityDate : option Time;
  DaysToMaturity : Z;
  DaysHeld : Z;
  Status : LoanStatus;
  RiskLevel : string;
  PercentComplete : float;
  Postings : list posting.Posting
}.
End Loan.

Module LoanAlert.
Record t : Type := mk {
  Type_ : string;
  Severity : string;
  Account : string;
  Message : string;
  Amount : Decimal;
  DaysOverdue : Z;
  DaysToMaturity : Z
}.
End LoanAlert.

(** [StatusSummary] and [RiskSummary]. A count is at most the number of
    loans of a slice, so it stays within an [int]. *)
Module StatusSummary.
Record t : Type := mk {
  Count : Z;
  Amount : Decimal
}.
End StatusSummary.

Module RiskSummary.
Record t : Type := mk {
  Count : Z;
  Amount : Decimal
}.
End RiskSummary.

(** [LoanSummary]; the two maps are kept as the lists of their entries,
    see [GoMap]. *)
Module LoanSummary.
Record t : Type := mk {
  TotalLent : Decimal;
  TotalValue : Decimal;
  TotalGain : Decimal;
  TotalAccounts : Z;
  ByStatus : list (LoanStatus * StatusSummary.t);
  ByRisk : list (string * RiskSummary.t)
}.
End LoanSummary.

(** [ValuationPreview]; [SampleData] is kept as the list of its entries. *)
Module ValuationPreview.
Record t : Type := mk {
  Name : string;
  Formula : string;
  SampleData : list (string * any);
  Result : float;
  Error : string
}.
End ValuationPreview.

(* ================================================================== *)
(** * [sort.Slice] *)
(* ================================================================== *)

Module GoSort.

Section Insertion.
Context {A : Type} (less : A -> A -> bool).

(** One pass of the inner loop of [insertionSort]: [x] moves left past
    every element it is less than. [front] is the ordered part before
    [x], nearest element first. *)
Fixpoint insertLeft (x : A) (front : list A) : list A :=
  match front with
  | [] => [x]
  | y :: front' => if less x y then y :: insertLeft x front' else x :: front
  end.

(** [sort.Slice(data, less)]. The library sorts a slice of at most 12
    elements by insertion, which is what is written here; on a longer
    slice it runs a pattern-defeating quicksort, which also leaves a
    slice that is already ordered as it is, and otherwise may order
    elements that compare equal differently. *)
Definition Slice (data : list A) : list A :=
  rev (fold_left (fun front x => insertLeft x front) data []).

End Insertion.

End GoSort.

(* ================================================================== *)
(** * Go maps *)
(* ================================================================== *)

(** A map is the list of its entries, each key once, in the order the
    keys were first written (the order of a Go map is not specified; the
    properties read a map through [lookup] or add up over its entries). *)
Module GoMap.

Section Map.
Context {K V : Type} (eqb : K -> K -> bool).

(** [v, ok := m[k]]. *)
Fixpoint lookup (m : list (K * V)) (k : K) : option V :=
  match m with
  | [] => None
  | (k', v) :: m' => if eqb k' k then Some v else lookup m' k
  end.

(** [m[k]]: the zero value of the type for a key the map does not hold. *)
Definition get (zero : V) (m : list (K * V)) (k : K) : V :=
  match lookup m k with
  | Some v => v
  | None => zero
  end.

(** [m[k] = v]. *)
Fixpoint set (m : list (K * V)) (k : K) (v : V) : list (K * V) :=
  match m with
  | [] => [(k, v)]
  | (k', v') :: m' =>
      if eqb k' k then (k', v) :: m' else (k', v') :: set m' k v
  end.

End Map.

End GoMap.

(* ================================================================== *)
(** * Valuation formulas: helper functions and the function library *)
(* ================================================================== *)

Definition bind {A B : Type} (m : outcome A) (k : A -> outcome B) : outcome B :=
  match m with
  | Return a => k a
  | Panic msg => Panic msg
  end.

Notation "x <- m ;; k" := (bind m (fun x => k))
  (at level 61, m at next level, right associativity).

(** [params[i]]: indexing past the end panics. *)
Definition param (params : list any) (i : nat) : outcome any :=
  match nth_error params i with
  | Some v => Return v
  | None => Panic "index out of range"
  end.

(** [v.(string)] and [v.(bool)]: a failed type assertion panics. *)
Definition asString (v : any) : outcome string :=
  match v with
  | AString s => Return s
  | _ => Panic "interface conversion: not a string"
  end.

Definition asBool (v : any) : outcome bool :=
  match v with
  | ABool b => Return b
  | _ => Panic "interface conversion: not a bool"
  end.

(** [toFloat64] converts various numeric types to float64. *)
Definition toFloat64 (v : any) : float :=
  match v with
  | AFloat64 n => n
  | AFloat32 n => n
  | AInt n => float_of_int n
  | AInt64 n => float_of_int n
  | AInt32 n => float_of_int n
  | _ => 0%float
  end.

(** Types of the declared signatures of the library functions. *)
Inductive ty : Type := TFloat | TString | TBool.

(** A library function: its body, always returning a nil error unless
    it panics, and its declared parameter and result types. *)
Record Function : Type := mkFunction {
  fn_name : string;
  fn_body : list any -> outcome any;
  fn_params : list ty;
  fn_result : ty
}.

Section NoteParser.

(** [strconv.ParseFloat(s, 64)]; [None] when it returns an error. *)
Variable strconv_ParseFloat : string -> option float.

(** [parseNoteFloat] extracts a float value from note after a given
    prefix. *)
Definition parseNoteFloat (note pre : string) : float :=
  if negb (GoStrings.Contains note pre) then 0%float
  else
    let parts := GoStrings.Split note pre in
    if (List.length parts <? 2)%nat then 0%float
    else
      let valueStr := nth 0 (GoStrings.Split (nth 1 parts "") " ") "" in
      match strconv_ParseFloat valueStr with
      | None => 0%float
      | Some value => value
      end.

(** [parseNoteString] extracts a string value from note after a given
    prefix. *)
Definition parseNoteString (note pre : string) : string :=
  if negb (GoStrings.Contains note pre) then ""
  else
    let parts := GoStrings.Split note pre in
    if (List.length parts <? 2)%nat then ""
    else nth 0 (GoStrings.Split (nth 1 parts "") " ") "".

(** [math.Pow]. *)
Variable math_Pow : float -> float -> float.

Local Open Scope float_scope.

Definition fn_parse_note_float (params : list any) : outcome any :=
  v0 <- param params 0 ;; note <- asString v0 ;;
  v1 <- param params 1 ;; pre <- asString v1 ;;
  Return (AFloat64 (parseNoteFloat note pre)).

Definition fn_parse_note_string (params : list any) : outcome any :=
  v0 <- param params 0 ;; note <- asString v0 ;;
  v1 <- param params 1 ;; pre <- asString v1 ;;
  Return (AString (parseNoteString note pre)).

Definition fn_note_contains (params : list any) : outcome any :=
  v0 <- param params 0 ;; note <- asString v0 ;;
  v1 <- param params 1 ;; substr <- asString v1 ;;
  Return (ABool (GoStrings.Contains note substr)).

Definition fn_simple_interest (params : list any) : outcome any :=
  v0 <- param params 0 ;; let principal := toFloat64 v0 in
  v1 <- param params 1 ;; let annualRate := toFloat64 v1 in
  v2 <- param params 2 ;; let days := toFloat64 v2 in
  Return (AFloat64 (principal * (annualRate / 100) * (days / 365))).

Definition fn_compound_interest (params : list any) : outcome any :=
  v0 <- param params 0 ;; let principal := toFloat64 v0 in
  v1 <- param params 1 ;; let annualRate := toFloat64 v1 in
  v2 <- param params 2 ;; let days := toFloat64 v2 in
  v3 <- param params 3 ;; let compoundsPerYear := toFloat64 v3 in
  let compoundsPerYear :=
    if compoundsPerYear =? 0 then 12 else compoundsPerYear in
  let years := days / 365 in
  Return (AFloat64
    (principal *
     math_Pow (1 + annualRate / 100 / compoundsPerYear)
              (compoundsPerYear * years))).

Definition fn_monthly_interest (params : list any) : outcome any :=
  v0 <- param params 0 ;; let principal := toFloat64 v0 in
  v1 <- param params 1 ;; let monthlyRate := toFloat64 v1 in
  v2 <- param params 2 ;; let days := toFloat64 v2 in
  Return (AFloat64 (principal * (monthlyRate / 100) * (days / 30))).

Definition fn_daily_interest (params : list any) : outcome any :=
  v0 <- param params 0 ;; let principal := toFloat64 v0 in
  v1 <- param params 1 ;; let dailyRate := toFloat64 v1 in
  v2 <- param params 2 ;; let days := toFloat64 v2 in
  Return (AFloat64 (principal * (dailyRate / 100) * days)).

Definition fn_min (params : list any) : outcome any :=
  v0 <- param params 0 ;; v1 <- param params 1 ;;
  Return (AFloat64 (GoMath.Min (toFloat64 v0) (toFloat64 v1))).

Definition fn_max (params : list any) : outcome any :=
  v0 <- param params 0 ;; v1 <- param params 1 ;;
  Return (AFloat64 (GoMath.Max (toFloat64 v0) (toFloat64 v1))).

Definition fn_round (params : list any) : outcome any :=
  v0 <- param params 0 ;; Return (AFloat64 (GoMath.Round (toFloat64 v0))).

Definition fn_floor (params : list any) : outcome any :=
  v0 <- param params 0 ;; Return (AFloat64 (GoMath.Floor (toFloat64 v0))).

Definition fn_ceil (params : list any) : outcome any :=
  v0 <- param params 0 ;; Return (AFloat64 (GoMath.Ceil (toFloat64 v0))).

Definition fn_abs (params : list any) : outcome any :=
  v0 <- param params 0 ;; Return (AFloat64 (GoMath.Abs (toFloat64 v0))).

Definition fn_pow (params : list any) : outcome any :=
  v0 <- param params 0 ;; let base := toFloat64 v0 in
  v1 <- param params 1 ;; let exp := toFloat64 v1 in
  Return (AFloat64 (math_Pow base exp)).

Definition fn_sqrt (params : list any) : outcome any :=
  v0 <- param params 0 ;; Return (AFloat64 (GoMath.Sqrt (toFloat64 v0))).

Definition fn_if_else (params : list any) : outcome any :=
  v0 <- param params 0 ;; condition <- asBool v0 ;;
  v1 <- param params 1 ;; let trueVal := toFloat64 v1 in
  v2 <- param params 2 ;; let falseVal := toFloat64 v2 in
  if condition then Return (AFloat64 trueVal) else Return (AFloat64 falseVal).

Definition fn_clamp (params : list any) : outcome any :=
  v0 <- param params 0 ;; let value := toFloat64 v0 in
  v1 <- param params 1 ;; let minVal := toFloat64 v1 in
  v2 <- param params 2 ;; let maxVal := toFloat64 v2 in
  Return (AFloat64 (GoMath.Max minVal (GoMath.Min maxVal value))).

(** [exprFunctions]: the custom functions available in expressions. *)
Definition exprFunctions : list Function :=
  [ mkFunction "parse_note_float" fn_parse_note_float [TString; TString] TFloat;
    mkFunction "parse_note_string" fn_parse_note_string [TString; TString] TString;
    mkFunction "note_contains" fn_note_contains [TString; TString] TBool;
    mkFunction "simple_interest" fn_simple_interest [TFloat; TFloat; TFloat] TFloat;
    mkFunction "compound_interest" fn_compound_interest
      [TFloat; TFloat; TFloat; TFloat] TFloat;
    mkFunction "monthly_interest" fn_monthly_interest [TFloat; TFloat; TFloat] TFloat;
    mkFunction "daily_interest" fn_daily_interest [TFloat; TFloat; TFloat] TFloat;
    mkFunction "min" fn_min [TFloat; TFloat] TFloat;
    mkFunction "max" fn_max [TFloat; TFloat] TFloat;
    mkFunction "round" fn_round [TFloat] TFloat;
    mkFunction "floor" fn_floor [TFloat] TFloat;
    mkFunction "ceil" fn_ceil [TFloat] TFloat;
    mkFunction "abs" fn_abs [TFloat] TFloat;
    mkFunction "pow" fn_pow [TFloat; TFloat] TFloat;
    mkFunction "sqrt" fn_sqrt [TFloat] TFloat;
    mkFunction "if_else" fn_if_else [TBool; TFloat; TFloat] TFloat;
    mkFunction "clamp" fn_clamp [TFloat; TFloat; TFloat] TFloat ].

End NoteParser.

(** [matchAccountPattern] checks if an account matches a pattern
    (supports * wildcard): [Assets:p2p:*] becomes [^Assets:p2p:.*$]. *)
Definition regexPattern (pattern : string) : string :=
  GoStrings.ReplaceAll ("^" ++ Regexp.QuoteMeta pattern ++ "$") "\*" ".*".

Definition matchAccountPattern (account pattern : string) : bool :=
  match Regexp.MatchString (regexPattern pattern) account with
  | Err _ => false
  | Ok matched => matched
  end.

(* ================================================================== *)
(** * Evaluating valuation formulas *)
(* ================================================================== *)

(** [buildValuationContext] creates a ValuationContext from a posting. *)
Definition buildValuationContext (p : posting.Posting) (evaluationDate : Time)
  : ValuationContext.t :=
  let daysHeld := (Hours (Time_Sub evaluationDate (posting.Date p)) / 24)%float in
  let monthsHeld := (daysHeld / 30.44)%float in
  let yearsHeld := (daysHeld / 365.25)%float in
  ValuationContext.mk
    (InexactFloat64 (posting.Amount p))
    (InexactFloat64 (posting.Quantity p))
    (posting.Date p)
    daysHeld
    monthsHeld
    yearsHeld
    (posting.TransactionNote p)
    (posting.Account p)
    (posting.Commodity p).

(** The context [PreviewFormula] evaluates its formula in. *)
Definition previewContext (time_Now : Time) (DefaultCurrency : string)
  (amount daysHeld : float) (note : string) : ValuationContext.t :=
  ValuationContext.mk
    amount
    1%float
    (Time_Add time_Now
       (wrap64 (wrap64 (- int_of_float (daysHeld * 24)%float) * Hour)))
    daysHeld
    (daysHeld / 30.44)%float
    (daysHeld / 365.25)%float
    note
    "Assets:Preview"
    DefaultCurrency.



Section Evaluation.

Variable strconv_ParseFloat : string -> option float.
Variable math_Pow : float -> float -> float.

(** The [expr] library: [expr.Compile] with the environment type of
    [ValuationContext] and a list of functions, and [expr.Run]. *)
Variable Program : Type.
Variable expr_Compile : list Function -> string -> result Program.
Variable expr_Run : Program -> ValuationContext.t -> result any.

(** The decimal [decimal.NewFromFloat] makes of a finite float. *)
Variable decimalOfFinite : float -> Decimal.

(** [config.GetCustomValuations()], [config.DefaultCurrency()] and
    [time.Now()]. *)
Variable GetCustomValuations : list config.CustomValuation.
Variable DefaultCurrency : string.
Variable time_Now : Time.

(** [decimal.NewFromFloat] panics on NaN and on the infinities. *)
Definition NewFromFloat (v : float) : outcome Decimal :=
  if is_nan v || is_infinity v then Panic "Cannot create a Decimal"
  else Return (decimalOfFinite v).

Definition functions : list Function :=
  exprFunctions strconv_ParseFloat math_Pow.

(** [FindCustomValuation] finds a matching custom valuation rule for a
    posting. *)
Definition FindCustomValuation (p : posting.Posting)
  : option config.CustomValuation :=
  find (fun v =>
          matchAccountPattern (posting.Account p) (config.Account v) &&
          negb (negb (String.eqb (config.NoteContains v) "") &&
                negb (GoStrings.Contains (posting.TransactionNote p)
                        (config.NoteContains v))))
       GetCustomValuations.

(** [EvaluateValuation] evaluates a custom valuation formula for a
    posting: the value and the error, nil when there is none. *)
Definition EvaluateValuation (valuation : config.CustomValuation)
  (p : posting.Posting) (evaluationDate : Time)
  : outcome (Decimal * option error) :=
  let ctx := buildValuationContext p evaluationDate in
  match expr_Compile functions (config.Formula valuation) with
  | Err err => Return (posting.Amount p, Some err)
  | Ok program =>
      match expr_Run program ctx with
      | Err err => Return (posting.Amount p, Some err)
      | Ok res =>
          match res with
          | AFloat64 v => d <- NewFromFloat v ;; Return (d, None)
          | AInt v => Return (NewFromInt v, None)
          | AInt64 v => Return (NewFromInt v, None)
          | _ => Return (posting.Amount p, None)
          end
      end
  end.

(** The formula fails to compile, or compiles and fails to run in the
    context: the two error returns of [EvaluateValuation]. *)
Definition formulaFails (formula : string) (ctx : ValuationContext.t) : bool :=
  match expr_Compile functions formula with
  | Err _ => true
  | Ok program =>
      match expr_Run program ctx with
      | Err _ => true
      | Ok _ => false
      end
  end.

(** The context of sample data [ValidateFormula] runs a formula in. *)
Definition validationContext : ValuationContext.t :=
  ValuationContext.mk 10000 1 time_Now 30 1 0.0822
    "sample note Int:12 Per:M" "Assets:Test" "INR".

(** [ValidateFormula] returns nil if valid, or an error describing the
    problem. *)
Definition ValidateFormula (formula : string) : option error :=
  let ctx := validationContext in
  match expr_Compile functions formula with
  | Err err => Some ("syntax error: " ++ err)
  | Ok program =>
      match expr_Run program ctx with
      | Err err => Some ("evaluation error: " ++ err)
      | Ok res =>
          match res with
          | AFloat64 _ | AInt _ | AInt64 _ | AInt32 _ => None
          | _ => Some ("formula must return a number, got " ++ typeName res)
          end
      end
  end.

(** [ValidateAllValuations] validates all custom valuations in config:
    a map of valuation name to error (empty map if all valid). *)
Definition ValidateAllValuations : list (string * error) :=
  fold_left
    (fun errors v =>
       match ValidateFormula (config.Formula v) with
       | Some err => GoMap.set String.eqb errors (config.Name v) err
       | None => errors
       end)
    GetCustomValuations [].

(** [PreviewFormula] evaluates a formula with sample data for
    preview/testing. *)
Definition PreviewFormula (formula : string) (amount daysHeld : float)
  (note : string) : ValuationPreview.t :=
  let ctx := previewContext time_Now DefaultCurrency amount daysHeld note in
  let sample :=
    [ ("amount", AFloat64 amount);
      ("days_held", AFloat64 daysHeld);
      ("months_held", AFloat64 (ValuationContext.MonthsHeld ctx));
      ("years_held", AFloat64 (ValuationContext.YearsHeld ctx));
      ("note", AString note) ] in
  match expr_Compile functions formula with
  | Err err =>
      ValuationPreview.mk "" formula sample 0 ("Compile error: " ++ err)
  | Ok program =>
      match expr_Run program ctx with
      | Err err =>
          ValuationPreview.mk "" formula sample 0 ("Evaluation error: " ++ err)
      | Ok res => ValuationPreview.mk "" formula sample (toFloat64 res) ""
      end
  end.

(** [GetCustomMarketPrice] attempts to calculate a custom market price
    for a posting: the calculated price and true if a custom valuation
    was applied, or zero and false if no custom valuation matches. *)
Definition GetCustomMarketPrice (p : posting.Posting) (evaluationDate : Time)
  : outcome (Decimal * bool) :=
  match FindCustomValuation p with
  | None => Return (decimal_Zero, false)
  | Some valuation =>
      r <- EvaluateValuation valuation p evaluationDate ;;
      match r with
      | (_, Some _) => Return (posting.Amount p, true)
      | (price, None) => Return (price, true)
      end
  end.

End Evaluation.

(* ================================================================== *)
(** * Loans: what both versions of the loan service share *)
(* ================================================================== *)

Module LoanCommon.

(** [lo.GroupBy(postings, func(p) string { return p.Account })]: the
    postings of each account, in their order. The groups are listed by
    first occurrence (Go ranges over the map in an unspecified order;
    [GetLoans] sorts the loans afterwards). *)
Fixpoint addToGroup (p : posting.Posting)
  (groups : list (string * list posting.Posting))
  : list (string * list posting.Posting) :=
  match groups with
  | [] => [(posting.Account p, [p])]
  | (account, ps) :: groups' =>
      if String.eqb account (posting.Account p)
      then (account, (ps ++ [p])%list) :: groups'
      else (account, ps) :: addToGroup p groups'
  end.

Definition GroupBy (postings : list posting.Posting)
  : list (string * list posting.Posting) :=
  fold_left (fun groups p => addToGroup p groups) postings [].

(** The pattern handed to the posting store: a final [*] becomes [%]. *)
Fixpoint likePattern (pattern : string) : string :=
  match pattern with
  | EmptyString => EmptyString
  | String c EmptyString => if Ascii.eqb c "*" then "%" else pattern
  | String c rest => String c (likePattern rest)
  end.

Definition statusOrder (s : LoanStatus) : Z :=
  match s with
  | LoanStatusOverdue => 0
  | LoanStatusMaturing => 1
  | LoanStatusActive => 2
  | LoanStatusClosed => 3
  end.

(** The order of [GetLoans]: by status (overdue first, then maturing,
    then active), then by account. *)
Definition loanLess (a b : Loan.t) : bool :=
  if negb (statusOrder (Loan.Status a) =? statusOrder (Loan.Status b))
  then statusOrder (Loan.Status a) <? statusOrder (Loan.Status b)
  else String.ltb (Loan.Account a) (Loan.Account b).

(** The order of the postings of a loan: by date. *)
Definition postingBefore (a b : posting.Posting) : bool :=
  Time_Before (posting.Date a) (posting.Date b).

(** [formatAlertMessage] with its two formats. *)
Definition formatAlertMessage (before : string) (days : Z) : string :=
  before ++ formatInt days ++ " days".

(** [severityOrder], a map; a key it does not hold reads as 0. *)
Definition severityOrder (severity : string) : Z :=
  if String.eqb severity "high" then 0
  else if String.eqb severity "medium" then 1
  else if String.eqb severity "low" then 2
  else 0.

Definition alertLess (a b : LoanAlert.t) : bool :=
  severityOrder (LoanAlert.Severity a) <? severityOrder (LoanAlert.Severity b).

Definition overdueAlert (loan : Loan.t) : LoanAlert.t :=
  LoanAlert.mk
    "overdue"
    "high"
    (Loan.Account loan)
    (formatAlertMessage "Loan overdue by " (wrap64 (- Loan.DaysToMaturity loan)))
    (Loan.Principal loan)
    (wrap64 (- Loan.DaysToMaturity loan))
    0.

Definition maturingAlert (loan : Loan.t) : LoanAlert.t :=
  LoanAlert.mk
    "maturing"
    "medium"
    (Loan.Account loan)
    (formatAlertMessage "Loan matures in " (Loan.DaysToMaturity loan))
    (Loan.Principal loan)
    0
    (Loan.DaysToMaturity loan).

(** The loop of [GetLoanAlerts] over the loans. *)
Definition collectAlerts (loans : list Loan.t) : list LoanAlert.t :=
  fold_left
    (fun alerts loan =>
       match Loan.Status loan with
       | LoanStatusOverdue => (alerts ++ [overdueAlert loan])%list
       | LoanStatusMaturing => (alerts ++ [maturingAlert loan])%list
       | _ => alerts
       end)
    loans [].






(** [GetLoanAlerts] after it has fetched the loans: the alerts, sorted
    by severity (high first). *)
Definition loanAlerts (loans : list Loan.t) : list LoanAlert.t :=
  GoSort.Slice alertLess (collectAlerts loans).

(** The status, maturity date, days to maturity and percent complete of
    a loan with a target duration, as both versions compute them. *)
Definition maturity (startDate now : Time) (daysHeld : Z) (targetDays : float)
  : option Time * Z * float * LoanStatus :=
  let md := Time_Add startDate (wrap64 (int_of_float (targetDays * 24)%float * Hour)) in
  let daysToMaturity := int_of_float (Hours (Time_Sub md now) / 24)%float in
  let percentComplete := (float_of_int daysHeld / targetDays * 100)%float in
  let percentComplete :=
    if (100 <? percentComplete)%float then 100%float else percentComplete in
  let status :=
    if daysToMaturity <? 0 then LoanStatusOverdue
    else if daysToMaturity <=? 30 then LoanStatusMaturing
    else LoanStatusActive in
  (Some md, daysToMaturity, percentComplete, status).

(** The totals loop of [buildLoan], for one way of valuing a posting. *)
Definition totals (value : posting.Posting -> Decimal)
  (postings : list posting.Posting) : Decimal * Decimal :=
  fold_left
    (fun '(principal, currentValue) p =>
       (if GreaterThan (posting.Amount p) decimal_Zero
        then Add principal (posting.Amount p) else principal,
        Add currentValue (value p)))
    postings (decimal_Zero, decimal_Zero).

Definition startOf (postings : list posting.Posting) : Time :=
  match postings with
  | p :: _ => posting.Date p
  | [] => 0
  end.

(** The body of the loop of [GetLoanSummary] for one loan. *)
Definition addLoan (summary : LoanSummary.t) (loan : Loan.t) : LoanSummary.t :=
  let ss :=
    GoMap.get LoanStatus_eqb (StatusSummary.mk 0 decimal_Zero)
      (LoanSummary.ByStatus summary) (Loan.Status loan) in
  let ss :=
    StatusSummary.mk (StatusSummary.Count ss + 1)
      (Add (StatusSummary.Amount ss) (Loan.Principal loan)) in
  let rs :=
    GoMap.get String.eqb (RiskSummary.mk 0 decimal_Zero)
      (LoanSummary.ByRisk summary) (Loan.RiskLevel loan) in
  let rs :=
    RiskSummary.mk (RiskSummary.Count rs + 1)
      (Add (RiskSummary.Amount rs) (Loan.Principal loan)) in
  LoanSummary.mk
    (Add (LoanSummary.TotalLent summary) (Loan.Principal loan))
    (Add (LoanSummary.TotalValue summary) (Loan.CurrentValue loan))
    (Add (LoanSummary.TotalGain summary) (Loan.GainAmount loan))
    (LoanSummary.TotalAccounts summary)
    (GoMap.set LoanStatus_eqb (LoanSummary.ByStatus summary) (Loan.Status loan) ss)
    (GoMap.set String.eqb (LoanSummary.ByRisk summary) (Loan.RiskLevel loan) rs).

(** [GetLoanSummary] after it has fetched the loans: aggregate
    statistics about all loans. *)
Definition summarize (loans : list Loan.t) : LoanSummary.t :=
  fold_left addLoan loans
    (LoanSummary.mk decimal_Zero decimal_Zero decimal_Zero
       (Z.of_nat (List.length loans)) [] []).

End LoanCommon.

(* ================================================================== *)
(** * The loan service of [internal/service/loan.go] *)
(* ================================================================== *)

Module LoanService.

Import LoanCommon.

(** [containsSubstring]: the loop over the start positions. *)
Fixpoint containsSubstring (s substr : string) : bool :=
  GoStrings.HasPrefix s substr ||
  match s with
  | EmptyString => false
  | String _ s' => containsSubstring s' substr
  end.

Section Service.

Variable strconv_ParseFloat : string -> option float.

(** [GetMarketPrice(db, p, now)], [ParseDuration] (a number of days) and
    [ParseRiskLevel], defined elsewhere in the package. *)
Variable GetMarketPrice : posting.Posting -> Time -> Decimal.
Variable ParseDuration : string -> float.
Variable ParseRiskLevel : string -> string.

(** [config.GetCustomValuations()], the postings the store returns for
    [query.Init(db).Like(pattern).All()], and [utils.EndOfToday()]. *)
Variable GetCustomValuations : list config.CustomValuation.
Variable query_Like : string -> list posting.Posting.
Variable EndOfToday : Time.

(** [buildLoan] creates a Loan from a set of postings for an account;
    nil is [None]. *)
Definition buildLoan (account : string) (postings : list posting.Posting)
  (now : Time) : option Loan.t :=
  match postings with
  | [] => None
  | _ =>
      let postings := GoSort.Slice postingBefore postings in
      let startDate := startOf postings in
      let '(principal, currentValue) :=
        totals (fun p => GetMarketPrice p now) postings in
      (* If balance is zero or negative, loan is closed *)
      if LessThanOrEqual currentValue decimal_Zero then None
      else
        let firstNote :=
          match postings with
          | firstPosting :: _ => posting.TransactionNote firstPosting
          | [] => ""
          end in
        let interestRate := parseNoteFloat strconv_ParseFloat firstNote "Int:" in
        let period := parseNoteString firstNote "Per:" in
        let targetDays := ParseDuration (parseNoteString firstNote "Target:") in
        let riskLevel := ParseRiskLevel firstNote in
        let daysHeld := int_of_float (Hours (Time_Sub now startDate) / 24)%float in
        let '(maturityDate, daysToMaturity, percentComplete, status) :=
          if (0 <? targetDays)%float
          then maturity startDate now daysHeld targetDays
          else (None, 0, 0%float, LoanStatusActive) in
        let gainAmount := Sub currentValue principal in
        Some (Loan.mk account principal currentValue gainAmount interestRate
                period startDate maturityDate daysToMaturity daysHeld status
                riskLevel percentComplete postings)
  end.

(** The note filter of [GetLoans] for a rule with [NoteContains]. *)
Definition noteMatches (noteContains n : string) : bool :=
  (0 <? String.length n)%nat && (0 <? String.length noteContains)%nat &&
  (String.eqb n noteContains ||
   ((String.length noteContains <=? String.length n)%nat &&
    String.eqb (GoStrings.takeBytes (String.length noteContains) n) noteContains) ||
   containsSubstring n noteContains).

Definition keepPosting (v : config.CustomValuation) (p : posting.Posting) : bool :=
  let notes := [posting.TransactionNote p; posting.Note p] in
  matchAccountPattern (posting.Account p) (config.Account v) &&
  (String.eqb (config.NoteContains v) "" ||
   existsb (String.eqb (config.NoteContains v)) notes ||
   existsb (noteMatches (config.NoteContains v)) notes).

(** The loans one valuation rule contributes. *)
Definition loansOfRule (now : Time) (v : config.CustomValuation) : list Loan.t :=
  let accountPattern := config.Account v in
  if String.eqb accountPattern "" then []
  else
    let pattern := likePattern accountPattern in
    let postings :=
      if negb (String.eqb (config.NoteContains v) "")
      then filter (keepPosting v) (query_Like pattern)
      else filter (fun p => matchAccountPattern (posting.Account p) accountPattern)
                  (query_Like pattern) in
    let byAccount := GroupBy postings in
    flat_map (fun '(account, ps) =>
                match buildLoan account ps now with
                | Some loan => [loan]
                | None => []
                end)
             byAccount.

(** [GetLoans] returns all tracked loans based on custom valuations
    config. *)
Definition GetLoans : list Loan.t :=
  match GetCustomValuations with
  | [] => []
  | _ =>
      let now := EndOfToday in
      GoSort.Slice loanLess (flat_map (loansOfRule now) GetCustomValuations)
  end.

(** [GetLoanAlerts] returns actionable alerts for loans. *)
Definition GetLoanAlerts : list LoanAlert.t := loanAlerts GetLoans.

(** [GetLoanSummary] returns aggregate statistics about all loans. *)
Definition GetLoanSummary : LoanSummary.t := summarize GetLoans.

End Service.

End LoanService.

(* ================================================================== *)
(** * The loan service with closed loans *)
(* ================================================================== *)

(** The version of the loan service that keeps closed loans (the
    unnamed source file that defines [isLoanClosed]). *)
Module LoanRevision.

Import LoanCommon.

(** [isLoanClosed] checks if any posting has "closed" or "settled" in
    the note. *)
Definition isLoanClosed (postings : list posting.Posting) : bool :=
  existsb
    (fun p =>
       let note := posting.TransactionNote p ++ " " ++ posting.Note p in
       GoStrings.Contains (GoStrings.ToLower note) "closed" ||
       GoStrings.Contains (GoStrings.ToLower note) "settled")
    postings.

Section Service.

Variable strconv_ParseFloat : string -> option float.
Variable GetMarketPrice : posting.Posting -> Time -> Decimal.
Variable ParseDuration : string -> float.
Variable ParseRiskLevel : string -> string.
Variable GetCustomValuations : list config.CustomValuation.
Variable query_Like : string -> list posting.Posting.
Variable EndOfToday : Time.

(** [buildLoan] creates a Loan from a set of postings for an account. *)
Definition buildLoan (account : string) (postings : list posting.Posting)
  (now : Time) : option Loan.t :=
  match postings with
  | [] => None
  | _ =>
      let postings := GoSort.Slice postingBefore postings in
      (* Check if loan is explicitly closed *)
      let isClosed := isLoanClosed postings in
      let startDate := startOf postings in
      (* For closed loans, use actual amount (no interest calculation);
         for active loans, use market price (with interest) *)
      let '(principal, currentValue) :=
        totals (fun p => if isClosed then posting.Amount p
                         else GetMarketPrice p now) postings in
      (* Determine if loan is closed by balance or explicit status *)
      let balanceIsZero := LessThanOrEqual currentValue decimal_Zero in
      let firstNote :=
        match postings with
        | firstPosting :: _ => posting.TransactionNote firstPosting
        | [] => ""
        end in
      let interestRate := parseNoteFloat strconv_ParseFloat firstNote "Int:" in
      let period := parseNoteString firstNote "Per:" in
      let targetDays := ParseDuration (parseNoteString firstNote "Target:") in
      let riskLevel := ParseRiskLevel firstNote in
      let daysHeld := int_of_float (Hours (Time_Sub now startDate) / 24)%float in
      let '(maturityDate, daysToMaturity, percentComplete, status) :=
        if isClosed || balanceIsZero
        then (None, 0, 100%float, LoanStatusClosed)
        else if (0 <? targetDays)%float
        then maturity startDate now daysHeld targetDays
        else (None, 0, 0%float, LoanStatusActive) in
      let gainAmount := Sub currentValue principal in
      (* For closed loans, gain is actual balance (could be 0 or final
         settlement) *)
      let gainAmount :=
        if LoanStatus_eqb status LoanStatusClosed && balanceIsZero
        then decimal_Zero else gainAmount in
      Some (Loan.mk account principal currentValue gainAmount interestRate
              period startDate maturityDate daysToMaturity daysHeld status
              riskLevel percentComplete postings)
  end.

(** The loans one valuation rule contributes: all postings of the
    account pattern, not filtered by [NoteContains]. *)
Definition loansOfRule (now : Time) (v : config.CustomValuation) : list Loan.t :=
  let accountPattern := config.Account v in
  if String.eqb accountPattern "" then []
  else
    let pattern := likePattern accountPattern in
    let postings :=
      filter (fun p => matchAccountPattern (posting.Account p) accountPattern)
             (query_Like pattern) in
    let byAccount := GroupBy postings in
    flat_map (fun '(account, ps) =>
                match buildLoan account ps now with
                | Some loan => [loan]
                | None => []
                end)
             byAccount.

(** [GetLoans] returns all tracked loans based on custom valuations
    config. *)
Definition GetLoans : list Loan.t :=
  match GetCustomValuations with
  | [] => []
  | _ =>
      let now := EndOfToday in
      GoSort.Slice loanLess (flat_map (loansOfRule now) GetCustomValuations)
  end.

(** [GetLoanAlerts] returns actionable alerts for loans. *)
Definition GetLoanAlerts : list LoanAlert.t := loanAlerts GetLoans.

(** [GetLoanSummary] returns aggregate statistics about all loans. *)
Definition GetLoanSummary : LoanSummary.t := summarize GetLoans.

End Service.

End LoanRevision.

(* ================================================================== *)
(** * The handlers of [internal/server/valuation.go] *)
(* ================================================================== *)

Module server.

(** [ValuationPreviewRequest] is the request body for previewing a
    formula. *)
Module ValuationPreviewRequest.
Record t : Type := mk {
  Formula : string;
  Amount : float;
  DaysHeld : float;
  Note : string
}.
End ValuationPreviewRequest.

(** [ValuationValidationResult] represents the validation result for a
    single valuation. *)
Module ValuationValidationResult.
Record t : Type := mk {
  Name : string;
  Account : string;
  Formula : string;
  Valid : bool;
  Error : string
}.
End ValuationValidationResult.

Section Handlers.

Variable strconv_ParseFloat : string -> option float.
Variable math_Pow : float -> float -> float.
Variable Program : Type.
Variable expr_Compile : list Function -> string -> result Program.
Variable expr_Run : Program -> ValuationContext.t -> result any.
Variable GetCustomValuations : list config.CustomValuation.
Variable DefaultCurrency : string.
Variable time_Now : Time.

(** [ValidateValuations] validates all custom valuations in config: the
    entries [valid] and [results] of the answer. *)
Definition ValidateValuations : bool * list ValuationValidationResult.t :=
  fold_left
    (fun '(allValid, results) v =>
       let result :=
         ValuationValidationResult.mk (config.Name v) (config.Account v)
           (config.Formula v) true "" in
       match ValidateFormula strconv_ParseFloat math_Pow Program expr_Compile
               expr_Run time_Now (config.Formula v) with
       | Some err =>
           let result :=
             ValuationValidationResult.mk
               (ValuationValidationResult.Name result)
               (ValuationValidationResult.Account result)
               (ValuationValidationResult.Formula result)
               false err in
           (false, (results ++ [result])%list)
       | None => (allValid, (results ++ [result])%list)
       end)
    GetCustomValuations (true, []).

(** [PreviewValuation] previews a formula with sample data: the entry
    [preview] of the answer. *)
Definition PreviewValuation (request : ValuationPreviewRequest.t)
  : ValuationPreview.t :=
  (* Set defaults *)
  let amount :=
    if (ValuationPreviewRequest.Amount request =? 0)%float
    then 10000%float else ValuationPreviewRequest.Amount request in
  let daysHeld :=
    if (ValuationPreviewRequest.DaysHeld request =? 0)%float
    then 30%float else ValuationPreviewRequest.DaysHeld request in
  PreviewFormula strconv_ParseFloat math_Pow Program expr_Compile expr_Run
    DefaultCurrency time_Now
    (ValuationPreviewRequest.Formula request) amount daysHeld
    (ValuationPreviewRequest.Note request).

End Handlers.

(** The answer of [GetLoansDashboard]: a combined view for the loans
    dashboard. *)
Module Dashboard.
Record t : Type := mk {
  loans : list Loan.t;
  summary : LoanSummary.t;
  alerts : list LoanAlert.t
}.
End Dashboard.

Section Loans.

(** [service.GetLoans(db)], [service.GetLoanSummary(db)] and
    [service.GetLoanAlerts(db)], of either version of the service. *)
Variable service_GetLoans : list Loan.t.
Variable service_GetLoanSummary : LoanSummary.t.
Variable service_GetLoanAlerts : list LoanAlert.t.

(** [GetLoans], [GetLoanSummary] and [GetLoanAlerts]: the entry of the
    answer. *)
Definition GetLoans : list Loan.t := service_GetLoans.
Definition GetLoanSummary : LoanSummary.t := service_GetLoanSummary.
Definition GetLoanAlerts : list LoanAlert.t := service_GetLoanAlerts.


End Loans.

End server.

(* ================================================================== *)
(** * The loans page of the web client *)
(* ================================================================== *)

(** The script of [routes/(app)/loans/+page.svelte]. A JavaScript string
    is kept by the bytes of its UTF-8 form; splitting at an ASCII
    separator cuts both forms at the same places. *)
Module LoansPage.

(** [s.split(sep)] for a non-empty separator: the texts between the
    occurrences of the separator, at least one. *)
Definition split (s sep : string) : list string :=
  GoStrings.splitLoop (String.length s) s sep.

(** [getAccountName]: [parts[parts.length - 1]] of the account split at
    the colons. *)
Definition getAccountName (account : string) : string :=
  let parts := split account ":" in
  nth (List.length parts - 1) parts "".

End LoansPage.

(* ================================================================== *)
(** * A small formula language standing for the [expr] library *)
(* ================================================================== *)

(** The theorems about formulas hold for any compiler and interpreter.
    The examples need one that runs: this module reads and evaluates a
    fragment of the [expr] language (numbers, strings, the variables of
    [ValuationContext], [+ - * /], [<] and [>], parentheses and calls of
    the library functions). A formula outside the fragment is rejected
    here even where the library accepts it. *)
Module MiniExpr.

Inductive token : Type :=
| TNum (f : float)
| TInt (n : Z)
| TStr (s : string)
| TIdent (x : string)
| TSym (c : ascii).

Definition dquote : ascii := ascii_of_nat 34.

Definition isLetter (c : ascii) : bool :=
  GoStrings.inRange 97 122 c || GoStrings.inRange 65 90 c || Ascii.eqb c "_".

Definition isSymbol (c : ascii) : bool :=
  existsb (Ascii.eqb c) (list_ascii_of_string "+-*/(),<>").

(** The longest prefix whose bytes satisfy [p], and the rest. *)
Fixpoint span (p : ascii -> bool) (s : string) : string * string :=
  match s with
  | String c s' =>
      if p c then let '(a, b) := span p s' in (String c a, b)
      else (EmptyString, s)
  | EmptyString => (EmptyString, EmptyString)
  end.

Fixpoint lex (fuel : nat) (s : string) : option (list token) :=
  match fuel with
  | O => None
  | S fuel' =>
      match s with
      | EmptyString => Some []
      | String c s' =>
          if Ascii.eqb c " " then lex fuel' s'
          else if isSymbol c then option_map (cons (TSym c)) (lex fuel' s')
          else if Ascii.eqb c dquote then
            let '(body, rest) := span (fun d => negb (Ascii.eqb d dquote)) s' in
            match rest with
            | String _ rest' => option_map (cons (TStr body)) (lex fuel' rest')
            | EmptyString => None
            end
          else if Strconv.isDigit c then
            let '(num, rest) :=
              span (fun d => Strconv.isDigit d || Ascii.eqb d ".") s in
            if GoStrings.Contains num "." then
              match Strconv.ParseFloat num with
              | Some f => option_map (cons (TNum f)) (lex fuel' rest)
              | None => None
              end
            else
              let '(n, _, _) := Strconv.readDigits num 0 0 in
              option_map (cons (TInt n)) (lex fuel' rest)
          else if isLetter c then
            let '(x, rest) :=
              span (fun d => isLetter d || Strconv.isDigit d) s in
            option_map (cons (TIdent x)) (lex fuel' rest)
          else None
      end
  end.

Inductive expr : Type :=
| ENum (f : float)
| EInt (n : Z)
| EStr (s : string)
| EVar (x : string)
| ENeg (e : expr)
| EBin (op : ascii) (l r : expr)
| ECall (f : string) (args : list expr).

(** What the parser is reading. *)
Inductive goal : Type :=
| GCmp
| GSum
| GSumTail (l : expr)
| GTerm
| GTermTail (l : expr)
| GUnary
| GArgs (f : string) (acc : list expr).

Definition isOp (ops : string) (t : token) : option ascii :=
  match t with
  | TSym c => if existsb (Ascii.eqb c) (list_ascii_of_string ops)
              then Some c else None
  | _ => None
  end.

Fixpoint parse (fuel : nat) (g : goal) (ts : list token)
  : option (expr * list token) :=
  match fuel with
  | O => None
  | S fuel' =>
      match g with
      | GCmp =>
          match parse fuel' GSum ts with
          | Some (l, t :: rest) =>
              match isOp "<>" t with
              | Some op =>
                  match parse fuel' GSum rest with
                  | Some (r, rest') => Some (EBin op l r, rest')
                  | None => None
                  end
              | None => Some (l, t :: rest)
              end
          | other => other
          end
      | GSum =>
          match parse fuel' GTerm ts with
          | Some (l, rest) => parse fuel' (GSumTail l) rest
          | None => None
          end
      | GSumTail l =>
          match ts with
          | t :: rest =>
              match isOp "+-" t with
              | Some op =>
                  match parse fuel' GTerm rest with
                  | Some (r, rest') => parse fuel' (GSumTail (EBin op l r)) rest'
                  | None => None
                  end
              | None => Some (l, ts)
              end
          | [] => Some (l, ts)
          end
      | GTerm =>
          match parse fuel' GUnary ts with
          | Some (l, rest) => parse fuel' (GTermTail l) rest
          | None => None
          end
      | GTermTail l =>
          match ts with
          | t :: rest =>
              match isOp "*/" t with
              | Some op =>
                  match parse fuel' GUnary rest with
                  | Some (r, rest') => parse fuel' (GTermTail (EBin op l r)) rest'
                  | None => None
                  end
              | None => Some (l, ts)
              end
          | [] => Some (l, ts)
          end
      | GUnary =>
          match ts with
          | TNum f :: rest => Some (ENum f, rest)
          | TInt n :: rest => Some (EInt n, rest)
          | TStr s :: rest => Some (EStr s, rest)
          | TIdent x :: TSym "(" :: TSym ")" :: rest => Some (ECall x [], rest)
          | TIdent x :: TSym "(" :: rest => parse fuel' (GArgs x []) rest
          | TIdent x :: rest => Some (EVar x, rest)
          | TSym "-" :: rest =>
              match parse fuel' GUnary rest with
              | Some (e, rest') => Some (ENeg e, rest')
              | None => None
              end
          | TSym "(" :: rest =>
              match parse fuel' GCmp rest with
              | Some (e, TSym ")" :: rest') => Some (e, rest')
              | _ => None
              end
          | _ => None
          end
      | GArgs f acc =>
          match parse fuel' GCmp ts with
          | Some (e, TSym "," :: rest) => parse fuel' (GArgs f (acc ++ [e])%list) rest
          | Some (e, TSym ")" :: rest) => Some (ECall f (acc ++ [e])%list, rest)
          | _ => None
          end
      end
  end.

Definition parseFormula (src : string) : option expr :=
  match lex (S (String.length src)) src with
  | Some ts =>
      match parse (8 * List.length ts + 8) GCmp ts with
      | Some (e, []) => Some e
      | _ => None
      end
  | None => None
  end.

(** Static types of the fragment. *)
Inductive vty : Type := VFloat | VInt | VString | VBool | VTime.

Definition vty_eqb (a b : vty) : bool :=
  match a, b with
  | VFloat, VFloat | VInt, VInt | VString, VString
  | VBool, VBool | VTime, VTime => true
  | _, _ => false
  end.

Definition isNumeric (t : vty) : bool :=
  match t with VFloat | VInt => true | _ => false end.

(** An argument fits a declared parameter type; an integer is accepted
    where a float is declared. *)
Definition fits (arg : vty) (declared : ty) : bool :=
  match declared, arg with
  | TFloat, (VFloat | VInt) => true
  | TString, VString => true
  | TBool, VBool => true
  | _, _ => false
  end.

Definition vty_of_ty (t : ty) : vty :=
  match t with TFloat => VFloat | TString => VString | TBool => VBool end.

(** The variable schema: the fields of [ValuationContext] by their
    [expr] tags. *)
Definition variableType (x : string) : option vty :=
  if existsb (String.eqb x)
       ["amount"; "quantity"; "days_held"; "months_held"; "years_held"]
  then Some VFloat
  else if existsb (String.eqb x) ["note"; "account"; "commodity"]
  then Some VString
  else if String.eqb x "date" then Some VTime
  else None.

Definition variableValue (ctx : ValuationContext.t) (x : string) : option any :=
  if String.eqb x "amount" then Some (AFloat64 (ValuationContext.Amount ctx))
  else if String.eqb x "quantity" then Some (AFloat64 (ValuationContext.Quantity ctx))
  else if String.eqb x "date" then Some (ATime (ValuationContext.Date ctx))
  else if String.eqb x "days_held" then Some (AFloat64 (ValuationContext.DaysHeld ctx))
  else if String.eqb x "months_held" then Some (AFloat64 (ValuationContext.MonthsHeld ctx))
  else if String.eqb x "years_held" then Some (AFloat64 (ValuationContext.YearsHeld ctx))
  else if String.eqb x "note" then Some (AString (ValuationContext.Note ctx))
  else if String.eqb x "account" then Some (AString (ValuationContext.Account ctx))
  else if String.eqb x "commodity" then Some (AString (ValuationContext.Commodity ctx))
  else None.

Definition lookup (functions : list Function) (f : string) : option Function :=
  find (fun fn => String.eqb (fn_name fn) f) functions.

Fixpoint allFit (args : list vty) (declared : list ty) : bool :=
  match args, declared with
  | [], [] => true
  | a :: args', d :: declared' => fits a d && allFit args' declared'
  | _, _ => false
  end.

Section Check.
Variable functions : list Function.

Fixpoint typeOf (e : expr) : result vty :=
  match e with
  | ENum _ => Ok VFloat
  | EInt _ => Ok VInt
  | EStr _ => Ok VString
  | EVar x =>
      match variableType x with
      | Some t => Ok t
      | None => Err ("unknown name " ++ x)
      end
  | ENeg e1 =>
      match typeOf e1 with
      | Ok t => if isNumeric t then Ok t else Err "invalid operation: -"
      | Err m => Err m
      end
  | EBin op l r =>
      match typeOf l, typeOf r with
      | Ok tl, Ok tr =>
          if isNumeric tl && isNumeric tr then
            if Ascii.eqb op "<" || Ascii.eqb op ">" then Ok VBool
            else if Ascii.eqb op "/" then Ok VFloat
            else if vty_eqb tl VInt && vty_eqb tr VInt then Ok VInt
            else Ok VFloat
          else Err ("invalid operation: " ++ String op "" ++ " (mismatched types)")
      | Err m, _ => Err m
      | _, Err m => Err m
      end
  | ECall f args =>
      match lookup functions f with
      | None => Err ("unknown name " ++ f)
      | Some fn =>
          let types :=
            fold_right
              (fun a acc =>
                 match typeOf a, acc with
                 | Ok t, Ok ts => Ok (t :: ts)
                 | Err m, _ => Err m
                 | _, Err m => Err m
                 end)
              (Ok []) args in
          match types with
          | Ok ts =>
              if allFit ts (fn_params fn) then Ok (vty_of_ty (fn_result fn))
              else Err ("cannot use arguments in call to " ++ f)
          | Err m => Err m
          end
      end
  end.

End Check.

(** A compiled formula: its checked syntax tree. *)
Definition Program : Type := expr.

Definition Compile (functions : list Function) (src : string) : result Program :=
  match parseFormula src with
  | None => Err ("unexpected token in " ++ src)
  | Some e =>
      match typeOf functions e with
      | Ok _ => Ok e
      | Err m => Err m
      end
  end.

Definition arith (op : ascii) (a b : any) : result any :=
  match a, b with
  | AInt x, AInt y =>
      if Ascii.eqb op "+" then Ok (AInt (wrap64 (x + y)))
      else if Ascii.eqb op "-" then Ok (AInt (wrap64 (x - y)))
      else if Ascii.eqb op "*" then Ok (AInt (wrap64 (x * y)))
      else if Ascii.eqb op "/" then Ok (AFloat64 (float_of_int x / float_of_int y)%float)
      else if Ascii.eqb op "<" then Ok (ABool (x <? y))
      else if Ascii.eqb op ">" then Ok (ABool (y <? x))
      else Err "unknown operator"
  | AInt _, AFloat64 _ | AFloat64 _, AInt _ | AFloat64 _, AFloat64 _ =>
      let x := toFloat64 a in
      let y := toFloat64 b in
      if Ascii.eqb op "+" then Ok (AFloat64 (x + y)%float)
      else if Ascii.eqb op "-" then Ok (AFloat64 (x - y)%float)
      else if Ascii.eqb op "*" then Ok (AFloat64 (x * y)%float)
      else if Ascii.eqb op "/" then Ok (AFloat64 (x / y)%float)
      else if Ascii.eqb op "<" then Ok (ABool (x <? y)%float)
      else if Ascii.eqb op ">" then Ok (ABool (y <? x)%float)
      else Err "unknown operator"
  | _, _ => Err "invalid operation (mismatched types)"
  end.

(** An integer argument of a parameter declared as float is passed as
    a float. *)
Fixpoint convertArgs (args : list any) (declared : list ty) : list any :=
  match args, declared with
  | a :: args', TFloat :: declared' =>
      AFloat64 (toFloat64 a) :: convertArgs args' declared'
  | a :: args', _ :: declared' => a :: convertArgs args' declared'
  | _, _ => args
  end.

Section Eval.
Variable functions : list Function.
Variable ctx : ValuationContext.t.

Fixpoint eval (e : expr) : result any :=
  match e with
  | ENum f => Ok (AFloat64 f)
  | EInt n => Ok (AInt n)
  | EStr s => Ok (AString s)
  | EVar x =>
      match variableValue ctx x with
      | Some v => Ok v
      | None => Err ("unknown name " ++ x)
      end
  | ENeg e1 =>
      match eval e1 with
      | Ok (AInt n) => Ok (AInt (wrap64 (- n)))
      | Ok (AFloat64 f) => Ok (AFloat64 (- f)%float)
      | Ok _ => Err "invalid operation: -"
      | Err m => Err m
      end
  | EBin op l r =>
      match eval l, eval r with
      | Ok a, Ok b => arith op a b
      | Err m, _ => Err m
      | _, Err m => Err m
      end
  | ECall f args =>
      match lookup functions f with
      | None => Err ("unknown name " ++ f)
      | Some fn =>
          let values :=
            fold_right
              (fun a acc =>
                 match eval a, acc with
                 | Ok v, Ok vs => Ok (v :: vs)
                 | Err m, _ => Err m
                 | _, Err m => Err m
                 end)
              (Ok []) args in
          match values with
          | Ok vs =>
              (* a panic of the function is recovered and reported *)
              match fn_body fn (convertArgs vs (fn_params fn)) with
              | Return v => Ok v
              | Panic m => Err m
              end
          | Err m => Err m
          end
      end
  end.

End Eval.

(** Running a formula compiled with the functions [functions]. *)
Definition Run (functions : list Function) (program : Program)
  (ctx : ValuationContext.t) : result any :=
  eval functions ctx program.

End MiniExpr.

(* ================================================================== *)
(** * Stand-ins for the other missing parts, used by the examples *)
(* ================================================================== *)

Module Examples.

(** For [math.Pow]: powers with a natural-number exponent (below 2^52),
    by repeated multiplication; NaN elsewhere. The examples that look at
    the value of a power raise to such an exponent. *)
Definition Pow (x y : float) : float :=
  match Prim2SF y with
  | S754_zero _ => 1%float
  | S754_finite false m e =>
      if (e <? 0)%Z && (Z.pos m mod 2 ^ (- e) =? 0)%Z
      then Z.iter (Z.pos m / 2 ^ (- e)) (fun acc => (acc * x)%float) 1%float
      else nan
  | _ => nan
  end.

(** For the decimal of a finite float: its exact value. (The library
    takes the shortest decimal that reads back as the float.) *)
Definition decimalOfFinite (f : float) : Decimal :=
  match Prim2SF f with
  | S754_finite s m e =>
      let n := if s then Z.neg m else Z.pos m in
      if (0 <=? e)%Z then inject_Z (n * 2 ^ e)
      else Qred (n # Z.to_pos (2 ^ (- e)))
  | _ => 0%Q
  end.

(** Modelled from the spec: [ParseDuration] reads a duration token and
    gives its number of days, 0 for unknown or empty text. Tokens of the
    form [Nd] are read here; the tokens in years and months, whose
    length in days the specification does not give, read as 0. *)
Definition ParseDuration (token : string) : float :=
  match Strconv.readDigits token 0 0 with
  | (n, S _, "d") => float_of_int n
  | _ => 0%float
  end.

(** Modelled from the spec: [ParseRiskLevel] gives one of high, medium,
    low and unknown, and unknown when the note has no risk token. The
    specification does not give the tokens; none is recognised here. *)
Definition ParseRiskLevel (note : string) : string := "unknown".

(** For [GetMarketPrice]: the price of a posting under a rule whose
    formula is [amount], its amount. *)
Definition GetMarketPrice (p : posting.Posting) (now : Time) : Decimal :=
  posting.Amount p.

Definition functions : list Function := exprFunctions Strconv.ParseFloat Pow.

(** The interpreter of the examples. *)
Definition Run : MiniExpr.Program -> ValuationContext.t -> result any :=
  MiniExpr.Run functions.

Definition day : Z := 24 * Hour.

Definition lineFeed : string := String (ascii_of_nat 10) "".

(** A string literal of a formula. *)
Definition quoted (s : string) : string :=
  String MiniExpr.dquote s ++ String MiniExpr.dquote "".

(** A rule for the accounts under [Assets:p2p:] and a posting of one of
    them, with the note of the tests. *)
Definition p2pRule (formula : string) : config.CustomValuation :=
  config.mkCustomValuation "P2P" "Assets:p2p:*" "" formula.

Definition p2pPosting : posting.Posting :=
  posting.mkPosting "Assets:p2p:Lender1" 10000%Q 1%Q 0 "" "live Int:12 Per:M" "INR".

(** A loan of 100 over 100 days, lent at the epoch or 410 days later; a
    repayment on day 200; the evaluation instant, day 400. *)
Definition now : Time := 400 * day.

Definition lent : posting.Posting :=
  posting.mkPosting "Assets:p2p:Lender1" 100%Q 1%Q 0 ""
    "Int:12 Per:M Target:100d" "INR".

Definition lentLater : posting.Posting :=
  posting.mkPosting "Assets:p2p:Lender1" 100%Q 1%Q (410 * day) ""
    "Int:12 Per:M Target:100d" "INR".

Definition repaid (amount : Decimal) (note : string) : posting.Posting :=
  posting.mkPosting "Assets:p2p:Lender1" amount 1%Q (200 * day) note "" "INR".

(** The two versions of the loan service over the stand-ins, with one
    rule and a store that returns the given postings. *)
Definition buildLoan1 : string -> list posting.Posting -> Time -> option Loan.t :=
  LoanService.buildLoan Strconv.ParseFloat GetMarketPrice ParseDuration
    ParseRiskLevel.

Definition buildLoan2 : string -> list posting.Posting -> Time -> option Loan.t :=
  LoanRevision.buildLoan Strconv.ParseFloat GetMarketPrice ParseDuration
    ParseRiskLevel.

Definition GetLoans1 (postings : list posting.Posting) : list Loan.t :=
  LoanService.GetLoans Strconv.ParseFloat GetMarketPrice ParseDuration
    ParseRiskLevel [p2pRule "amount"] (fun _ => postings) now.

Definition GetLoans2 (postings : list posting.Posting) : list Loan.t :=
  LoanRevision.GetLoans Strconv.ParseFloat GetMarketPrice ParseDuration
    ParseRiskLevel [p2pRule "amount"] (fun _ => postings) now.

Definition noLoan : Loan.t :=
  Loan.mk "" 0%Q 0%Q 0%Q 0%float "" 0 None 0 0 LoanStatusActive "" 0%float [].

(** The loan the revision builds when 150 came back for the 100 lent,
    the loan built on day 50 of the 100, and the loan either version
    builds for a loan lent after the evaluation instant. *)
Definition overpaidLoan : Loan.t :=
  Eval vm_compute in
    match buildLoan2 "Assets:p2p:Lender1" [lent; repaid (-150)%Q ""] now with
    | Some loan => loan
    | None => noLoan
    end.



End Examples.

(* ================================================================== *)
(** * Vocabulary of the statements *)
(* ================================================================== *)

Module Vocabulary.



(** Ranks that do not decrease, and ranks that do not increase, along
    a list. *)
Fixpoint ascending {A : Type} (rank : A -> Z) (l : list A) : Prop :=
  match l with
  | [] => True
  | a :: l' => Forall (fun b => rank a <= rank b) l' /\ ascending rank l'
  end.

Fixpoint descending {A : Type} (rank : A -> Z) (l : list A) : Prop :=
  match l with
  | [] => True
  | a :: l' => Forall (fun b => rank b <= rank a) l' /\ descending rank l'
  end.

(** The groups hold a non-empty group for the account. *)
Definition hasGroup (account : string)
  (groups : list (string * list posting.Posting)) : Prop :=
  exists ps, In (account, ps) groups /\ ps <> [].

End Vocabulary.

(* ================================================================== *)
(** * The wording of the specification, where it is compared *)
(* ================================================================== *)

Module SpecReading.

(** White space: space, tab, line feed, vertical tab, form feed and
    carriage return. *)
Definition isSpace (c : ascii) : bool :=
  Ascii.eqb c " " || GoStrings.inRange 9 13 c.

(** [parse_note_float] as the specification words it: 0 when the prefix
    does not occur; otherwise the text that follows its first occurrence,
    up to the next white space or the end, read as a float, and 0 when
    that fails. *)
Definition parse_note_float (ParseFloat : string -> option float)
  (note pre : string) : float :=
  match GoStrings.Cut note pre with
  | None => 0%float
  | Some (_, after) =>
      match ParseFloat (fst (MiniExpr.span (fun c => negb (isSpace c)) after)) with
      | Some v => v
      | None => 0%float
      end
  end.

End SpecReading.

(** How a pattern is read: which regular expression it stands for, and
    the properties of patterns the theorems speak of. *)
Module Pattern.

Definition isStar (c : ascii) : bool := Ascii.eqb c "*".

(** The regular expression text [matchAccountPattern] aims at. *)
Fixpoint translate (pattern : string) : string :=
  match pattern with
  | EmptyString => EmptyString
  | String c rest =>
      if isStar c then String "." (String "*" (translate rest))
      else if Regexp.special c then String "\" (String c (translate rest))
      else String c (translate rest)
  end.

Fixpoint items_of (pattern : string) : list Regexp.item :=
  match pattern with
  | EmptyString => []
  | String c rest =>
      (if isStar c then Regexp.AnyStar else Regexp.Lit c) :: items_of rest
  end.

Fixpoint noStar (pattern : string) : bool :=
  match pattern with
  | EmptyString => true
  | String c rest => negb (isStar c) && noStar rest
  end.

Fixpoint noLineFeed (s : string) : bool :=
  match s with
  | EmptyString => true
  | String c rest => negb (Ascii.eqb c Regexp.newline) && noLineFeed rest
  end.
End Pattern.

(* ================================================================== *)
(** * Vocabulary of the further properties *)
(* ================================================================== *)

Module Properties.

(** The postings [GetLoans] of [loan.go] keeps for a rule: the account
    matches the pattern, and the [NoteContains] of the rule, when given,
    occurs in the transaction note or in the note of the posting. *)
Definition noteFilter (v : config.CustomValuation) (p : posting.Posting) : bool :=
  matchAccountPattern (posting.Account p) (config.Account v) &&
  (String.eqb (config.NoteContains v) "" ||
   GoStrings.Contains (posting.TransactionNote p) (config.NoteContains v) ||
   GoStrings.Contains (posting.Note p) (config.NoteContains v)).

(** The rule applies to the posting: its account pattern matches the
    account and its [NoteContains], when given, occurs in the
    transaction note. *)
Definition ruleMatches (v : config.CustomValuation) (p : posting.Posting) : bool :=
  matchAccountPattern (posting.Account p) (config.Account v) &&
  (String.eqb (config.NoteContains v) "" ||
   GoStrings.Contains (posting.TransactionNote p) (config.NoteContains v)).

(** The validation result of one rule, for a way of validating a
    formula. *)
Definition resultOf (Validate : string -> option error) (v : config.CustomValuation)
  : server.ValuationValidationResult.t :=
  server.ValuationValidationResult.mk (config.Name v) (config.Account v)
    (config.Formula v)
    (match Validate (config.Formula v) with Some _ => false | None => true end)
    (match Validate (config.Formula v) with Some err => err | None => "" end).

(** How the status of a loan goes with its maturity: with a maturity
    date the status follows the days to maturity; without one the loan
    is active at 0 percent or closed at 100 percent. *)
Definition statusRule (loan : Loan.t) : Prop :=
  match Loan.MaturityDate loan with
  | Some _ =>
      Loan.Status loan =
      if Loan.DaysToMaturity loan <? 0 then LoanStatusOverdue
      else if Loan.DaysToMaturity loan <=? 30 then LoanStatusMaturing
      else LoanStatusActive
  | None =>
      Loan.DaysToMaturity loan = 0 /\
      (Loan.Status loan = LoanStatusActive /\ Loan.PercentComplete loan = 0%float \/
       Loan.Status loan = LoanStatusClosed /\ Loan.PercentComplete loan = 100%float)
  end.

(** No element of the list sorts before an element that precedes it. *)
Fixpoint ordered {A : Type} (less : A -> A -> bool) (l : list A) : Prop :=
  match l with
  | [] => True
  | a :: l' => Forall (fun b => less b a = false) l' /\ ordered less l'
  end.

(** A number read off every entry of a map, added up over the map. *)
Definition total {K V : Type} (f : V -> Z) (m : list (K * V)) : Z :=
  fold_right (fun entry acc => f (snd entry) + acc) 0 m.

Definition totalAmount {K V : Type} (f : V -> Decimal) (m : list (K * V))
  : Decimal :=
  fold_right (fun entry acc => Add (f (snd entry)) acc) decimal_Zero m.

(** The principals of the loans, added up in their order. *)
Definition principals (loans : list Loan.t) : Decimal :=
  fold_left (fun acc loan => Add acc (Loan.Principal loan)) loans decimal_Zero.

(** The note says that the loan is closed or settled, in any letter
    case. *)
Definition saysClosed (note : string) : bool :=
  GoStrings.Contains (GoStrings.ToLower note) "closed" ||
  GoStrings.Contains (GoStrings.ToLower note) "settled".

(** The raw amounts of the postings, added up in their order. *)
Definition rawBalance (postings : list posting.Posting) : Decimal :=
  fold_left (fun acc p => Add acc (posting.Amount p)) postings decimal_Zero.

(** A value that may be passed for a parameter of a declared type (a
    number of any numeric type for a float; the functions convert it),
    and a value of a declared result type. *)
Definition accepts (t : ty) (v : any) : bool :=
  match t, v with
  | TFloat, (AFloat64 _ | AFloat32 _ | AInt _ | AInt64 _ | AInt32 _) => true
  | TString, AString _ => true
  | TBool, ABool _ => true
  | _, _ => false
  end.

Definition gives (t : ty) (v : any) : bool :=
  match t, v with
  | TFloat, AFloat64 _ => true
  | TString, AString _ => true
  | TBool, ABool _ => true
  | _, _ => false
  end.

(** The rule has a pattern, and the store returns for it a posting of
    the account that the pattern matches. *)
Definition ruleCovers (query_Like : string -> list posting.Posting)
  (account : string) (v : config.CustomValuation) : bool :=
  negb (String.eqb (config.Account v) "") &&
  existsb (fun p => matchAccountPattern (posting.Account p) (config.Account v) &&
                    String.eqb (posting.Account p) account)
          (query_Like (LoanCommon.likePattern (config.Account v))).

(** The loans of an account among the loans listed. *)
Definition loansOf (account : string) (loans : list Loan.t) : list Loan.t :=
  filter (fun loan => String.eqb (Loan.Account loan) account) loans.

(** The dashboard of each version of the service, for a configuration,
    a store and an instant. *)
Section Dashboards.

Variable strconv_ParseFloat : string -> option float.
Variable GetMarketPrice : posting.Posting -> Time -> Decimal.
Variable ParseDuration : string -> float.
Variable ParseRiskLevel : string -> string.
Variable GetCustomValuations : list config.CustomValuation.
Variable query_Like : string -> list posting.Posting.
Variable EndOfToday : Time.



End Dashboards.


End Properties.
(* ================================================================== *)
(** * Properties of the string functions *)
(* ================================================================== *)

Module GoStringsFacts.

Import GoStrings.

Lemma CutPrefix_length (s pre rest : string) :
  CutPrefix s pre = Some rest ->
  String.length s = (String.length pre + String.length rest)%nat.
Proof.
  revert s. induction pre as [|p pre IH]; intros s H; simpl in *.
  - now inversion H.
  - destruct s as [|c s]; [discriminate|].
    destruct (Ascii.eqb c p); [|discriminate].
    simpl. now rewrite (IH _ H).
Qed.

Lemma CutPrefix_app (s pre rest : string) :
  CutPrefix s pre = Some rest <-> s = pre ++ rest.
Proof.
  revert s. induction pre as [|p pre IH]; intros s; simpl.
  - split; intros H; [now inversion H | now subst].
  - destruct s as [|c s].
    + split; discriminate.
    + destruct (Ascii.eqb_spec c p) as [->|Hne].
      * rewrite IH. split; intros H; [now subst | now inversion H].
      * split; [discriminate | intros H; inversion H; contradiction].
Qed.

Lemma Cut_length (s sep before after : string) :
  Cut s sep = Some (before, after) ->
  String.length s =
  (String.length before + String.length sep + String.length after)%nat.
Proof.
  revert before. induction s as [|c s IH]; intros before H; simpl in H.
  - destruct (CutPrefix "" sep) eqn:E; [|discriminate].
    inversion H; subst. apply CutPrefix_length in E. simpl in *. lia.
  - destruct (CutPrefix (String c s) sep) eqn:E.
    + inversion H; subst. apply CutPrefix_length in E. simpl in *. lia.
    + destruct (Cut s sep) as [[b a]|] eqn:E'; [|discriminate].
      inversion H; subst. simpl. rewrite (IH _ eq_refl). lia.
Qed.

(** [Cut] splits at an occurrence of the separator. *)
Lemma Cut_app (s sep before after : string) :
  Cut s sep = Some (before, after) -> s = before ++ sep ++ after.
Proof.
  revert before. induction s as [|c s IH]; intros before H; simpl in H.
  - destruct (CutPrefix "" sep) eqn:E; [|discriminate].
    inversion H; subst. now apply CutPrefix_app in E.
  - destruct (CutPrefix (String c s) sep) eqn:E.
    + inversion H; subst. now apply CutPrefix_app in E.
    + destruct (Cut s sep) as [[b a]|] eqn:E'; [|discriminate].
      inversion H; subst. simpl. now rewrite <- (IH _ eq_refl).
Qed.

Lemma Cut_empty_string (sep : string) :
  sep <> "" -> Cut "" sep = None.
Proof. destruct sep; [congruence | reflexivity]. Qed.

(** The first element of the split loop, when the fuel covers the
    text. *)
Lemma splitLoop_first (n : nat) (s sep : string) :
  sep <> "" -> (String.length s <= n)%nat ->
  nth 0 (splitLoop n s sep) "" = upTo sep s.
Proof.
  intros Hsep Hn. unfold upTo. destruct n as [|n]; simpl.
  - destruct s; [|simpl in Hn; lia]. now rewrite Cut_empty_string.
  - destruct (Cut s sep) as [[b a]|]; reflexivity.
Qed.

Lemma Split_first (s sep : string) :
  sep <> "" -> nth 0 (Split s sep) "" = upTo sep s.
Proof.
  intros Hsep. unfold Split. destruct sep; [congruence|].
  now apply splitLoop_first.
Qed.

(** The first two elements of [Split] when the separator occurs. *)
Lemma Split_cut (s sep before after : string) :
  sep <> "" -> Cut s sep = Some (before, after) ->
  exists rest,
    Split s sep = before :: upTo sep after :: rest.
Proof.
  intros Hsep H. pose proof (Cut_length _ _ _ _ H) as Hlen.
  unfold Split. destruct sep as [|c sep]; [congruence|].
  destruct (String.length s) as [|n] eqn:En; [simpl in Hlen; lia|].
  simpl splitLoop. rewrite H.
  assert (Ha : (String.length after <= n)%nat) by (simpl in Hlen; lia).
  pose proof (splitLoop_first n after (String c sep) Hsep Ha) as Hfirst.
  destruct (splitLoop n after (String c sep)) as [|x rest] eqn:Es.
  - destruct n; simpl in Es; [discriminate|].
    destruct (Cut after (String c sep)) as [[? ?]|]; discriminate.
  - simpl in Hfirst. subst x. now exists rest.
Qed.

End GoStringsFacts.

(* ================================================================== *)
(** * The note parser *)
(* ================================================================== *)

Module NoteParserFacts.

Import GoStrings GoStringsFacts.

Section Reader.

Variable ParseFloat : string -> option float.

(** What [parseNoteFloat] hands to [strconv.ParseFloat]: the text after
    the first occurrence of the prefix, cut at the next occurrence of
    the prefix and then at the next space. *)
Lemma parseNoteFloat_token (note pre before after : string) :
  pre <> "" ->
  Cut note pre = Some (before, after) ->
  parseNoteFloat ParseFloat note pre =
  match ParseFloat (upTo " " (upTo pre after)) with
  | Some v => v
  | None => 0%float
  end.
Proof.
  intros Hpre Hcut. unfold parseNoteFloat, Contains. rewrite Hcut. simpl negb.
  cbv iota.
  destruct (Split_cut _ _ _ _ Hpre Hcut) as [rest ->].
  cbn [List.length Nat.ltb Nat.leb nth].
  rewrite Split_first by discriminate. reflexivity.
Qed.

(** C4 (as amended). [parseNoteFloat] returns 0 when the prefix does not
    occur in the note. When a non-empty prefix occurs, it reads the text
    that follows the first occurrence, up to the next occurrence of the
    prefix, the next space character (not any white space) or the end of
    the note, whichever comes first, as a float, and returns 0 when that
    reading fails. The formula function [parse_note_float] returns this
    value for any two strings and never an error. *)
Theorem parseNoteFloat_reads_up_to_space (note pre : string) :
  (Contains note pre = false -> parseNoteFloat ParseFloat note pre = 0%float) /\
  (forall before after,
      pre <> "" -> Cut note pre = Some (before, after) ->
      parseNoteFloat ParseFloat note pre =
      match ParseFloat (upTo " " (upTo pre after)) with
      | Some v => v
      | None => 0%float
      end) /\
  (forall math_Pow,
      fn_parse_note_float ParseFloat [AString note; AString pre] =
      Return (AFloat64 (parseNoteFloat ParseFloat note pre)) /\
      In (mkFunction "parse_note_float" (fn_parse_note_float ParseFloat)
            [TString; TString] TFloat)
         (exprFunctions ParseFloat math_Pow)).
Proof.
  split; [|split].
  - intros H. unfold parseNoteFloat. now rewrite H.
  - intros before after Hpre Hcut. now apply parseNoteFloat_token with before.
  - intros math_Pow. split; [reflexivity | now left].
Qed.

End Reader.

(** C4, a note that the code and the wording of the specification read
    differently: the rate is followed by a line feed. The code cuts at
    spaces only, hands the rate with the next line to the float reader
    and returns 0; read up to the next white space, the note gives
    12.5. *)
Lemma parseNoteFloat_line_feed :
  let note := "Int:12.5" ++ Examples.lineFeed ++ "Per:M" in
  parseNoteFloat Strconv.ParseFloat note "Int:" = 0%float /\
  SpecReading.parse_note_float Strconv.ParseFloat note "Int:" = 12.5%float.
Proof. vm_compute. split; reflexivity. Qed.

(** The examples of the specification and of the tests. *)
Example parseNoteFloat_examples :
  map (fun '(note, pre) => parseNoteFloat Strconv.ParseFloat note pre)
      [ ("Int:12.5 Per:M", "Int:"); ("Int:8 Per:Y", "Int:");
        ("Some note Int:15.25 Per:M more text", "Int:");
        ("No interest here", "Int:"); ("Per:M Int:10", "Int:") ]
  = [12.5; 8; 15.25; 0; 10]%float.
Proof. vm_compute. reflexivity. Qed.

(** With an empty prefix the code reads the second character of the
    note, and a repeated prefix ends the text that is read. *)
Example parseNoteFloat_other_cuts :
  parseNoteFloat Strconv.ParseFloat "12" "" = 2%float /\
  parseNoteFloat Strconv.ParseFloat "Int:1Int:2" "Int:" = 1%float.
Proof. vm_compute. split; reflexivity. Qed.

End NoteParserFacts.

(* ================================================================== *)
(** * The account pattern matcher *)
(* ================================================================== *)

Module PatternFacts.

Import GoStrings GoStringsFacts Pattern.

Lemma special_star : Regexp.special "*" = true.
Proof. reflexivity. Qed.

Lemma special_backslash : Regexp.special "\" = true.
Proof. reflexivity. Qed.

Lemma not_special_neq (c d : ascii) :
  Regexp.special c = false -> Regexp.special d = true -> Ascii.eqb c d = false.
Proof.
  intros Hc Hd. destruct (Ascii.eqb_spec c d) as [->|]; congruence.
Qed.

(** The Examples.quoted text never starts with an unescaped star. *)
Lemma QuoteMeta_head (r : string) :
  match Regexp.QuoteMeta r ++ "$" with
  | EmptyString => None
  | String c s' => if Ascii.eqb c "*" then Some s' else None
  end = None.
Proof.
  destruct r as [|d r]; [reflexivity|]. simpl.
  destruct (Regexp.special d) eqn:E; simpl; [reflexivity|].
  now rewrite (not_special_neq d "*" E special_star).
Qed.

Lemma replaceLoop_quoted (pattern : string) :
  replaceLoop "\*" ".*" 0 (Regexp.QuoteMeta pattern ++ "$") =
  translate pattern ++ "$".
Proof.
  induction pattern as [|c r IH]; [reflexivity|].
  simpl Regexp.QuoteMeta. simpl translate. unfold isStar.
  destruct (Regexp.special c) eqn:Hs.
  - destruct (Ascii.eqb_spec c "*") as [->|Hne].
    + simpl. now rewrite IH.
    + simpl. unfold HasPrefix. simpl.
      destruct (Ascii.eqb_spec c "*"); [contradiction|].
      destruct (Ascii.eqb c "\"); [rewrite QuoteMeta_head|]; now rewrite IH.
  - rewrite (not_special_neq c "*" Hs special_star).
    simpl. unfold HasPrefix. simpl.
    rewrite (not_special_neq c "\" Hs special_backslash). now rewrite IH.
Qed.

Lemma regexPattern_eq (pattern : string) :
  regexPattern pattern = "^" ++ translate pattern ++ "$".
Proof.
  unfold regexPattern, ReplaceAll. simpl.
  unfold HasPrefix. simpl. now rewrite replaceLoop_quoted.
Qed.

Lemma parseItems_translate (pattern : string) :
  Regexp.parseItems (translate pattern ++ "$") = Some (items_of pattern).
Proof.
  induction pattern as [|c r IH]; [reflexivity|].
  simpl translate. simpl items_of. unfold isStar.
  destruct (Ascii.eqb_spec c "*") as [->|Hne].
  - simpl. now rewrite IH.
  - destruct (Regexp.special c) eqn:Hs.
    + simpl. rewrite Hs, IH. reflexivity.
    + simpl.
      rewrite (not_special_neq c "$" Hs eq_refl),
              (not_special_neq c "\" Hs eq_refl),
              (not_special_neq c "." Hs eq_refl), Hs, IH.
      reflexivity.
Qed.

(** The service only builds expressions of the modelled fragment. *)
Lemma regexPattern_parses (pattern : string) :
  Regexp.parse (regexPattern pattern) = Some (items_of pattern).
Proof.
  rewrite regexPattern_eq. simpl. apply parseItems_translate.
Qed.

Lemma matchAccountPattern_items (account pattern : string) :
  matchAccountPattern account pattern =
  Regexp.matchItems (items_of pattern) account.
Proof.
  unfold matchAccountPattern, Regexp.MatchString.
  now rewrite regexPattern_parses.
Qed.

Lemma matchItems_literal (pattern account : string) :
  noStar pattern = true ->
  Regexp.matchItems (items_of pattern) account = String.eqb pattern account.
Proof.
  revert account. induction pattern as [|c r IH]; intros account H.
  - destruct account; reflexivity.
  - simpl in H. apply andb_prop in H as [Hc Hr].
    simpl. destruct (isStar c); [discriminate|].
    destruct account as [|d account]; [reflexivity|].
    simpl. now rewrite IH.
Qed.

Lemma matchItems_any (s : string) :
  Regexp.matchItems [Regexp.AnyStar] s = noLineFeed s.
Proof.
  induction s as [|c s IH]; [reflexivity|].
  simpl in *. now rewrite IH.
Qed.

Lemma matchItems_prefix (lit account : string) :
  noStar lit = true ->
  Regexp.matchItems (items_of (lit ++ "*")) account = true <->
  exists rest, account = lit ++ rest /\ noLineFeed rest = true.
Proof.
  revert account. induction lit as [|c r IH]; intros account H.
  - simpl append. change (items_of "*") with [Regexp.AnyStar].
    rewrite matchItems_any. split.
    + intros Hn. now exists account.
    + intros [rest [-> Hn]]. exact Hn.
  - simpl in H. apply andb_prop in H as [Hc Hr].
    simpl. destruct (isStar c); [discriminate|].
    destruct account as [|d account].
    + split; [discriminate | intros [rest [Hx _]]; discriminate].
    + rewrite andb_true_iff, IH by assumption. split.
      * intros [Hcd [rest [-> Hn]]]. apply Ascii.eqb_eq in Hcd. subst.
        now exists rest.
      * intros [rest [Hx Hn]]. inversion Hx; subst. split.
        -- apply Ascii.eqb_refl.
        -- now exists rest.
Qed.

(** C3. [matchAccountPattern] escapes the regular-expression characters
    of the pattern, reads the wildcard [*] as any remaining characters
    and anchors the expression to the whole account: the account is
    matched against the items of the pattern, each byte a literal and
    each [*] a run of any characters (of one line). A pattern without a
    wildcard matches exactly the account of the same name, and a literal
    followed by [*] matches the accounts that start with the literal. The
    three cases of the specification evaluate as it says. *)
Theorem matchAccountPattern_wildcard :
  (forall account pattern,
      matchAccountPattern account pattern =
      Regexp.matchItems (items_of pattern) account) /\
  (forall account pattern,
      noStar pattern = true ->
      (matchAccountPattern account pattern = true <-> account = pattern)) /\
  (forall account lit,
      noStar lit = true ->
      (matchAccountPattern account (lit ++ "*") = true <->
       exists rest, account = lit ++ rest /\ noLineFeed rest = true)) /\
  matchAccountPattern "Assets:p2p:Lender1" "Assets:p2p:*" = true /\
  matchAccountPattern "Assets:p2p" "Assets:p2p:*" = false /\
  matchAccountPattern "Assets:p2p:Lender1" "Assets:p2p:Lender1" = true.
Proof.
  split; [|split; [|split]].
  - apply matchAccountPattern_items.
  - intros account pattern H.
    rewrite matchAccountPattern_items, matchItems_literal by assumption.
    rewrite String.eqb_eq. split; congruence.
  - intros account lit H. rewrite matchAccountPattern_items.
    now apply matchItems_prefix.
  - vm_compute. repeat split.
Qed.

(** The cases of the test of the matcher. *)
Example matchAccountPattern_tests :
  map (fun '(account, pattern) => matchAccountPattern account pattern)
      [ ("Assets:p2p:Lender1", "Assets:p2p:*");
        ("Assets:p2p:Lender1:Loan1", "Assets:p2p:*");
        ("Assets:p2p", "Assets:p2p:*");
        ("Assets:Equity:Stock", "Assets:p2p:*");
        ("Assets:p2p:Lender1", "Assets:p2p:Lender1");
        ("Assets:p2p:Lender2", "Assets:p2p:Lender1");
        ("Assets:Checking", "Assets:*") ]
  = [true; true; false; false; true; false; true].
Proof. vm_compute. reflexivity. Qed.

End PatternFacts.

(* ================================================================== *)
(** * The function library and the evaluation context *)
(* ================================================================== *)

Module LibraryFacts.

Local Open Scope float_scope.


(** With the power of the examples, a year of quarterly compounding at
    7.5 percent: the value of the test, within its tolerance of 50. *)
Example compound_interest_quarterly :
  match fn_compound_interest Examples.Pow
          [AFloat64 100000; AFloat64 7.5; AFloat64 365; AInt 4] with
  | Return (AFloat64 v) => ((107663 <? v) && (v <? 107763)) = true
  | _ => False
  end.
Proof. vm_compute. reflexivity. Qed.

(** The cases of the specification and of the tests for the interest
    and math functions. *)
Example library_examples :
  fn_simple_interest [AFloat64 100000; AFloat64 7.5; AFloat64 365]
    = Return (AFloat64 7500) /\
  map fn_clamp
      [ [AFloat64 1234.567; AInt 1300; AInt 1500];
        [AFloat64 1234.567; AInt 1000; AInt 1200];
        [AFloat64 1234.567; AInt 1000; AInt 1500] ]
    = map (fun v => Return (AFloat64 v)) [1300; 1200; 1234.567] /\
  map (fun f => f [AFloat64 1234.567]) [fn_round; fn_floor; fn_ceil]
    = map (fun v => Return (AFloat64 v)) [1235; 1234; 1235] /\
  fn_if_else [ABool true; AFloat64 1100; AFloat64 1000] = Return (AFloat64 1100) /\
  fn_sqrt [AInt 144] = Return (AFloat64 12) /\
  fn_pow Examples.Pow [AInt 2; AInt 10] = Return (AFloat64 1024).
Proof. vm_compute. repeat split. Qed.

Import GoNum.


(** A posting of a day and a half before the evaluation instant, and one
    dated a day after it. *)
Example days_held_fraction_and_sign :
  let p (date : Time) := posting.mkPosting "Assets:p2p:A" 100%Q 1%Q date "" "" "INR" in
  ValuationContext.DaysHeld (buildValuationContext (p 0%Z) (36 * Hour)%Z) = 1.5 /\
  ValuationContext.DaysHeld (buildValuationContext (p (24 * Hour)%Z) 0%Z) = -1 /\
  ValuationContext.MonthsHeld (buildValuationContext (p 0%Z) (3044 * Hour)%Z)
    = 3044 / 24 / 30.44.
Proof. vm_compute. repeat split. Qed.

End LibraryFacts.

(* ================================================================== *)
(** * Errors of formulas *)
(* ================================================================== *)

Module EvaluationFacts.

Section Engine.

Variable strconv_ParseFloat : string -> option float.
Variable math_Pow : float -> float -> float.
Variable Program : Type.
Variable expr_Compile : list Function -> string -> result Program.
Variable expr_Run : Program -> ValuationContext.t -> result any.
Variable decimalOfFinite : float -> Decimal.
Variable GetCustomValuations : list config.CustomValuation.
Variable time_Now : Time.

Local Abbreviation fns := (exprFunctions strconv_ParseFloat math_Pow).
Local Abbreviation Evaluate :=
  (EvaluateValuation strconv_ParseFloat math_Pow Program expr_Compile expr_Run
     decimalOfFinite).
Local Abbreviation Validate :=
  (ValidateFormula strconv_ParseFloat math_Pow Program expr_Compile expr_Run
     time_Now).
Local Abbreviation MarketPrice :=
  (GetCustomMarketPrice strconv_ParseFloat math_Pow Program expr_Compile
     expr_Run decimalOfFinite GetCustomValuations).
Local Abbreviation fails :=
  (formulaFails strconv_ParseFloat math_Pow Program expr_Compile expr_Run).




End Engine.




(** The formulas of the validation test. *)
Example ValidateFormula_tests :
  map (fun formula =>
         match ValidateFormula Strconv.ParseFloat Examples.Pow MiniExpr.Program
                 MiniExpr.Compile Examples.Run 0 formula with
         | None => true
         | Some _ => false
         end)
      [ "amount + simple_interest(amount, 12, days_held)"; "amount * 1.1";
        "compound_interest(amount, 8, days_held, 12)";
        "invalid_function(amount)"; "amount +"; Examples.quoted "string result" ]
  = [true; true; true; false; false; false].
Proof. vm_compute. reflexivity. Qed.

(** The end-to-end example of the specification: 10000 lent 30 days
    before the evaluation at 12 percent gives about 10098.63. *)
Example EvaluateValuation_interest :
  let formula :=
    "amount + (amount * parse_note_float(note, " ++ Examples.quoted "Int:" ++
    ") / 100 / 365 * days_held)" in
  match MiniExpr.Compile Examples.functions formula with
  | Ok program =>
      match Examples.Run program
              (buildValuationContext Examples.p2pPosting (30 * Examples.day)) with
      | Ok (AFloat64 v) => ((10098.62 <? v) && (v <? 10098.64))%float = true
      | _ => False
      end
  | Err _ => False
  end.
Proof. vm_compute. reflexivity. Qed.

End EvaluationFacts.

(* ================================================================== *)
(** * Sorting and the alerts *)
(* ================================================================== *)

Module SortPerm.

Import GoSort.

Section Perm.
Context {A : Type} (less : A -> A -> bool).

Lemma insertLeft_perm (x : A) (front : list A) :
  Permutation (insertLeft less x front) (x :: front).
Proof.
  induction front as [|y front IH]; simpl; [reflexivity|].
  destruct (less x y); [|reflexivity].
  rewrite IH. apply perm_swap.
Qed.

(** [sort.Slice] rearranges the slice. *)
Lemma Slice_perm (l : list A) : Permutation (Slice less l) l.
Proof.
  unfold Slice.
  enough (H : forall front,
             Permutation (fold_left (fun front x => insertLeft less x front) l front)
                         (rev l ++ front)).
  { rewrite <- Permutation_rev, (H []), app_nil_r. symmetry. apply Permutation_rev. }
  induction l as [|x l IH]; intros front; simpl; [reflexivity|].
  rewrite IH, insertLeft_perm, <- app_assoc. reflexivity.
Qed.

Lemma Slice_nonempty (l : list A) : l <> [] -> Slice less l <> [].
Proof.
  intros Hl Hs. pose proof (Slice_perm l) as P. rewrite Hs in P.
  apply Permutation_nil in P. contradiction.
Qed.

Lemma existsb_perm (f : A -> bool) (l l' : list A) :
  Permutation l l' -> existsb f l = existsb f l'.
Proof.
  induction 1; simpl; try congruence.
  now rewrite !orb_assoc, (orb_comm (f y)).
Qed.
End Perm.
End SortPerm.

Module SortFacts.

Import GoSort Vocabulary.

Section TwoClasses.

Context {A : Type} (less : A -> A -> bool) (first : A -> bool) (P : A -> Prop).

Hypothesis less_classes :
  forall x y, P x -> P y -> less x y = first x && negb (first y).

Local Abbreviation second := (fun x : A => negb (first x)).





End TwoClasses.

Section Ranked.

Context {A : Type} (less : A -> A -> bool) (rank : A -> Z).

Hypothesis less_rank : forall a b, less a b = true -> rank a <= rank b.
Hypothesis rank_less : forall a b, rank a < rank b -> less a b = true.

Lemma insertLeft_descending (x : A) (front : list A) :
  descending rank front -> descending rank (insertLeft less x front).
Proof.
  induction front as [|y front IH]; intros Hd; simpl.
  - split; [constructor | exact I].
  - destruct Hd as [Hy Hfront]. destruct (less x y) eqn:E.
    + split; [|now apply IH].
      apply (Permutation_Forall (Permutation_sym (SortPerm.insertLeft_perm less x front))).
      constructor; [now apply less_rank | exact Hy].
    + assert (Hyx : rank y <= rank x).
      { destruct (Z_lt_le_dec (rank x) (rank y)) as [Hlt|Hle]; [|exact Hle].
        apply rank_less in Hlt. congruence. }
      split; [|split; assumption].
      constructor; [exact Hyx|].
      eapply Forall_impl; [|exact Hy]. simpl. intros b Hb. lia.
Qed.

Lemma ascending_app (l1 l2 : list A) :
  ascending rank l1 -> ascending rank l2 ->
  (forall a b, In a l1 -> In b l2 -> rank a <= rank b) ->
  ascending rank (l1 ++ l2).
Proof.
  induction l1 as [|a l1 IH]; intros H1 H2 H12; simpl; [exact H2|].
  destruct H1 as [Ha H1]. split.
  - apply Forall_app. split; [exact Ha|].
    apply Forall_forall. intros b Hb. apply H12; [now left | exact Hb].
  - apply IH; trivial. intros a' b Ha' Hb. apply H12; [now right | exact Hb].
Qed.

Lemma descending_rev (l : list A) :
  descending rank l -> ascending rank (rev l).
Proof.
  induction l as [|a l IH]; intros Hd; simpl; [exact I|].
  destruct Hd as [Ha Hl]. apply ascending_app.
  - now apply IH.
  - split; [constructor | exact I].
  - intros x b Hx [<- | []]. apply in_rev in Hx.
    rewrite Forall_forall in Ha. now apply Ha.
Qed.

(** When [less] follows a rank, [sort.Slice] leaves the ranks in
    ascending order. *)
Lemma Slice_ascending (l : list A) : ascending rank (Slice less l).
Proof.
  unfold Slice. apply descending_rev.
  enough (H : forall front,
             descending rank front ->
             descending rank
               (fold_left (fun front x => insertLeft less x front) l front))
    by (apply H; exact I).
  induction l as [|x l IH]; intros front Hd; simpl; [exact Hd|].
  now apply IH, insertLeft_descending.
Qed.

End Ranked.

End SortFacts.

Module AlertFacts.

Import LoanCommon Vocabulary SortFacts.












End AlertFacts.

(* ================================================================== *)
(** * Signs of float operations *)
(* ================================================================== *)

Module FloatFacts.

Import Vocabulary.













End FloatFacts.

(* ================================================================== *)
(** * The loans *)
(* ================================================================== *)

Module GroupFacts.

Import LoanCommon Vocabulary.

Lemma addToGroup_has (p : posting.Posting) groups :
  hasGroup (posting.Account p) (addToGroup p groups).
Proof.
  induction groups as [|[account ps] groups IH]; simpl.
  - exists [p]. split; [now left | discriminate].
  - destruct (String.eqb_spec account (posting.Account p)) as [->|Hne].
    + exists (ps ++ [p])%list. split; [now left|].
      intros H. now apply app_eq_nil in H as [_ H].
    + destruct IH as [ps' [Hin Hne']]. exists ps'. split; [now right | exact Hne'].
Qed.

Lemma addToGroup_keeps (account : string) (p : posting.Posting) groups :
  hasGroup account groups -> hasGroup account (addToGroup p groups).
Proof.
  intros [ps [Hin Hne]].
  induction groups as [|[account' ps'] groups IH]; simpl; [contradiction|].
  destruct Hin as [Heq | Hin].
  - inversion Heq; subst.
    destruct (String.eqb account (posting.Account p)).
    + exists (ps ++ [p])%list. split; [now left|].
      intros H. now apply app_eq_nil in H as [H _].
    + exists ps. split; [now left | exact Hne].
  - destruct (String.eqb account' (posting.Account p)).
    + exists ps. split; [now right | exact Hne].
    + destruct (IH Hin) as [ps'' [Hin'' Hne'']].
      exists ps''. split; [now right | exact Hne''].
Qed.

(** Every posting finds its account among the groups. *)
Lemma GroupBy_has (p : posting.Posting) (postings : list posting.Posting) :
  In p postings -> hasGroup (posting.Account p) (GroupBy postings).
Proof.
  unfold GroupBy.
  enough (H : forall groups,
             In p postings \/ hasGroup (posting.Account p) groups ->
             hasGroup (posting.Account p)
               (fold_left (fun groups p => addToGroup p groups) postings groups))
    by (intros Hin; apply H; now left).
  induction postings as [|q postings IH]; intros groups [Hin | Hg]; simpl.
  - contradiction.
  - exact Hg.
  - destruct Hin as [-> | Hin].
    + apply IH. right. apply addToGroup_has.
    + apply IH. now left.
  - apply IH. right. now apply addToGroup_keeps.
Qed.

End GroupFacts.

Module LoanFacts.

Import LoanCommon SortPerm.


Lemma maturity_not_closed (startDate now : Time) (daysHeld : Z) (targetDays : float) :
  let '(_, _, _, status) := maturity startDate now daysHeld targetDays in
  status <> LoanStatusClosed.
Proof.
  unfold maturity.
  destruct (_ <? 0); [discriminate|]. destruct (_ <=? 30); discriminate.
Qed.

Lemma isLoanClosed_sorted (postings : list posting.Posting) :
  LoanRevision.isLoanClosed (GoSort.Slice postingBefore postings) =
  LoanRevision.isLoanClosed postings.
Proof. apply existsb_perm, Slice_perm. Qed.

Section Service.

Variable strconv_ParseFloat : string -> option float.
Variable GetMarketPrice : posting.Posting -> Time -> Decimal.
Variable ParseDuration : string -> float.
Variable ParseRiskLevel : string -> string.

Local Abbreviation buildLoan1 :=
  (LoanService.buildLoan strconv_ParseFloat GetMarketPrice ParseDuration
     ParseRiskLevel).
Local Abbreviation buildLoan2 :=
  (LoanRevision.buildLoan strconv_ParseFloat GetMarketPrice ParseDuration
     ParseRiskLevel).

Ltac open_buildLoan H postings :=
  destruct postings as [|?p0 ?ps]; [discriminate H|];
  set (sorted := GoSort.Slice postingBefore (_ :: _)) in H;
  destruct (totals _ sorted) as [principal currentValue].


(** C2 (as amended). For every derived loan, in either version of the
    service, the gain is the current value minus the principal, except
    when the status is Closed and the current value is zero or negative
    (not only exactly zero), in which case the gain is 0. *)
Theorem gainAmount_rule (account : string)
  (postings : list posting.Posting) (now : Time) (loan : Loan.t) :
  buildLoan1 account postings now = Some loan \/
  buildLoan2 account postings now = Some loan ->
  Loan.GainAmount loan =
  if LoanStatus_eqb (Loan.Status loan) LoanStatusClosed &&
     LessThanOrEqual (Loan.CurrentValue loan) decimal_Zero
  then decimal_Zero
  else Sub (Loan.CurrentValue loan) (Loan.Principal loan).
Proof.
  intros [H | H].
  - unfold LoanService.buildLoan in H. open_buildLoan H postings.
    destruct (LessThanOrEqual currentValue decimal_Zero) eqn:Hcv; [discriminate|].
    set (targetDays := ParseDuration _) in H.
    set (daysHeld := int_of_float _) in H.
    destruct (0 <? targetDays)%float.
    + destruct (maturity _ _ _ _) as [[[md dtm] pc] st].
      inversion H; subst; simpl. now rewrite Hcv, andb_false_r.
    + inversion H; subst; simpl. reflexivity.
  - unfold LoanRevision.buildLoan in H. open_buildLoan H postings.
    set (targetDays := ParseDuration _) in H.
    set (daysHeld := int_of_float _) in H.
    destruct (LoanRevision.isLoanClosed sorted);
      destruct (LessThanOrEqual currentValue decimal_Zero) eqn:Hcv; simpl in H.
    1-3: inversion H; subst; simpl; now rewrite Hcv.
    destruct (0 <? targetDays)%float.
    + pose proof (maturity_not_closed (startOf sorted) now daysHeld targetDays) as Hm.
      destruct (maturity _ _ _ _) as [[[md dtm] pc] st].
      rewrite andb_false_r in H.
      inversion H; subst; simpl. now rewrite Hcv, andb_false_r.
    + inversion H; subst; simpl. reflexivity.
Qed.

(** In the revision, a loan whose postings carry the closure words, or
    whose current value is not above zero, is built as Closed, complete
    at 100 percent and without a maturity date. *)
Lemma revision_closes (account : string) (postings : list posting.Posting)
  (now : Time) :
  postings <> [] ->
  let sorted := GoSort.Slice postingBefore postings in
  LoanRevision.isLoanClosed postings = true \/
  LessThanOrEqual (snd (totals (fun p => GetMarketPrice p now) sorted))
    decimal_Zero = true ->
  exists loan,
    buildLoan2 account postings now = Some loan /\
    Loan.Account loan = account /\
    Loan.Status loan = LoanStatusClosed /\
    Loan.PercentComplete loan = 100%float /\
    Loan.MaturityDate loan = None.
Proof.
  intros Hne sorted Hclosed. unfold LoanRevision.buildLoan.
  destruct postings as [|p0 ps]; [congruence|].
  rewrite isLoanClosed_sorted. fold sorted.
  destruct (LoanRevision.isLoanClosed (p0 :: ps)) eqn:Hc; cbv iota.
  - destruct (totals (fun p => posting.Amount p) sorted)
      as [principal currentValue].
    simpl orb. cbv iota. eexists. split; [reflexivity|]. simpl. repeat split.
  - destruct Hclosed as [Hx | Hcv]; [discriminate|].
    destruct (totals _ sorted) as [principal currentValue]. simpl in Hcv.
    rewrite Hcv. simpl orb. cbv iota. eexists. split; [reflexivity|].
    simpl. repeat split.
Qed.

(** The revision builds a loan for every account that has a posting. *)
Lemma revision_builds (account : string) (postings : list posting.Posting)
  (now : Time) :
  postings <> [] ->
  exists loan,
    buildLoan2 account postings now = Some loan /\ Loan.Account loan = account.
Proof.
  intros Hne. unfold LoanRevision.buildLoan.
  destruct postings as [|p0 ps]; [congruence|].
  destruct (totals _ _) as [principal currentValue].
  destruct (_ || _).
  - eexists. split; reflexivity.
  - destruct (0 <? _)%float.
    + destruct (maturity _ _ _ _) as [[[md dtm] pc] st].
      eexists. split; reflexivity.
    + eexists. split; reflexivity.
Qed.

End Service.
End LoanFacts.

Module ListingFacts.

Import LoanCommon Vocabulary GroupFacts SortPerm LoanFacts.

Section Service.

Variable strconv_ParseFloat : string -> option float.
Variable GetMarketPrice : posting.Posting -> Time -> Decimal.
Variable ParseDuration : string -> float.
Variable ParseRiskLevel : string -> string.
Variable GetCustomValuations : list config.CustomValuation.
Variable query_Like : string -> list posting.Posting.
Variable EndOfToday : Time.

Local Abbreviation buildLoan2 :=
  (LoanRevision.buildLoan strconv_ParseFloat GetMarketPrice ParseDuration
     ParseRiskLevel).
Local Abbreviation GetLoans2 :=
  (LoanRevision.GetLoans strconv_ParseFloat GetMarketPrice ParseDuration
     ParseRiskLevel GetCustomValuations query_Like EndOfToday).

(** In the revision every account with a posting that matches a rule is
    listed by [GetLoans], with the loan built from its postings. *)
Lemma revision_lists_every_account (v : config.CustomValuation)
  (p : posting.Posting) :
  In v GetCustomValuations ->
  config.Account v <> "" ->
  In p (query_Like (likePattern (config.Account v))) ->
  matchAccountPattern (posting.Account p) (config.Account v) = true ->
  exists ps loan,
    ps <> [] /\
    buildLoan2 (posting.Account p) ps EndOfToday = Some loan /\
    Loan.Account loan = posting.Account p /\
    In loan GetLoans2.
Proof.
  intros Hv Hacc Hp Hm.
  set (postings :=
         filter (fun q => matchAccountPattern (posting.Account q) (config.Account v))
                (query_Like (likePattern (config.Account v)))).
  assert (Hin : In p postings) by (apply filter_In; split; assumption).
  destruct (GroupBy_has p postings Hin) as [ps [Hg Hne]].
  destruct (revision_builds strconv_ParseFloat GetMarketPrice ParseDuration
              ParseRiskLevel (posting.Account p) ps EndOfToday Hne)
    as [loan [Hb Ha]].
  exists ps, loan. repeat split; trivial.
  unfold LoanRevision.GetLoans.
  destruct GetCustomValuations as [|v0 vs] eqn:Ev; [contradiction|].
  rewrite <- Ev.
  apply (Permutation_in _ (Permutation_sym (Slice_perm loanLess _))).
  apply in_flat_map. exists v. split; [now rewrite Ev|].
  unfold LoanRevision.loansOfRule.
  destruct (String.eqb_spec (config.Account v) "") as [E|_]; [contradiction|].
  fold postings. apply in_flat_map. exists (posting.Account p, ps).
  split; [exact Hg|]. rewrite Hb. now left.
Qed.

End Service.
End ListingFacts.

(* ================================================================== *)
(** * The loans of the examples *)
(* ================================================================== *)

Module LoanExamples.

Import LoanCommon.

Local Open Scope float_scope.

(** C1, on [internal/service/loan.go]: the 100 lent have come back, so
    the current value is zero. [buildLoan] returns nil and [GetLoans]
    lists no loan for the account; the version with closed loans builds
    the Closed loan, complete at 100 percent and without a maturity
    date, and lists it. A loan with a note that says settled and 60 still
    out is listed as overdue, not as Closed, by [loan.go], which has no
    check of the notes. *)
Theorem LoanService_drops_closed_loans :
  let account := "Assets:p2p:Lender1" in
  let postings := [Examples.lent; Examples.repaid (-100)%Q ""] in
  let settled := [Examples.lent; Examples.repaid (-40)%Q "settled in part"] in
  Examples.buildLoan1 account postings Examples.now = None /\
  Examples.GetLoans1 postings = [] /\
  match Examples.buildLoan2 account postings Examples.now with
  | Some loan =>
      Loan.Status loan = LoanStatusClosed /\
      Loan.PercentComplete loan = 100 /\
      Loan.MaturityDate loan = None
  | None => False
  end /\
  map Loan.Account (Examples.GetLoans2 postings) = [account] /\
  LoanRevision.isLoanClosed settled = true /\
  map Loan.Status (Examples.GetLoans1 settled) = [LoanStatusOverdue] /\
  map Loan.Status (Examples.GetLoans2 settled) = [LoanStatusClosed].
Proof. vm_compute. repeat split. Qed.

(** C2, a loan of 100 for which 150 came back: the balance is -50, not
    zero, the loan is Closed and its gain is 0, where the current value
    minus the principal is -150. *)
Lemma gainAmount_zero_for_negative_balance :
  let loan := Examples.overpaidLoan in
  Examples.buildLoan2 "Assets:p2p:Lender1"
    [Examples.lent; Examples.repaid (-150)%Q ""] Examples.now = Some loan /\
  Loan.Status loan = LoanStatusClosed /\
  Equal (Loan.CurrentValue loan) (-50)%Q = true /\
  Equal (Loan.Principal loan) 100%Q = true /\
  Equal (Loan.GainAmount loan) decimal_Zero = true /\
  Equal (Loan.GainAmount loan)
        (Sub (Loan.CurrentValue loan) (Loan.Principal loan)) = false.
Proof. vm_compute. repeat split. Qed.

(** [gainAmount_rule] at that loan. *)
Lemma gainAmount_rule_witness :
  Examples.buildLoan2 "Assets:p2p:Lender1"
    [Examples.lent; Examples.repaid (-150)%Q ""] Examples.now
    = Some Examples.overpaidLoan /\
  Loan.GainAmount Examples.overpaidLoan =
  if LoanStatus_eqb (Loan.Status Examples.overpaidLoan) LoanStatusClosed &&
     LessThanOrEqual (Loan.CurrentValue Examples.overpaidLoan) decimal_Zero
  then decimal_Zero
  else Sub (Loan.CurrentValue Examples.overpaidLoan)
           (Loan.Principal Examples.overpaidLoan).
Proof.
  split; [vm_compute; reflexivity|].
  apply (LoanFacts.gainAmount_rule Strconv.ParseFloat Examples.GetMarketPrice
           Examples.ParseDuration Examples.ParseRiskLevel
           "Assets:p2p:Lender1" [Examples.lent; Examples.repaid (-150)%Q ""]
           Examples.now Examples.overpaidLoan).
  right. vm_compute. reflexivity.
Defined.



(** A loan half way through its 100 days, and one a year past them. *)
Example percentComplete_examples :
  map (fun now =>
         match Examples.buildLoan1 "Assets:p2p:Lender1" [Examples.lent] now with
         | Some loan => (Loan.PercentComplete loan, Loan.Status loan)
         | None => (0, LoanStatusClosed)
         end)
      [50 * Examples.day; 80 * Examples.day; 465 * Examples.day]%Z
  = [(50, LoanStatusActive); (80, LoanStatusMaturing); (100, LoanStatusOverdue)].
Proof. vm_compute. reflexivity. Qed.

End LoanExamples.
(* ================================================================== *)
(** * Substrings *)
(* ================================================================== *)

Module SubstringFacts.

Import GoStrings GoStringsFacts.

Lemma append_assoc (a b c : string) : (a ++ b) ++ c = a ++ b ++ c.
Proof. induction a as [|x a IH]; simpl; [reflexivity | now rewrite IH]. Qed.

Lemma append_nil_r (a : string) : a ++ "" = a.
Proof. induction a as [|x a IH]; simpl; [reflexivity | now rewrite IH]. Qed.

(** One step of [Cut]. *)
Lemma Cut_unfold (s sep : string) :
  Cut s sep =
  match CutPrefix s sep with
  | Some after => Some (EmptyString, after)
  | None =>
      match s with
      | EmptyString => None
      | String c s' =>
          match Cut s' sep with
          | Some (before, after) => Some (String c before, after)
          | None => None
          end
      end
  end.
Proof. destruct s; reflexivity. Qed.

(** [Cut] cuts at the first occurrence: the separator does not occur in
    the text before it. *)
Lemma Cut_before_free (s sep before after : string) :
  sep <> "" -> Cut s sep = Some (before, after) -> Cut before sep = None.
Proof.
  intros Hsep. revert before.
  induction s as [|c s IH]; intros before H; rewrite Cut_unfold in H.
  - destruct (CutPrefix "" sep); [|discriminate].
    injection H as <- _. now apply Cut_empty_string.
  - destruct (CutPrefix (String c s) sep) as [r|] eqn:Ep.
    + injection H as <- _. now apply Cut_empty_string.
    + destruct (Cut s sep) as [[b a]|] eqn:Ec; [|discriminate].
      injection H as <- <-.
      rewrite Cut_unfold, (IH b eq_refl).
      destruct (CutPrefix (String c b) sep) as [r|] eqn:Eq; [|reflexivity].
      apply CutPrefix_app in Eq. apply Cut_app in Ec.
      assert (E : CutPrefix (String c s) sep = Some (r ++ sep ++ a)).
      { apply CutPrefix_app. rewrite Ec.
        change (String c (b ++ sep ++ a)) with (String c b ++ sep ++ a).
        rewrite Eq. now rewrite append_assoc. }
      congruence.
Qed.

Lemma Contains_app (x w y : string) : Contains (x ++ w ++ y) w = true.
Proof.
  unfold Contains. induction x as [|c x IH]; rewrite Cut_unfold.
  - simpl. assert (E : CutPrefix (w ++ y) w = Some y) by now apply CutPrefix_app.
    now rewrite E.
  - destruct (CutPrefix _ w); [reflexivity|].
    change (String c x ++ w ++ y) with (String c (x ++ w ++ y)).
    cbv iota. destruct (Cut (x ++ w ++ y) w) as [[b a]|]; [reflexivity|discriminate].
Qed.

(** [Contains] finds the searched text exactly when it stands somewhere in
    the text. *)
Lemma Contains_iff (s w : string) :
  Contains s w = true <-> exists x y, s = x ++ w ++ y.
Proof.
  split.
  - unfold Contains. destruct (Cut s w) as [[b a]|] eqn:E; [|discriminate].
    intros _. exists b, a. now apply Cut_app.
  - intros [x [y ->]]. apply Contains_app.
Qed.

(** The loop over the start positions finds what [Cut] finds. *)
Lemma containsSubstring_eq (s substr : string) :
  LoanService.containsSubstring s substr = Contains s substr.
Proof.
  unfold Contains.
  induction s as [|c s IH]; rewrite Cut_unfold; simpl LoanService.containsSubstring;
    unfold HasPrefix.
  - destruct (CutPrefix "" substr); reflexivity.
  - destruct (CutPrefix (String c s) substr); [reflexivity|].
    rewrite IH. simpl. destruct (Cut s substr) as [[b a]|]; reflexivity.
Qed.

End SubstringFacts.

(* ================================================================== *)
(** * The note texts, the note filter and the account names *)
(* ================================================================== *)

Module NoteStringFacts.

Import GoStrings GoStringsFacts SubstringFacts.

(** The first part of a split holds no separator. *)
Lemma upTo_free (sep s : string) : sep <> "" -> Contains (upTo sep s) sep = false.
Proof.
  intros Hsep. unfold upTo, Contains.
  destruct (Cut s sep) as [[b a]|] eqn:E.
  - now rewrite (Cut_before_free _ _ _ _ Hsep E).
  - now rewrite E.
Qed.

Lemma parseNoteString_cases (note pre : string) :
  parseNoteString note pre = "" \/
  exists text, parseNoteString note pre = upTo " " text.
Proof.
  unfold parseNoteString.
  destruct (negb (Contains note pre)); [now left|].
  destruct (List.length (Split note pre) <? 2)%nat; [now left|].
  right. eexists. apply Split_first. discriminate.
Qed.

(** X1. [parseNoteString] returns the empty string when the prefix does
    not occur in the note, and what it returns never holds a space. When
    a non-empty prefix occurs, the result is the text after its first
    occurrence, cut at the next occurrence of the prefix and at the next
    space. *)
Theorem parseNoteString_token (note pre : string) :
  (Contains note pre = false -> parseNoteString note pre = "") /\
  Contains (parseNoteString note pre) " " = false /\
  (forall before after,
      pre <> "" -> Cut note pre = Some (before, after) ->
      parseNoteString note pre = upTo " " (upTo pre after)).
Proof.
  split; [|split].
  - intros H. unfold parseNoteString. now rewrite H.
  - destruct (parseNoteString_cases note pre) as [-> | [text ->]].
    + reflexivity.
    + apply upTo_free. discriminate.
  - intros before after Hpre Hcut. unfold parseNoteString, Contains.
    rewrite Hcut. simpl negb. cbv iota.
    destruct (Split_cut _ _ _ _ Hpre Hcut) as [rest ->].
    cbn [List.length Nat.ltb Nat.leb nth].
    apply Split_first. discriminate.
Qed.

Section Reader.

Variable ParseFloat : string -> option float.
Hypothesis ParseFloat_empty : ParseFloat "" = None.

(** X2. [parseNoteFloat] is [parseNoteString] followed by the float
    reader: for every note and prefix it returns the number read from
    the text [parseNoteString] returns, and 0 when the reader rejects
    that text. The reader rejects the empty text, as
    [strconv.ParseFloat] does. *)
Theorem parseNoteFloat_of_parseNoteString (note pre : string) :
  parseNoteFloat ParseFloat note pre =
  match ParseFloat (parseNoteString note pre) with
  | Some value => value
  | None => 0%float
  end.
Proof.
  unfold parseNoteFloat, parseNoteString.
  destruct (negb (Contains note pre)); [now rewrite ParseFloat_empty|].
  destruct (List.length (Split note pre) <? 2)%nat;
    [now rewrite ParseFloat_empty | reflexivity].
Qed.

End Reader.

(** [parseNoteFloat_of_parseNoteString] at the reader of the examples and
    a note of the tests. *)
Lemma parseNoteFloat_of_parseNoteString_witness :
  parseNoteFloat Strconv.ParseFloat "live Int:12.5 Per:M" "Int:" = 12.5%float /\
  parseNoteString "live Int:12.5 Per:M" "Int:" = "12.5".
Proof.
  split; [|reflexivity].
  rewrite (parseNoteFloat_of_parseNoteString Strconv.ParseFloat eq_refl).
  reflexivity.
Defined.

End NoteStringFacts.

Module NoteFilterFacts.

Import GoStrings GoStringsFacts SubstringFacts.

Lemma takeBytes_dropBytes (k : nat) (s : string) :
  takeBytes k s ++ dropBytes k s = s.
Proof.
  revert s. induction k as [|k IH]; intros [|c s]; simpl; try reflexivity.
  now rewrite IH.
Qed.

Lemma Contains_self (s : string) : Contains s s = true.
Proof.
  pose proof (Contains_app "" s "") as H. simpl in H.
  now rewrite append_nil_r in H.
Qed.

Lemma Contains_prefix (s rest : string) : Contains (s ++ rest) s = true.
Proof. exact (Contains_app "" s rest). Qed.

Lemma Contains_nonempty (n w : string) :
  w <> "" -> Contains n w = true -> (0 <? String.length n)%nat = true.
Proof.
  intros Hw H. destruct n; [|reflexivity].
  unfold Contains in H. now rewrite Cut_empty_string in H.
Qed.

(** For a [NoteContains] that is not empty, the three tests of the note
    filter come to the search alone. *)
Lemma noteMatches_Contains (noteContains n : string) :
  noteContains <> "" ->
  LoanService.noteMatches noteContains n = Contains n noteContains.
Proof.
  intros Hne. unfold LoanService.noteMatches.
  rewrite containsSubstring_eq.
  destruct (Contains n noteContains) eqn:E.
  - rewrite (Contains_nonempty _ _ Hne E), orb_true_r, andb_true_r.
    destruct noteContains; [congruence | reflexivity].
  - rewrite orb_false_r.
    destruct (String.eqb_spec n noteContains) as [->|_].
    { now rewrite Contains_self in E. }
    destruct (String.eqb_spec (takeBytes (String.length noteContains) n) noteContains)
      as [Ht|_].
    { rewrite <- (takeBytes_dropBytes (String.length noteContains) n), Ht in E.
      now rewrite Contains_prefix in E. }
    rewrite (andb_false_r (_ <=? _)%nat). cbn [orb]. apply andb_false_r.
Qed.

(** X3. The loop of [containsSubstring] decides what [strings.Contains]
    decides, for every text and every text searched for (the empty one
    and one longer than the text included): whether the text is the
    searched text with some text before and after it. *)
Theorem containsSubstring_Contains (s substr : string) :
  LoanService.containsSubstring s substr = Contains s substr /\
  (LoanService.containsSubstring s substr = true <->
   exists before after, s = before ++ substr ++ after).
Proof.
  rewrite containsSubstring_eq. split; [reflexivity | apply Contains_iff].
Qed.

(** The filter of a rule with [NoteContains] is [noteFilter]. *)
Lemma keepPosting_eq (v : config.CustomValuation) (p : posting.Posting) :
  LoanService.keepPosting v p = Properties.noteFilter v p.
Proof.
  unfold LoanService.keepPosting, Properties.noteFilter.
  destruct (String.eqb_spec (config.NoteContains v) "") as [E|Hne]; [reflexivity|].
  f_equal. cbn [existsb]. rewrite !(noteMatches_Contains _ _ Hne), !orb_false_r.
  cbn [orb].
  destruct (String.eqb_spec (config.NoteContains v) (posting.TransactionNote p)) as [<-|_].
  { now rewrite Contains_self. }
  destruct (String.eqb_spec (config.NoteContains v) (posting.Note p)) as [<-|_].
  { rewrite Contains_self. now destruct (Contains _ _). }
  reflexivity.
Qed.

Section Service.

Variable strconv_ParseFloat : string -> option float.
Variable GetMarketPrice : posting.Posting -> Time -> Decimal.
Variable ParseDuration : string -> float.
Variable ParseRiskLevel : string -> string.
Variable query_Like : string -> list posting.Posting.

(** Both branches of [GetLoans] filter with [noteFilter]. *)
Lemma loansOfRule_filter (now : Time) (v : config.CustomValuation) :
  LoanService.loansOfRule strconv_ParseFloat GetMarketPrice ParseDuration
    ParseRiskLevel query_Like now v =
  if String.eqb (config.Account v) "" then []
  else
    flat_map
      (fun '(account, ps) =>
         match LoanService.buildLoan strconv_ParseFloat GetMarketPrice
                 ParseDuration ParseRiskLevel account ps now with
         | Some loan => [loan]
         | None => []
         end)
      (LoanCommon.GroupBy
         (filter (Properties.noteFilter v)
            (query_Like (LoanCommon.likePattern (config.Account v))))).
Proof.
  unfold LoanService.loansOfRule.
  destruct (String.eqb (config.Account v) ""); [reflexivity|].
  do 2 f_equal.
  destruct (String.eqb_spec (config.NoteContains v) "") as [E|Hne]; cbn [negb].
  - apply filter_ext. intros p. unfold Properties.noteFilter.
    rewrite E. cbn. now rewrite andb_true_r.
  - apply filter_ext. intros p. apply keepPosting_eq.
Qed.

(** X4. The filter of [GetLoans] in [loan.go]: a posting is kept for a
    rule exactly when its account matches the pattern of the rule and
    the [NoteContains] of the rule is empty or occurs in the transaction
    note or in the note of the posting; the tests for an equal note and
    for a note that starts with [NoteContains] add nothing to the search
    of [containsSubstring]. The loans of a rule are built from the
    groups of the postings so kept. *)
Theorem loansOfRule_note_filter (now : Time) (v : config.CustomValuation) :
  (forall p, LoanService.keepPosting v p = Properties.noteFilter v p) /\
  LoanService.loansOfRule strconv_ParseFloat GetMarketPrice ParseDuration
    ParseRiskLevel query_Like now v =
  if String.eqb (config.Account v) "" then []
  else
    flat_map
      (fun '(account, ps) =>
         match LoanService.buildLoan strconv_ParseFloat GetMarketPrice
                 ParseDuration ParseRiskLevel account ps now with
         | Some loan => [loan]
         | None => []
         end)
      (LoanCommon.GroupBy
         (filter (Properties.noteFilter v)
            (query_Like (LoanCommon.likePattern (config.Account v))))).
Proof.
  split; [intros p; apply keepPosting_eq | apply loansOfRule_filter].
Qed.

End Service.

End NoteFilterFacts.

Module AccountNameFacts.

Import GoStrings GoStringsFacts SubstringFacts.

Lemma splitLoop_nonempty (n : nat) (s sep : string) : splitLoop n s sep <> [].
Proof.
  destruct n; simpl; [discriminate|].
  destruct (Cut s sep) as [[b a]|]; discriminate.
Qed.

(** The last part of a split holds no separator, and the text ends with
    it, after nothing or after a separator. *)
Lemma splitLoop_last (n : nat) (s sep : string) :
  sep <> "" -> (String.length s <= n)%nat ->
  let parts := splitLoop n s sep in
  let last := nth (List.length parts - 1) parts "" in
  Contains last sep = false /\
  exists front, s = front ++ last /\ (front = "" \/ exists q, front = q ++ sep).
Proof.
  intros Hsep. revert s. induction n as [|n IH]; intros s Hn; simpl.
  - destruct s; [|simpl in Hn; lia].
    split; [unfold Contains; now rewrite Cut_empty_string|].
    exists "". split; [reflexivity | now left].
  - destruct (Cut s sep) as [[b a]|] eqn:E.
    + pose proof (Cut_length _ _ _ _ E) as Hlen.
      assert (Hsep' : (0 < String.length sep)%nat)
        by (destruct sep; [congruence | simpl; lia]).
      assert (Ha : (String.length a <= n)%nat) by lia.
      specialize (IH a Ha). cbv zeta in IH.
      pose proof (splitLoop_nonempty n a sep) as Hne.
      destruct (splitLoop n a sep) as [|x rest]; [congruence|].
      cbn [List.length]. cbn [List.length] in IH.
      replace (S (S (List.length rest)) - 1)%nat with (S (S (List.length rest) - 1))
        by lia.
      cbn [nth]. destruct IH as [Hfree [front [Hs Hfront]]].
      split; [exact Hfree|].
      exists (b ++ sep ++ front). split.
      * rewrite (Cut_app _ _ _ _ E), Hs at 1. now rewrite !append_assoc.
      * right. destruct Hfront as [-> | [q ->]].
        -- exists b. now rewrite append_nil_r.
        -- exists (b ++ sep ++ q). now rewrite !append_assoc.
    + cbn. split; [unfold Contains; now rewrite E|].
      exists "". split; [reflexivity | now left].
Qed.

(** X5. [getAccountName] of the loans page returns the part of the
    account after its last colon: the name holds no colon, the account
    ends with it, what stands before it is empty or ends with a colon,
    and an account without a colon is its own name. *)
Theorem getAccountName_last_part (account : string) :
  let name := LoansPage.getAccountName account in
  Contains name ":" = false /\
  (exists front,
      account = front ++ name /\ (front = "" \/ exists q, front = q ++ ":")) /\
  (Contains account ":" = false -> name = account).
Proof.
  cbv zeta. unfold LoansPage.getAccountName, LoansPage.split.
  destruct (splitLoop_last (String.length account) account ":")
    as [Hfree [front [Hs Hfront]]]; [discriminate | lia |].
  split; [exact Hfree | split].
  - now exists front.
  - intros Hno. destruct Hfront as [-> | [q ->]]; [simpl in Hs; now symmetry|].
    rewrite Hs, append_assoc in Hno. now rewrite Contains_app in Hno.
Qed.

End AccountNameFacts.

(* ================================================================== *)
(** * The rule of a posting, its price and the preview *)
(* ================================================================== *)

Module RuleFacts.

Import Properties.

(** [find] returns the first element that passes the test. *)
Lemma find_first {A : Type} (f : A -> bool) (l : list A) :
  match find f l with
  | Some a =>
      exists before after,
        l = (before ++ a :: after)%list /\ f a = true /\
        Forall (fun b => f b = false) before
  | None => Forall (fun b => f b = false) l
  end.
Proof.
  induction l as [|x l IH]; simpl; [constructor|].
  destruct (f x) eqn:E.
  - exists [], l. repeat split; [exact E | constructor].
  - destruct (find f l) as [a|].
    + destruct IH as [before [after [-> [Ha Hb]]]].
      exists (x :: before), after. repeat split; [exact Ha | now constructor].
    + now constructor.
Qed.

Section Engine.

Variable strconv_ParseFloat : string -> option float.
Variable math_Pow : float -> float -> float.
Variable Program : Type.
Variable expr_Compile : list Function -> string -> result Program.
Variable expr_Run : Program -> ValuationContext.t -> result any.
Variable decimalOfFinite : float -> Decimal.
Variable GetCustomValuations : list config.CustomValuation.
Variable DefaultCurrency : string.
Variable time_Now : Time.

Local Abbreviation fns := (exprFunctions strconv_ParseFloat math_Pow).
Local Abbreviation Find := (FindCustomValuation GetCustomValuations).
Local Abbreviation Evaluate :=
  (EvaluateValuation strconv_ParseFloat math_Pow Program expr_Compile expr_Run
     decimalOfFinite).
Local Abbreviation Validate :=
  (ValidateFormula strconv_ParseFloat math_Pow Program expr_Compile expr_Run
     time_Now).
Local Abbreviation MarketPrice :=
  (GetCustomMarketPrice strconv_ParseFloat math_Pow Program expr_Compile
     expr_Run decimalOfFinite GetCustomValuations).
Local Abbreviation fails :=
  (formulaFails strconv_ParseFloat math_Pow Program expr_Compile expr_Run).
Local Abbreviation Preview :=
  (PreviewFormula strconv_ParseFloat math_Pow Program expr_Compile expr_Run
     DefaultCurrency time_Now).

(** X6. [FindCustomValuation] returns the first rule, in the order of
    the configuration, that applies to the posting: its account pattern
    matches the account and its [NoteContains] is empty or occurs in the
    transaction note; no rule before it applies. It returns nil exactly
    when no rule applies. *)
Theorem FindCustomValuation_first_match (p : posting.Posting) :
  match Find p with
  | Some v =>
      exists before after,
        GetCustomValuations = (before ++ v :: after)%list /\
        ruleMatches v p = true /\
        Forall (fun u => ruleMatches u p = false) before
  | None => Forall (fun u => ruleMatches u p = false) GetCustomValuations
  end.
Proof.
  unfold FindCustomValuation.
  match goal with |- context [find ?f _] => set (test := f) end.
  assert (E : forall v, test v = ruleMatches v p).
  { intros v. unfold test, ruleMatches.
    destruct (matchAccountPattern _ _); [|reflexivity].
    destruct (String.eqb _ ""); [reflexivity|]. cbn.
    now destruct (GoStrings.Contains _ _). }
  pose proof (find_first test GetCustomValuations) as H.
  destruct (find test GetCustomValuations) as [v|].
  - destruct H as [before [after [Hl [Hv Hb]]]].
    exists before, after. rewrite <- E. repeat split; trivial.
    eapply Forall_impl; [|exact Hb]. intros u Hu. now rewrite <- E.
  - eapply Forall_impl; [|exact H]. intros u Hu. now rewrite <- E.
Qed.

(** X7. When [GetCustomMarketPrice] returns, its flag tells whether a
    rule applies to the posting, not whether the formula succeeded: with
    no rule the result is zero and false; with a rule the flag is true
    and the price is the value [EvaluateValuation] returned, or the raw
    amount when that came with an error. It panics only when
    [EvaluateValuation] does. *)
Theorem GetCustomMarketPrice_applied (p : posting.Posting) (evaluationDate : Time) :
  match MarketPrice p evaluationDate with
  | Return (price, applied) =>
      match Find p with
      | Some valuation =>
          applied = true /\
          exists value err,
            Evaluate valuation p evaluationDate = Return (value, err) /\
            price = match err with Some _ => posting.Amount p | None => value end
      | None => applied = false /\ price = decimal_Zero
      end
  | Panic msg =>
      exists valuation,
        Find p = Some valuation /\
        Evaluate valuation p evaluationDate = Panic msg
  end.
Proof.
  unfold GetCustomMarketPrice.
  destruct (Find p) as [valuation|]; [|now split].
  destruct (Evaluate valuation p evaluationDate) as [[value [err|]]|msg] eqn:E;
    cbn [bind].
  - split; [reflexivity|]. now exists value, (Some err).
  - split; [reflexivity|]. now exists value, None.
  - now exists valuation.
Qed.

(** X8. A formula that compiles and runs to a float that is NaN or an
    infinity makes [EvaluateValuation] panic, in [decimal.NewFromFloat]:
    it does not fall back to the raw amount, and [GetCustomMarketPrice]
    panics with it for a posting the rule applies to. *)
Theorem nonfinite_result_panics (valuation : config.CustomValuation)
  (p : posting.Posting) (evaluationDate : Time) (program : Program) (v : float) :
  expr_Compile fns (config.Formula valuation) = Ok program ->
  expr_Run program (buildValuationContext p evaluationDate) = Ok (AFloat64 v) ->
  is_nan v || is_infinity v = true ->
  (exists msg, Evaluate valuation p evaluationDate = Panic msg) /\
  (Find p = Some valuation ->
   exists msg, MarketPrice p evaluationDate = Panic msg).
Proof.
  intros Hc Hr Hv.
  assert (H : exists msg, Evaluate valuation p evaluationDate = Panic msg).
  { unfold EvaluateValuation, functions. rewrite Hc, Hr.
    unfold NewFromFloat. rewrite Hv. cbn. eauto. }
  split; [exact H|].
  intros Hf. destruct H as [msg H]. exists msg.
  unfold GetCustomMarketPrice. now rewrite Hf, H.
Qed.

(** X9. [PreviewFormula] returns the formula it was given; its [Error]
    is empty exactly when the formula compiles and runs in the context
    of the preview. When the formula fails, [Result] is 0 and [Error] is
    the error after ["Compile error: "] or ["Evaluation error: "]. A
    formula that yields a string or a boolean is previewed as 0, with no
    error. *)
Theorem PreviewFormula_error (formula : string) (amount daysHeld : float)
  (note : string) :
  let preview := Preview formula amount daysHeld note in
  let ctx := previewContext time_Now DefaultCurrency amount daysHeld note in
  ValuationPreview.Formula preview = formula /\
  (ValuationPreview.Error preview = "" <-> fails formula ctx = false) /\
  (fails formula ctx = true ->
   ValuationPreview.Result preview = 0%float /\
   exists err,
     ValuationPreview.Error preview = "Compile error: " ++ err \/
     ValuationPreview.Error preview = "Evaluation error: " ++ err) /\
  (forall program res,
      expr_Compile fns formula = Ok program ->
      expr_Run program ctx = Ok res ->
      (exists s, res = AString s) \/ (exists b, res = ABool b) ->
      ValuationPreview.Result preview = 0%float /\
      ValuationPreview.Error preview = "").
Proof.
  cbv zeta. unfold PreviewFormula, formulaFails, functions.
  destruct (expr_Compile fns formula) as [program|err].
  - destruct (expr_Run program _) as [res|err] eqn:Er; cbn.
    + split; [reflexivity|]. split; [easy|]. split; [easy|].
      intros program' res' Hp Hr' Hres. injection Hp as <-.
      rewrite Er in Hr'. injection Hr' as <-.
      now destruct Hres as [[s ->] | [b ->]].
    + split; [reflexivity|]. split; [easy|]. split.
      * intros _. split; [reflexivity|]. now exists err; right.
      * intros program' res' Hp Hr'. injection Hp as <-. congruence.
  - cbn. split; [reflexivity|]. split; [easy|]. split.
    + intros _. split; [reflexivity|]. now exists err; left.
    + discriminate.
Qed.

End Engine.
End RuleFacts.

(* ================================================================== *)
(** * Validation of the rules of the configuration *)
(* ================================================================== *)

Module GoMapFacts.

Import Properties.

Section Map.

Context {K V : Type} (eqb : K -> K -> bool) (zero : V).
Hypothesis eqb_eq : forall a b, eqb a b = true <-> a = b.

Lemma eqb_same (a b c : K) : eqb a b = true -> eqb a c = eqb b c.
Proof. intros H. apply eqb_eq in H. now subst. Qed.

Lemma set_not_empty (m : list (K * V)) (k : K) (v : V) :
  GoMap.set eqb m k v <> [].
Proof.
  destruct m as [|[k0 v0] m]; simpl; [|destruct (eqb k0 k)]; discriminate.
Qed.

(** Reading a map after writing to it. *)
Lemma lookup_set (m : list (K * V)) (k k' : K) (v : V) :
  GoMap.lookup eqb (GoMap.set eqb m k v) k' =
  if eqb k k' then Some v else GoMap.lookup eqb m k'.
Proof.
  induction m as [|[k0 v0] m IH]; simpl; [reflexivity|].
  destruct (eqb k0 k) eqn:E; simpl.
  - rewrite (eqb_same _ _ k' E). now destruct (eqb k k').
  - rewrite IH. destruct (eqb k0 k') eqn:E'; [|reflexivity].
    destruct (eqb k k') eqn:E''; [|reflexivity].
    apply eqb_eq in E', E''. subst.
    assert (eqb k' k' = true) by now apply eqb_eq. congruence.
Qed.

Lemma get_set (m : list (K * V)) (k k' : K) (v : V) :
  GoMap.get eqb zero (GoMap.set eqb m k v) k' =
  if eqb k k' then v else GoMap.get eqb zero m k'.
Proof. unfold GoMap.get. rewrite lookup_set. now destruct (eqb k k'). Qed.

(** Writing to a map changes its total by the difference of the entry
    written and the entry read before. *)
Lemma total_set (f : V -> Z) (m : list (K * V)) (k : K) (v : V) :
  f zero = 0 ->
  total f (GoMap.set eqb m k v) = total f m - f (GoMap.get eqb zero m k) + f v.
Proof.
  intros Hz. unfold GoMap.get.
  induction m as [|[k0 v0] m IH]; simpl; [lia|].
  destruct (eqb k0 k); simpl; lia.
Qed.

Lemma totalAmount_set (f : V -> Decimal) (m : list (K * V)) (k : K) (v : V) :
  f zero == 0 ->
  totalAmount f (GoMap.set eqb m k v) ==
  totalAmount f m - f (GoMap.get eqb zero m k) + f v.
Proof.
  intros Hz. unfold GoMap.get, Add, decimal_Zero.
  induction m as [|[k0 v0] m IH]; simpl.
  - unfold Add, decimal_Zero. rewrite Hz. ring.
  - destruct (eqb k0 k); simpl; unfold Add, decimal_Zero in *.
    + ring.
    + rewrite IH. ring.
Qed.

End Map.

End GoMapFacts.

Module ValidationFacts.

Section Engine.

Variable strconv_ParseFloat : string -> option float.
Variable math_Pow : float -> float -> float.
Variable Program : Type.
Variable expr_Compile : list Function -> string -> result Program.
Variable expr_Run : Program -> ValuationContext.t -> result any.
Variable GetCustomValuations : list config.CustomValuation.
Variable DefaultCurrency : string.
Variable time_Now : Time.

Local Abbreviation Validate :=
  (ValidateFormula strconv_ParseFloat math_Pow Program expr_Compile expr_Run
     time_Now).
Local Abbreviation ValidateAll :=
  (ValidateAllValuations strconv_ParseFloat math_Pow Program expr_Compile
     expr_Run).
Local Abbreviation resultOf := (Properties.resultOf Validate).

(** The errors of [ValidateFormula] are never the empty text. *)
Lemma Validate_message (formula : string) (err : error) :
  Validate formula = Some err -> err <> "".
Proof.
  unfold ValidateFormula.
  destruct (expr_Compile _ formula) as [program|e].
  - destruct (expr_Run program _) as [res|e].
    + destruct res; intros H; try discriminate; injection H as <-; discriminate.
    + intros H. injection H as <-. discriminate.
  - intros H. injection H as <-. discriminate.
Qed.

(** The loop of [ValidateValuations], from any state. *)
Lemma ValidateValuations_fold (valuations : list config.CustomValuation)
  (allValid : bool) (results : list server.ValuationValidationResult.t) :
  fold_left
    (fun '(allValid, results) v =>
       let result :=
         server.ValuationValidationResult.mk (config.Name v) (config.Account v)
           (config.Formula v) true "" in
       match Validate (config.Formula v) with
       | Some err =>
           let result :=
             server.ValuationValidationResult.mk
               (server.ValuationValidationResult.Name result)
               (server.ValuationValidationResult.Account result)
               (server.ValuationValidationResult.Formula result)
               false err in
           (false, (results ++ [result])%list)
       | None => (allValid, (results ++ [result])%list)
       end)
    valuations (allValid, results) =
  (allValid &&
   forallb server.ValuationValidationResult.Valid (map resultOf valuations),
   (results ++ map resultOf valuations)%list).
Proof.
  revert allValid results.
  induction valuations as [|v vs IH]; intros allValid results.
  - cbn. now rewrite andb_true_r, app_nil_r.
  - cbn [fold_left map forallb]. unfold Properties.resultOf at 1 3.
    destruct (Validate (config.Formula v)) as [err|]; cbn zeta; rewrite IH;
      cbn [server.ValuationValidationResult.Valid
           server.ValuationValidationResult.Name
           server.ValuationValidationResult.Account
           server.ValuationValidationResult.Formula];
      rewrite <- app_assoc; cbn [app andb].
    + now rewrite andb_false_r.
    + reflexivity.
Qed.

(** The loop of [ValidateAllValuations] ends with an empty map exactly when
    it started with one and no formula is invalid. *)
Lemma ValidateAll_fold (valuations : list config.CustomValuation)
  (errors : list (string * error)) :
  fold_left
    (fun errors v =>
       match Validate (config.Formula v) with
       | Some err => GoMap.set String.eqb errors (config.Name v) err
       | None => errors
       end)
    valuations errors = [] <->
  errors = [] /\ Forall (fun v => Validate (config.Formula v) = None) valuations.
Proof.
  revert errors. induction valuations as [|v vs IH]; intros errors; cbn [fold_left].
  - split; [intros ->; now split | now intros [-> _]].
  - rewrite IH. split.
    + intros [He Hf]. destruct (Validate (config.Formula v)) eqn:E.
      * now apply GoMapFacts.set_not_empty in He.
      * split; [exact He | now constructor].
    + intros [-> Hf]. inversion_clear Hf as [|? ? Hv Hvs]. rewrite Hv. now split.
Qed.

(** X10. [ValidateValuations] answers with one result for each rule, in
    the order of the configuration, carrying the name, the account
    pattern and the formula of the rule; [valid] is true exactly when
    every result is valid, which is exactly when [ValidateAllValuations]
    of the service returns an empty map. A result is valid exactly when
    its error text is empty. *)
Theorem ValidateValuations_results :
  let '(valid, results) :=
    server.ValidateValuations strconv_ParseFloat math_Pow Program expr_Compile
      expr_Run GetCustomValuations time_Now in
  results = map resultOf GetCustomValuations /\
  valid = forallb server.ValuationValidationResult.Valid results /\
  (valid = true <-> ValidateAll GetCustomValuations time_Now = []) /\
  Forall (fun r =>
            server.ValuationValidationResult.Valid r = true <->
            server.ValuationValidationResult.Error r = "") results.
Proof.
  unfold server.ValidateValuations. rewrite ValidateValuations_fold.
  cbn [app andb]. split; [reflexivity|]. split; [reflexivity|]. split.
  - unfold ValidateAllValuations. rewrite ValidateAll_fold.
    rewrite forallb_forall, Forall_forall. split.
    + intros H. split; [reflexivity|]. intros v Hv.
      specialize (H (resultOf v) (in_map _ _ _ Hv)).
      unfold Properties.resultOf in H.
      now destruct (Validate (config.Formula v)).
    + intros [_ H] r Hr. apply in_map_iff in Hr. destruct Hr as [v [<- Hv]].
      unfold Properties.resultOf. now rewrite (H v Hv).
  - apply Forall_forall. intros r Hr. apply in_map_iff in Hr.
    destruct Hr as [v [<- Hv]]. unfold Properties.resultOf.
    destruct (Validate (config.Formula v)) as [err|] eqn:E; cbn.
    + apply Validate_message in E. split; [discriminate | congruence].
    + now split.
Qed.

Local Abbreviation silent name :=
  (fun u : config.CustomValuation =>
     config.Name u = name -> Validate (config.Formula u) = None).

(** X11. The map of [ValidateAllValuations] holds, under a name, the
    error of the last rule of that name whose formula is invalid (an
    earlier error under the same name is overwritten, a later rule of
    the name with a valid formula does not remove it); it has no entry
    for a name exactly when every rule of that name has a valid
    formula. *)
Theorem ValidateAllValuations_entries (name : string) :
  match GoMap.lookup String.eqb (ValidateAll GetCustomValuations time_Now) name with
  | Some err =>
      exists before v after,
        GetCustomValuations = (before ++ v :: after)%list /\
        config.Name v = name /\
        Validate (config.Formula v) = Some err /\
        Forall (silent name) after
  | None => Forall (silent name) GetCustomValuations
  end.
Proof.
  unfold ValidateAllValuations.
  induction GetCustomValuations as [|v vs IH] using rev_ind; [constructor|].
  rewrite fold_left_app. cbn [fold_left].
  set (errors := fold_left _ vs []) in *.
  assert (Hkeep :
    silent name v ->
    match GoMap.lookup String.eqb errors name with
    | Some err =>
        exists before v0 after,
          (vs ++ [v])%list = (before ++ v0 :: after)%list /\
          config.Name v0 = name /\
          Validate (config.Formula v0) = Some err /\
          Forall (silent name) after
    | None => Forall (silent name) (vs ++ [v])
    end).
  { intros Hs. destruct (GoMap.lookup String.eqb errors name) as [err|].
    - destruct IH as [before [v0 [after [-> [Hn [Hv Ha]]]]]].
      exists before, v0, (after ++ [v])%list. repeat split; trivial.
      + now rewrite <- app_assoc.
      + apply Forall_app. split; [exact Ha | now constructor].
    - apply Forall_app. split; [exact IH | now constructor]. }
  destruct (Validate (config.Formula v)) as [err|] eqn:Ev.
  - rewrite (GoMapFacts.lookup_set String.eqb String.eqb_eq).
    destruct (String.eqb_spec (config.Name v) name) as [Hn|Hn].
    + exists vs, v, []. repeat split; trivial.
    + apply Hkeep. intros Hn'. contradiction.
  - apply Hkeep. now intros _.
Qed.

(** X12. [PreviewValuation] never previews with an amount or a number
    of days that is zero: a zero (of either sign) in the request is
    replaced by 10000 for the amount and by 30 for the days held, any
    other value, NaN included, is passed on as it is, together with the
    formula and the note of the request. *)
Theorem PreviewValuation_defaults (request : server.ValuationPreviewRequest.t) :
  exists amount daysHeld,
    server.PreviewValuation strconv_ParseFloat math_Pow Program expr_Compile
      expr_Run DefaultCurrency time_Now request =
    PreviewFormula strconv_ParseFloat math_Pow Program expr_Compile expr_Run
      DefaultCurrency time_Now
      (server.ValuationPreviewRequest.Formula request) amount daysHeld
      (server.ValuationPreviewRequest.Note request) /\
    (amount =? 0)%float = false /\
    (daysHeld =? 0)%float = false /\
    amount = (if (server.ValuationPreviewRequest.Amount request =? 0)%float
              then 10000%float else server.ValuationPreviewRequest.Amount request) /\
    daysHeld = (if (server.ValuationPreviewRequest.DaysHeld request =? 0)%float
                then 30%float else server.ValuationPreviewRequest.DaysHeld request).
Proof.
  unfold server.PreviewValuation. eexists. eexists.
  split; [reflexivity|].
  split; [|split; [|split; reflexivity]].
  - destruct (server.ValuationPreviewRequest.Amount request =? 0)%float eqn:E;
      [reflexivity | exact E].
  - destruct (server.ValuationPreviewRequest.DaysHeld request =? 0)%float eqn:E;
      [reflexivity | exact E].
Qed.

End Engine.
End ValidationFacts.

(* ================================================================== *)
(** * The loans [GetLoans] returns *)
(* ================================================================== *)

Module LoanListFacts.

Import LoanCommon Vocabulary Properties SortPerm SortFacts.

(** Adding a posting of the list keeps the groups to postings of the list,
    each under its account. *)
Lemma addToGroup_sound (postings : list posting.Posting) (p : posting.Posting)
  (groups : list (string * list posting.Posting)) :
  In p postings ->
  (forall account ps, In (account, ps) groups ->
     ps <> [] /\ Forall (fun q => posting.Account q = account /\ In q postings) ps) ->
  forall account ps, In (account, ps) (addToGroup p groups) ->
     ps <> [] /\ Forall (fun q => posting.Account q = account /\ In q postings) ps.
Proof.
  intros Hp. induction groups as [|[a qs] groups IH]; intros Hg account ps; simpl.
  - intros [H | []]. injection H as <- <-. split; [discriminate|].
    constructor; [now split | constructor].
  - destruct (String.eqb_spec a (posting.Account p)) as [Ha|Ha].
    + intros [H | H].
      * injection H as <- <-. destruct (Hg a qs (or_introl eq_refl)) as [_ Hq].
        split; [intros E; now apply app_eq_nil in E as [_ E]|].
        apply Forall_app. split; [exact Hq|]. constructor; [now split | constructor].
      * apply Hg. now right.
    + intros [H | H].
      * apply Hg. now left.
      * apply IH; [|exact H]. intros a' ps' H'. apply Hg. now right.
Qed.

(** A group of [GroupBy] is not empty and holds postings of the list, all
    of the account of the group. *)
Lemma GroupBy_sound (postings : list posting.Posting) (account : string)
  (ps : list posting.Posting) :
  In (account, ps) (GroupBy postings) ->
  ps <> [] /\ Forall (fun q => posting.Account q = account /\ In q postings) ps.
Proof.
  unfold GroupBy.
  enough (H : forall l groups,
             incl l postings ->
             (forall account ps, In (account, ps) groups ->
                ps <> [] /\
                Forall (fun q => posting.Account q = account /\ In q postings) ps) ->
             forall account ps,
               In (account, ps) (fold_left (fun groups p => addToGroup p groups) l groups) ->
               ps <> [] /\
               Forall (fun q => posting.Account q = account /\ In q postings) ps).
  { apply (H postings []); [apply incl_refl | intros ? ? []]. }
  induction l as [|p l IH]; intros groups Hl Hg; simpl; [exact Hg|].
  apply IH.
  - intros q Hq. apply Hl. now right.
  - apply addToGroup_sound; [apply Hl; now left | exact Hg].
Qed.

(** The principal of the totals loop is never negative. *)
Lemma totals_principal (value : posting.Posting -> Decimal)
  (postings : list posting.Posting) :
  (0 <= fst (totals value postings))%Q.
Proof.
  unfold totals.
  enough (H : forall acc : Decimal * Decimal,
             (0 <= fst acc)%Q ->
             (0 <= fst (fold_left
                          (fun '(principal, currentValue) p =>
                             (if GreaterThan (posting.Amount p) decimal_Zero
                              then Add principal (posting.Amount p) else principal,
                              Add currentValue (value p)))
                          postings acc))%Q)
    by (apply H; simpl; apply Qle_refl).
  induction postings as [|p postings IH]; intros [principal currentValue] Hacc;
    simpl; [exact Hacc|].
  apply IH. simpl.
  destruct (GreaterThan (posting.Amount p) decimal_Zero) eqn:E; [|exact Hacc].
  unfold GreaterThan, decimal_Zero in E. apply negb_true_iff in E.
  assert (Hp : (0 < posting.Amount p)%Q).
  { apply Qnot_le_lt. intros Hle. apply Qle_bool_iff in Hle. congruence. }
  unfold Add. rewrite <- (Qplus_0_l 0). apply Qplus_le_compat; [exact Hacc|].
  now apply Qlt_le_weak.
Qed.

Lemma postingBefore_rank (a b : posting.Posting) :
  postingBefore a b = true -> posting.Date a <= posting.Date b.
Proof. unfold postingBefore, Time_Before. intros H. apply Z.ltb_lt in H. lia. Qed.

Lemma rank_postingBefore (a b : posting.Posting) :
  posting.Date a < posting.Date b -> postingBefore a b = true.
Proof. unfold postingBefore, Time_Before. apply Z.ltb_lt. Qed.

(** With a target duration there is a maturity date, and the status
    follows the days to maturity. *)
Lemma maturity_statusRule (startDate now : Time) (daysHeld : Z) (targetDays : float) :
  let '(maturityDate, daysToMaturity, _, status) :=
    maturity startDate now daysHeld targetDays in
  maturityDate <> None /\
  status = (if daysToMaturity <? 0 then LoanStatusOverdue
            else if daysToMaturity <=? 30 then LoanStatusMaturing
            else LoanStatusActive).
Proof. unfold maturity. split; [discriminate | reflexivity]. Qed.

Section Service.

Variable strconv_ParseFloat : string -> option float.
Variable GetMarketPrice : posting.Posting -> Time -> Decimal.
Variable ParseDuration : string -> float.
Variable ParseRiskLevel : string -> string.
Variable GetCustomValuations : list config.CustomValuation.
Variable query_Like : string -> list posting.Posting.
Variable EndOfToday : Time.

Local Abbreviation buildLoan1 :=
  (LoanService.buildLoan strconv_ParseFloat GetMarketPrice ParseDuration
     ParseRiskLevel).
Local Abbreviation buildLoan2 :=
  (LoanRevision.buildLoan strconv_ParseFloat GetMarketPrice ParseDuration
     ParseRiskLevel).
Local Abbreviation GetLoans1 :=
  (LoanService.GetLoans strconv_ParseFloat GetMarketPrice ParseDuration
     ParseRiskLevel GetCustomValuations query_Like EndOfToday).
Local Abbreviation GetLoans2 :=
  (LoanRevision.GetLoans strconv_ParseFloat GetMarketPrice ParseDuration
     ParseRiskLevel GetCustomValuations query_Like EndOfToday).

Ltac open_built H postings :=
  destruct postings as [|?p0 ?ps]; [discriminate H|];
  set (sorted := GoSort.Slice postingBefore (_ :: _)) in *;
  destruct (totals _ sorted) as [principal currentValue] eqn:Et.

(** The fields of a loan [buildLoan] of [loan.go] returns. *)
Lemma buildLoan1_fields (account : string) (postings : list posting.Posting)
  (now : Time) (loan : Loan.t) :
  buildLoan1 account postings now = Some loan ->
  let sorted := GoSort.Slice postingBefore postings in
  postings <> [] /\
  Loan.Account loan = account /\
  Loan.Postings loan = sorted /\
  Loan.StartDate loan = startOf sorted /\
  Loan.Principal loan = fst (totals (fun p => GetMarketPrice p now) sorted) /\
  Loan.CurrentValue loan = snd (totals (fun p => GetMarketPrice p now) sorted) /\
  LessThanOrEqual (Loan.CurrentValue loan) decimal_Zero = false /\
  Loan.GainAmount loan = Sub (Loan.CurrentValue loan) (Loan.Principal loan) /\
  Loan.Status loan <> LoanStatusClosed /\
  statusRule loan.
Proof.
  intros H. cbv zeta. unfold LoanService.buildLoan in H.
  open_built H postings.
  destruct (LessThanOrEqual currentValue decimal_Zero) eqn:Hcv; [discriminate|].
  set (targetDays := ParseDuration _) in H.
  set (daysHeld := int_of_float _) in H.
  unfold statusRule.
  destruct (0 <? targetDays)%float.
  - pose proof (maturity_statusRule (startOf sorted) now daysHeld targetDays) as Hm.
    pose proof (LoanFacts.maturity_not_closed (startOf sorted) now daysHeld targetDays) as Hn.
    destruct (maturity _ _ _ _) as [[[md dtm] pc] st].
    destruct Hm as [Hmd Hst]. destruct md as [md|]; [|congruence].
    inversion H; subst; simpl. repeat split; trivial; discriminate.
  - inversion H; subst; simpl. repeat split; trivial; try discriminate.
    left. now split.
Qed.

(** The fields of a loan [buildLoan] of the revision returns. *)
Lemma buildLoan2_fields (account : string) (postings : list posting.Posting)
  (now : Time) (loan : Loan.t) :
  buildLoan2 account postings now = Some loan ->
  let sorted := GoSort.Slice postingBefore postings in
  postings <> [] /\
  Loan.Account loan = account /\
  Loan.Postings loan = sorted /\
  Loan.StartDate loan = startOf sorted /\
  Loan.Principal loan =
    fst (totals (fun p => if LoanRevision.isLoanClosed sorted then posting.Amount p
                          else GetMarketPrice p now) sorted) /\
  Loan.CurrentValue loan =
    snd (totals (fun p => if LoanRevision.isLoanClosed sorted then posting.Amount p
                          else GetMarketPrice p now) sorted) /\
  (Loan.Status loan = LoanStatusClosed <->
   LoanRevision.isLoanClosed postings = true \/
   LessThanOrEqual (Loan.CurrentValue loan) decimal_Zero = true) /\
  statusRule loan.
Proof.
  intros H. cbv zeta. unfold LoanRevision.buildLoan in H.
  rewrite <- (LoanFacts.isLoanClosed_sorted postings).
  open_built H postings.
  set (targetDays := ParseDuration _) in H.
  set (daysHeld := int_of_float _) in H.
  unfold statusRule.
  destruct (LoanRevision.isLoanClosed sorted) eqn:Hc; cbn [orb] in H.
  { inversion H; subst; simpl. repeat split; trivial; try discriminate.
    - now left.
    - right. now split. }
  destruct (LessThanOrEqual currentValue decimal_Zero) eqn:Hcv.
  { inversion H; subst; simpl. repeat split; trivial; try discriminate.
    - now right.
    - right. now split. }
  destruct (0 <? targetDays)%float.
  - pose proof (maturity_statusRule (startOf sorted) now daysHeld targetDays) as Hm.
    pose proof (LoanFacts.maturity_not_closed (startOf sorted) now daysHeld targetDays) as Hn.
    destruct (maturity _ _ _ _) as [[[md dtm] pc] st].
    destruct Hm as [Hmd Hst]. destruct md as [md|]; [|congruence].
    inversion H; subst; simpl. repeat split; trivial; try discriminate.
    + intros E. now elim Hn.
    + intros [E | E]; [discriminate | congruence].
  - inversion H; subst; simpl. repeat split; trivial; try discriminate.
    + intros [E | E]; [discriminate | congruence].
    + left. now split.
Qed.

(** Where the loans of [GetLoans] come from, in [loan.go] and in the
    revision. *)
Lemma GetLoans1_built (loan : Loan.t) :
  In loan GetLoans1 ->
  exists v account ps,
    In v GetCustomValuations /\ config.Account v <> "" /\
    In (account, ps)
       (GroupBy (filter (noteFilter v)
                   (query_Like (likePattern (config.Account v))))) /\
    buildLoan1 account ps EndOfToday = Some loan.
Proof.
  unfold LoanService.GetLoans.
  destruct GetCustomValuations as [|v0 vs] eqn:Ev; [contradiction|].
  rewrite <- Ev. intros H.
  apply (Permutation_in _ (Slice_perm loanLess _)) in H.
  apply in_flat_map in H. destruct H as [v [Hv H]].
  rewrite NoteFilterFacts.loansOfRule_filter in H.
  destruct (String.eqb_spec (config.Account v) "") as [E|Hne]; [contradiction|].
  apply in_flat_map in H. destruct H as [[account ps] [Hg H]].
  exists v, account, ps. repeat split; trivial.
  destruct (LoanService.buildLoan _ _ _ _ account ps EndOfToday) as [l|];
    [|contradiction].
  destruct H as [-> | []]. reflexivity.
Qed.

Lemma GetLoans2_built (loan : Loan.t) :
  In loan GetLoans2 ->
  exists v account ps,
    In v GetCustomValuations /\ config.Account v <> "" /\
    In (account, ps)
       (GroupBy (filter (fun p => matchAccountPattern (posting.Account p) (config.Account v))
                   (query_Like (likePattern (config.Account v))))) /\
    buildLoan2 account ps EndOfToday = Some loan.
Proof.
  unfold LoanRevision.GetLoans.
  destruct GetCustomValuations as [|v0 vs] eqn:Ev; [contradiction|].
  rewrite <- Ev. intros H.
  apply (Permutation_in _ (Slice_perm loanLess _)) in H.
  apply in_flat_map in H. destruct H as [v [Hv H]].
  unfold LoanRevision.loansOfRule in H.
  destruct (String.eqb_spec (config.Account v) "") as [E|Hne]; [contradiction|].
  apply in_flat_map in H. destruct H as [[account ps] [Hg H]].
  exists v, account, ps. repeat split; trivial.
  destruct (LoanRevision.buildLoan _ _ _ _ account ps EndOfToday) as [l|];
    [|contradiction].
  destruct H as [-> | []]. reflexivity.
Qed.

(** A group of postings that passed a filter on the account pattern: its
    account matches the pattern. *)
Lemma group_matches (f : posting.Posting -> bool) (pattern account : string)
  (postings ps : list posting.Posting) :
  (forall p, f p = true -> matchAccountPattern (posting.Account p) pattern = true) ->
  In (account, ps) (GroupBy (filter f postings)) ->
  ps <> [] /\
  Forall (fun q => posting.Account q = account) ps /\
  matchAccountPattern account pattern = true.
Proof.
  intros Hf Hg. destruct (GroupBy_sound _ _ _ Hg) as [Hne Hall].
  split; [exact Hne|]. split.
  - eapply Forall_impl; [|exact Hall]. now intros q [Hq _].
  - destruct ps as [|q ps]; [congruence|].
    inversion_clear Hall as [|? ? [Hq Hin] _]. subst account.
    apply filter_In in Hin. now apply Hf.
Qed.

Lemma noteFilter_matches (v : config.CustomValuation) (p : posting.Posting) :
  noteFilter v p = true ->
  matchAccountPattern (posting.Account p) (config.Account v) = true.
Proof. unfold noteFilter. intros H. now apply andb_true_iff in H as [H _]. Qed.

(** The postings of a group, sorted by date. *)
Lemma sorted_postings (account : string) (ps : list posting.Posting) :
  ps <> [] ->
  Forall (fun q => posting.Account q = account) ps ->
  let sorted := GoSort.Slice postingBefore ps in
  sorted <> [] /\
  Forall (fun q => posting.Account q = account) sorted /\
  ascending posting.Date sorted /\
  Forall (fun q => startOf sorted <= posting.Date q) sorted.
Proof.
  intros Hne Hall sorted.
  assert (Hasc : ascending posting.Date sorted)
    by (apply Slice_ascending; [apply postingBefore_rank | apply rank_postingBefore]).
  split; [now apply Slice_nonempty|]. split.
  - eapply Permutation_Forall; [|exact Hall].
    apply Permutation_sym, Slice_perm.
  - split; [exact Hasc|].
    destruct sorted as [|q qs]; [constructor|].
    destruct Hasc as [Hq _]. simpl. constructor; [lia | exact Hq].
Qed.

(** X13. Every loan [GetLoans] of [loan.go] returns has a current value
    above zero, a status other than Closed, and a gain that is the
    current value minus the principal. *)
Theorem loan_go_lists_open_loans :
  Forall (fun loan =>
            GreaterThan (Loan.CurrentValue loan) decimal_Zero = true /\
            Loan.Status loan <> LoanStatusClosed /\
            Loan.GainAmount loan =
              Sub (Loan.CurrentValue loan) (Loan.Principal loan))
         GetLoans1.
Proof.
  apply Forall_forall. intros loan Hin.
  destruct (GetLoans1_built loan Hin) as [v [account [ps [_ [_ [_ Hb]]]]]].
  destruct (buildLoan1_fields _ _ _ _ Hb)
    as [_ [_ [_ [_ [_ [_ [Hcv [Hg [Hs _]]]]]]]]].
  repeat split; trivial.
  unfold GreaterThan. unfold LessThanOrEqual in Hcv. now rewrite Hcv.
Qed.

(** X14. The principal of a loan is never negative, in either version
    of the service: it adds up the amounts above zero only. *)
Theorem principal_not_negative :
  Forall (fun loan => (0 <= Loan.Principal loan)%Q) GetLoans1 /\
  Forall (fun loan => (0 <= Loan.Principal loan)%Q) GetLoans2.
Proof.
  split; apply Forall_forall; intros loan Hin.
  - destruct (GetLoans1_built loan Hin) as [v [account [ps [_ [_ [_ Hb]]]]]].
    destruct (buildLoan1_fields _ _ _ _ Hb) as [_ [_ [_ [_ [-> _]]]]].
    apply totals_principal.
  - destruct (GetLoans2_built loan Hin) as [v [account [ps [_ [_ [_ Hb]]]]]].
    destruct (buildLoan2_fields _ _ _ _ Hb) as [_ [_ [_ [_ [-> _]]]]].
    apply totals_principal.
Qed.

(** X15. The postings of every loan [GetLoans] returns, in either
    version: there is at least one, all are postings of the account of
    the loan, they are in the order of their dates, and the start date
    of the loan is the date of the first, the earliest of all. The
    account of the loan matches the pattern of a rule of the
    configuration. *)
Theorem loan_postings :
  let wellFormed (loan : Loan.t) :=
    Loan.Postings loan <> [] /\
    Forall (fun p => posting.Account p = Loan.Account loan) (Loan.Postings loan) /\
    ascending posting.Date (Loan.Postings loan) /\
    Loan.StartDate loan = startOf (Loan.Postings loan) /\
    Forall (fun p => Loan.StartDate loan <= posting.Date p) (Loan.Postings loan) /\
    exists v,
      In v GetCustomValuations /\
      matchAccountPattern (Loan.Account loan) (config.Account v) = true in
  Forall wellFormed GetLoans1 /\ Forall wellFormed GetLoans2.
Proof.
  cbv zeta. split; apply Forall_forall; intros loan Hin.
  - destruct (GetLoans1_built loan Hin) as [v [account [ps [Hv [_ [Hg Hb]]]]]].
    destruct (group_matches _ _ _ _ _ (noteFilter_matches v) Hg) as [Hne [Hall Hm]].
    destruct (buildLoan1_fields _ _ _ _ Hb) as [_ [-> [-> [-> _]]]].
    destruct (sorted_postings account ps Hne Hall) as [H1 [H2 [H3 H4]]].
    repeat split; trivial. now exists v.
  - destruct (GetLoans2_built loan Hin) as [v [account [ps [Hv [_ [Hg Hb]]]]]].
    destruct (group_matches _ _ _ _ _ (fun p H => H) Hg) as [Hne [Hall Hm]].
    destruct (buildLoan2_fields _ _ _ _ Hb) as [_ [-> [-> [-> _]]]].
    destruct (sorted_postings account ps Hne Hall) as [H1 [H2 [H3 H4]]].
    repeat split; trivial. now exists v.
Qed.

(** X16. The status of every loan [GetLoans] returns, in either version,
    goes with its maturity: with a maturity date the loan is overdue
    when the days to maturity are negative, maturing when they are 0 to
    30, and active otherwise; without one the days to maturity are 0 and
    the loan is active at 0 percent or closed at 100 percent. *)
Theorem status_follows_maturity :
  Forall statusRule GetLoans1 /\ Forall statusRule GetLoans2.
Proof.
  split; apply Forall_forall; intros loan Hin.
  - destruct (GetLoans1_built loan Hin) as [v [account [ps [_ [_ [_ Hb]]]]]].
    now apply buildLoan1_fields in Hb.
  - destruct (GetLoans2_built loan Hin) as [v [account [ps [_ [_ [_ Hb]]]]]].
    now apply buildLoan2_fields in Hb.
Qed.

(** X17. In the version with closed loans, [GetLoans] lists a loan for
    an account exactly when a rule with a pattern has, among the
    postings the store returns for it, a posting of that account which
    the pattern matches: no matched account is dropped, whatever its
    balance and its notes. *)
Theorem revision_lists_matched_accounts (account : string) :
  (exists loan, In loan GetLoans2 /\ Loan.Account loan = account) <->
  (exists v p,
      In v GetCustomValuations /\ config.Account v <> "" /\
      In p (query_Like (likePattern (config.Account v))) /\
      matchAccountPattern (posting.Account p) (config.Account v) = true /\
      posting.Account p = account).
Proof.
  split.
  - intros [loan [Hin Ha]].
    destruct (GetLoans2_built loan Hin) as [v [a [ps [Hv [Hne [Hg Hb]]]]]].
    destruct (GroupBy_sound _ _ _ Hg) as [Hps Hall].
    destruct (buildLoan2_fields _ _ _ _ Hb) as [_ [Hacc _]].
    destruct ps as [|q ps]; [congruence|].
    inversion_clear Hall as [|? ? [Hq Hf] _]. apply filter_In in Hf.
    exists v, q. repeat split; try tauto. congruence.
  - intros [v [p [Hv [Hne [Hp [Hm <-]]]]]].
    destruct (ListingFacts.revision_lists_every_account strconv_ParseFloat
                GetMarketPrice ParseDuration ParseRiskLevel GetCustomValuations
                query_Like EndOfToday v p Hv Hne Hp Hm)
      as [ps [loan [_ [_ [Ha Hin]]]]].
    now exists loan.
Qed.

End Service.
End LoanListFacts.

(* ================================================================== *)
(** * The order of the loans *)
(* ================================================================== *)

Module OrderFacts.

Import GoSort LoanCommon Properties SortPerm.

Section Ordered.

Context {A : Type} (less : A -> A -> bool).

Hypothesis less_asym : forall a b, less a b = true -> less b a = false.
Hypothesis less_negtrans :
  forall a b c, less b a = false -> less c b = false -> less c a = false.

Local Abbreviation more := (fun a b : A => less b a).

(** One pass of the insertion keeps the part before it in order, under an
    order that is asymmetric and whose complement is transitive. *)
Lemma insertLeft_ordered (x : A) (front : list A) :
  ordered more front -> ordered more (insertLeft less x front).
Proof.
  induction front as [|y front IH]; simpl; [now split|].
  intros [Hy Hfront]. destruct (less x y) eqn:E; simpl.
  - split; [|now apply IH].
    eapply Permutation_Forall;
      [apply Permutation_sym, (insertLeft_perm less)|].
    constructor; [now apply less_asym | exact Hy].
  - split; [|now split].
    constructor; [exact E|].
    eapply Forall_impl; [|exact Hy]. intros z Hz. now apply less_negtrans with y.
Qed.

Lemma ordered_app (l1 l2 : list A) :
  ordered less l1 -> ordered less l2 ->
  (forall a b, In a l1 -> In b l2 -> less b a = false) ->
  ordered less (l1 ++ l2).
Proof.
  induction l1 as [|x l1 IH]; simpl; [trivial|].
  intros [Hx H1] H2 H. split.
  - apply Forall_app. split; [exact Hx|].
    apply Forall_forall. intros b Hb. apply H; [now left | exact Hb].
  - apply IH; trivial. intros a b Ha Hb. apply H; [now right | exact Hb].
Qed.

Lemma ordered_rev (front : list A) : ordered more front -> ordered less (rev front).
Proof.
  induction front as [|y front IH]; simpl; [trivial|].
  intros [Hy Hfront]. apply ordered_app; [now apply IH | now split |].
  intros a b Ha [<- | []]. apply in_rev in Ha.
  rewrite Forall_forall in Hy. now apply Hy.
Qed.

(** [sort.Slice] under such an order leaves the slice in order. *)
Lemma Slice_ordered (l : list A) : ordered less (Slice less l).
Proof.
  unfold Slice. apply ordered_rev.
  enough (H : forall front, ordered more front ->
             ordered more (fold_left (fun front x => insertLeft less x front) l front))
    by (apply H; exact I).
  induction l as [|x l IH]; intros front Hf; simpl; [exact Hf|].
  apply IH. now apply insertLeft_ordered.
Qed.

End Ordered.

Lemma ascii_compare_le_trans (a b c : ascii) :
  Ascii.compare a b <> Gt -> Ascii.compare b c <> Gt ->
  Ascii.compare a c <> Gt /\
  (Ascii.compare a c = Eq -> Ascii.compare a b = Eq /\ Ascii.compare b c = Eq).
Proof.
  unfold Ascii.compare.
  destruct (N.compare_spec (N_of_ascii a) (N_of_ascii b));
    destruct (N.compare_spec (N_of_ascii b) (N_of_ascii c));
    destruct (N.compare_spec (N_of_ascii a) (N_of_ascii c));
    try congruence; try lia; intros _ _;
    (split; [congruence | intros E; split; congruence]).
Qed.

(** The byte order of strings is transitive. *)
Lemma string_compare_le_trans (a b c : string) :
  String.compare a b <> Gt -> String.compare b c <> Gt -> String.compare a c <> Gt.
Proof.
  revert b c. induction a as [|x a IH]; intros [|y b] [|z c]; simpl;
    try congruence.
  intros Hab Hbc.
  assert (Hxy : Ascii.compare x y <> Gt) by (destruct (Ascii.compare x y); congruence).
  assert (Hyz : Ascii.compare y z <> Gt) by (destruct (Ascii.compare y z); congruence).
  destruct (ascii_compare_le_trans x y z Hxy Hyz) as [Hxz Heq].
  destruct (Ascii.compare x z) eqn:E; try congruence.
  destruct (Heq eq_refl) as [E1 E2]. rewrite E1 in Hab. rewrite E2 in Hbc.
  now apply IH with b.
Qed.

Lemma string_ltb_asym (a b : string) : String.ltb a b = true -> String.ltb b a = false.
Proof.
  unfold String.ltb. rewrite (String.compare_antisym a b).
  now destruct (String.compare b a).
Qed.

Lemma string_ltb_negtrans (a b c : string) :
  String.ltb b a = false -> String.ltb c b = false -> String.ltb c a = false.
Proof.
  unfold String.ltb. intros Hba Hcb.
  assert (Hab : String.compare a b <> Gt).
  { rewrite String.compare_antisym. destruct (String.compare b a); simpl; congruence. }
  assert (Hbc : String.compare b c <> Gt).
  { rewrite String.compare_antisym. destruct (String.compare c b); simpl; congruence. }
  pose proof (string_compare_le_trans a b c Hab Hbc) as Hac.
  rewrite String.compare_antisym in Hac.
  destruct (String.compare c a); simpl in Hac; congruence.
Qed.

(** The order of [GetLoans] is asymmetric, and its complement is
    transitive. *)
Lemma loanLess_asym (a b : Loan.t) : loanLess a b = true -> loanLess b a = false.
Proof.
  unfold loanLess.
  destruct (Z.eqb_spec (statusOrder (Loan.Status a)) (statusOrder (Loan.Status b)))
    as [E|E]; simpl.
  - rewrite <- E, Z.eqb_refl. simpl. apply string_ltb_asym.
  - destruct (Z.eqb_spec (statusOrder (Loan.Status b)) (statusOrder (Loan.Status a)));
      [congruence|]. simpl. rewrite !Z.ltb_lt, Z.ltb_ge. lia.
Qed.

Lemma loanLess_negtrans (a b c : Loan.t) :
  loanLess b a = false -> loanLess c b = false -> loanLess c a = false.
Proof.
  unfold loanLess.
  destruct (Z.eqb_spec (statusOrder (Loan.Status b)) (statusOrder (Loan.Status a)));
    destruct (Z.eqb_spec (statusOrder (Loan.Status c)) (statusOrder (Loan.Status b)));
    destruct (Z.eqb_spec (statusOrder (Loan.Status c)) (statusOrder (Loan.Status a)));
    simpl; rewrite ?Z.ltb_ge; try lia; try congruence.
  apply string_ltb_negtrans.
Qed.

(** X18. [GetLoans] returns its loans in order, in either version: no
    loan sorts before a loan listed ahead of it. One loan may stand
    ahead of another exactly when its status ranks lower (overdue,
    maturing, active, closed), or the statuses are equal and its account
    is not the greater one, byte by byte. *)
Theorem GetLoans_ordered
  (strconv_ParseFloat : string -> option float)
  (GetMarketPrice : posting.Posting -> Time -> Decimal)
  (ParseDuration : string -> float) (ParseRiskLevel : string -> string)
  (GetCustomValuations : list config.CustomValuation)
  (query_Like : string -> list posting.Posting) (EndOfToday : Time) :
  ordered loanLess
    (LoanService.GetLoans strconv_ParseFloat GetMarketPrice ParseDuration
       ParseRiskLevel GetCustomValuations query_Like EndOfToday) /\
  ordered loanLess
    (LoanRevision.GetLoans strconv_ParseFloat GetMarketPrice ParseDuration
       ParseRiskLevel GetCustomValuations query_Like EndOfToday) /\
  (forall a b,
      loanLess b a = false <->
      statusOrder (Loan.Status a) < statusOrder (Loan.Status b) \/
      statusOrder (Loan.Status a) = statusOrder (Loan.Status b) /\
      String.compare (Loan.Account a) (Loan.Account b) <> Gt).
Proof.
  split; [|split].
  - unfold LoanService.GetLoans. destruct GetCustomValuations; [exact I|].
    apply Slice_ordered; [apply loanLess_asym | apply loanLess_negtrans].
  - unfold LoanRevision.GetLoans. destruct GetCustomValuations; [exact I|].
    apply Slice_ordered; [apply loanLess_asym | apply loanLess_negtrans].
  - intros a b. unfold loanLess, String.ltb.
    pose proof (String.compare_antisym (Loan.Account a) (Loan.Account b)) as Hanti.
    destruct (Z.eqb_spec (statusOrder (Loan.Status b)) (statusOrder (Loan.Status a)))
      as [E|E]; simpl; rewrite ?Z.ltb_ge.
    + destruct (String.compare (Loan.Account b) (Loan.Account a));
        simpl in Hanti; rewrite Hanti; split;
        try (intros H; first [discriminate H | right; split; [lia | discriminate]]);
        intros [H | [_ H]]; first [reflexivity | exfalso; lia | congruence].
    + split; [lia | intros [H | [H _]]; lia].
Qed.

End OrderFacts.

(* ================================================================== *)
(** * The summary of the loans *)
(* ================================================================== *)

Module SummaryFacts.

Import LoanCommon Properties.

Lemma filter_none {A : Type} (f : A -> bool) (l : list A) :
  Forall (fun a => f a = false) l -> filter f l = [].
Proof.
  induction 1 as [|a l Ha _ IH]; simpl; [reflexivity | now rewrite Ha].
Qed.

Lemma LoanStatus_eqb_eq (a b : LoanStatus) : LoanStatus_eqb a b = true <-> a = b.
Proof. destruct a, b; simpl; split; congruence. Qed.

Local Abbreviation statusZero := (StatusSummary.mk 0 decimal_Zero).
Local Abbreviation riskZero := (RiskSummary.mk 0 decimal_Zero).

(** What one loan adds to a summary. *)
Lemma addLoan_fields (summary : LoanSummary.t) (loan : Loan.t) :
  let next := addLoan summary loan in
  LoanSummary.TotalLent next =
    Add (LoanSummary.TotalLent summary) (Loan.Principal loan) /\
  LoanSummary.TotalValue next =
    Add (LoanSummary.TotalValue summary) (Loan.CurrentValue loan) /\
  LoanSummary.TotalGain next =
    Add (LoanSummary.TotalGain summary) (Loan.GainAmount loan) /\
  LoanSummary.TotalAccounts next = LoanSummary.TotalAccounts summary.
Proof. repeat split. Qed.

(** The entry of a status after the loop of [GetLoanSummary], from any
    summary; and the same for a risk level. *)
Lemma summary_by_status (loans : list Loan.t) (summary : LoanSummary.t)
  (status : LoanStatus) :
  let start :=
    GoMap.get LoanStatus_eqb statusZero (LoanSummary.ByStatus summary) status in
  GoMap.lookup LoanStatus_eqb
    (LoanSummary.ByStatus (fold_left addLoan loans summary)) status =
  match filter (fun loan => LoanStatus_eqb (Loan.Status loan) status) loans with
  | [] => GoMap.lookup LoanStatus_eqb (LoanSummary.ByStatus summary) status
  | group =>
      Some (StatusSummary.mk
              (StatusSummary.Count start + Z.of_nat (List.length group))
              (fold_left (fun acc loan => Add acc (Loan.Principal loan)) group
                 (StatusSummary.Amount start)))
  end.
Proof.
  revert summary. induction loans as [|loan loans IH]; intros summary;
    [reflexivity|].
  cbn [fold_left filter]. rewrite IH. clear IH.
  cbn [addLoan LoanSummary.ByStatus].
  rewrite (GoMapFacts.get_set LoanStatus_eqb statusZero LoanStatus_eqb_eq),
          (GoMapFacts.lookup_set LoanStatus_eqb LoanStatus_eqb_eq).
  destruct (LoanStatus_eqb (Loan.Status loan) status) eqn:E.
  - apply LoanStatus_eqb_eq in E. subst status.
    destruct (filter _ loans) as [|l group]; cbn [List.length fold_left StatusSummary.Count StatusSummary.Amount];
      do 2 f_equal; lia.
  - reflexivity.
Qed.

Lemma summary_by_risk (loans : list Loan.t) (summary : LoanSummary.t)
  (risk : string) :
  let start :=
    GoMap.get String.eqb riskZero (LoanSummary.ByRisk summary) risk in
  GoMap.lookup String.eqb
    (LoanSummary.ByRisk (fold_left addLoan loans summary)) risk =
  match filter (fun loan => String.eqb (Loan.RiskLevel loan) risk) loans with
  | [] => GoMap.lookup String.eqb (LoanSummary.ByRisk summary) risk
  | group =>
      Some (RiskSummary.mk
              (RiskSummary.Count start + Z.of_nat (List.length group))
              (fold_left (fun acc loan => Add acc (Loan.Principal loan)) group
                 (RiskSummary.Amount start)))
  end.
Proof.
  revert summary. induction loans as [|loan loans IH]; intros summary;
    [reflexivity|].
  cbn [fold_left filter]. rewrite IH. clear IH.
  cbn [addLoan LoanSummary.ByRisk].
  rewrite (GoMapFacts.get_set String.eqb riskZero String.eqb_eq),
          (GoMapFacts.lookup_set String.eqb String.eqb_eq).
  destruct (String.eqb (Loan.RiskLevel loan) risk) eqn:E.
  - apply String.eqb_eq in E. subst risk.
    destruct (filter _ loans) as [|l group]; cbn [List.length fold_left RiskSummary.Count RiskSummary.Amount];
      do 2 f_equal; lia.
  - reflexivity.
Qed.

(** X19. In the summary, the entry of [by_status] for a status counts
    the loans of that status and adds up their principals, and a status
    that no loan has gets no entry; the same holds of [by_risk] and the
    risk levels. *)
Theorem summary_counts_by_status_and_risk (loans : list Loan.t) :
  (forall status,
      GoMap.lookup LoanStatus_eqb (LoanSummary.ByStatus (summarize loans)) status =
      match filter (fun loan => LoanStatus_eqb (Loan.Status loan) status) loans with
      | [] => None
      | group =>
          Some (StatusSummary.mk (Z.of_nat (List.length group)) (principals group))
      end) /\
  (forall risk,
      GoMap.lookup String.eqb (LoanSummary.ByRisk (summarize loans)) risk =
      match filter (fun loan => String.eqb (Loan.RiskLevel loan) risk) loans with
      | [] => None
      | group =>
          Some (RiskSummary.mk (Z.of_nat (List.length group)) (principals group))
      end).
Proof.
  split.
  - intros status. unfold summarize. rewrite summary_by_status. reflexivity.
  - intros risk. unfold summarize. rewrite summary_by_risk. reflexivity.
Qed.

(** The loop of [GetLoanSummary] keeps the counts and the amounts of both
    maps in step with the loans it has seen. *)
Lemma summary_sums (loans : list Loan.t) (summary : LoanSummary.t) (n : Z) :
  total StatusSummary.Count (LoanSummary.ByStatus summary) = n ->
  total RiskSummary.Count (LoanSummary.ByRisk summary) = n ->
  totalAmount StatusSummary.Amount (LoanSummary.ByStatus summary) ==
    LoanSummary.TotalLent summary ->
  totalAmount RiskSummary.Amount (LoanSummary.ByRisk summary) ==
    LoanSummary.TotalLent summary ->
  let final := fold_left addLoan loans summary in
  total StatusSummary.Count (LoanSummary.ByStatus final) =
    n + Z.of_nat (List.length loans) /\
  total RiskSummary.Count (LoanSummary.ByRisk final) =
    n + Z.of_nat (List.length loans) /\
  totalAmount StatusSummary.Amount (LoanSummary.ByStatus final) ==
    LoanSummary.TotalLent final /\
  totalAmount RiskSummary.Amount (LoanSummary.ByRisk final) ==
    LoanSummary.TotalLent final /\
  LoanSummary.TotalAccounts final = LoanSummary.TotalAccounts summary.
Proof.
  revert summary n. induction loans as [|loan loans IH]; intros summary n Hs Hr Has Har.
  - cbn. repeat split; trivial; lia.
  - cbn [fold_left List.length].
    destruct (IH (addLoan summary loan) (n + 1)) as [H1 [H2 [H3 [H4 H5]]]].
    + cbn [addLoan LoanSummary.ByStatus].
      rewrite (GoMapFacts.total_set LoanStatus_eqb statusZero) by reflexivity.
      cbn [StatusSummary.Count]. lia.
    + cbn [addLoan LoanSummary.ByRisk].
      rewrite (GoMapFacts.total_set String.eqb riskZero) by reflexivity.
      cbn [RiskSummary.Count]. lia.
    + cbn [addLoan LoanSummary.ByStatus LoanSummary.TotalLent].
      rewrite (GoMapFacts.totalAmount_set LoanStatus_eqb statusZero) by reflexivity.
      cbn [StatusSummary.Amount]. rewrite Has. unfold Add. ring.
    + cbn [addLoan LoanSummary.ByRisk LoanSummary.TotalLent].
      rewrite (GoMapFacts.totalAmount_set String.eqb riskZero) by reflexivity.
      cbn [RiskSummary.Amount]. rewrite Har. unfold Add. ring.
    + repeat split; trivial; lia.
Qed.

(** X20. The summary adds up: [total_accounts] is the number of loans,
    the counts of [by_status] and those of [by_risk] each add up to it,
    and the amounts of [by_status] and those of [by_risk] each add up to
    [total_lent]. *)
Theorem summary_adds_up (loans : list Loan.t) :
  let summary := summarize loans in
  LoanSummary.TotalAccounts summary = Z.of_nat (List.length loans) /\
  total StatusSummary.Count (LoanSummary.ByStatus summary) =
    LoanSummary.TotalAccounts summary /\
  total RiskSummary.Count (LoanSummary.ByRisk summary) =
    LoanSummary.TotalAccounts summary /\
  totalAmount StatusSummary.Amount (LoanSummary.ByStatus summary) ==
    LoanSummary.TotalLent summary /\
  totalAmount RiskSummary.Amount (LoanSummary.ByRisk summary) ==
    LoanSummary.TotalLent summary.
Proof.
  cbv zeta. unfold summarize.
  destruct (summary_sums loans
              (LoanSummary.mk decimal_Zero decimal_Zero decimal_Zero
                 (Z.of_nat (List.length loans)) [] []) 0)
    as [H1 [H2 [H3 [H4 H5]]]]; try reflexivity.
  rewrite H5. cbn [LoanSummary.TotalAccounts]. repeat split; trivial.
Qed.

(** When the gain of every loan is its value minus its principal, the
    loop keeps the total gain at the total value minus the total lent. *)
Lemma summary_gain (loans : list Loan.t) (summary : LoanSummary.t) :
  Forall (fun loan =>
            Loan.GainAmount loan =
            Sub (Loan.CurrentValue loan) (Loan.Principal loan)) loans ->
  LoanSummary.TotalGain summary ==
    LoanSummary.TotalValue summary - LoanSummary.TotalLent summary ->
  let final := fold_left addLoan loans summary in
  LoanSummary.TotalGain final ==
    LoanSummary.TotalValue final - LoanSummary.TotalLent final.
Proof.
  revert summary. induction loans as [|loan loans IH]; intros summary Hall Hs;
    [exact Hs|].
  inversion_clear Hall as [|? ? Hg Hrest]. cbn [fold_left]. apply IH; [exact Hrest|].
  cbn [addLoan LoanSummary.TotalGain LoanSummary.TotalValue LoanSummary.TotalLent].
  rewrite Hg. unfold Add, Sub. rewrite Hs. ring.
Qed.

(** X21. In [GetLoanSummary] of [loan.go] the total gain is the total
    value minus the total lent, and [by_status] has no entry for
    closed loans. *)
Theorem loan_go_summary_gain
  (strconv_ParseFloat : string -> option float)
  (GetMarketPrice : posting.Posting -> Time -> Decimal)
  (ParseDuration : string -> float) (ParseRiskLevel : string -> string)
  (GetCustomValuations : list config.CustomValuation)
  (query_Like : string -> list posting.Posting) (EndOfToday : Time) :
  let summary :=
    LoanService.GetLoanSummary strconv_ParseFloat GetMarketPrice ParseDuration
      ParseRiskLevel GetCustomValuations query_Like EndOfToday in
  LoanSummary.TotalGain summary ==
    LoanSummary.TotalValue summary - LoanSummary.TotalLent summary /\
  GoMap.lookup LoanStatus_eqb (LoanSummary.ByStatus summary) LoanStatusClosed = None.
Proof.
  cbv zeta. unfold LoanService.GetLoanSummary.
  set (loans := LoanService.GetLoans _ _ _ _ _ _ _).
  assert (Hopen :
    Forall (fun loan =>
              Loan.Status loan <> LoanStatusClosed /\
              Loan.GainAmount loan =
                Sub (Loan.CurrentValue loan) (Loan.Principal loan)) loans).
  { apply Forall_forall. intros loan Hin.
    destruct (LoanListFacts.GetLoans1_built _ _ _ _ _ _ _ loan Hin)
      as [v [account [ps [_ [_ [_ Hb]]]]]].
    destruct (LoanListFacts.buildLoan1_fields _ _ _ _ _ _ _ _ Hb)
      as [_ [_ [_ [_ [_ [_ [_ [Hg [Hs _]]]]]]]]].
    now split. }
  split.
  - apply summary_gain; [|reflexivity].
    eapply Forall_impl; [|exact Hopen]. now intros loan [_ H].
  - unfold summarize. rewrite summary_by_status.
    match goal with |- context [filter ?f ?l] =>
      assert (E : filter f l = [])
    end.
    { apply filter_none. eapply Forall_impl; [|exact Hopen].
      intros loan [Hs _]. destruct (Loan.Status loan); simpl; congruence. }
    now rewrite E.
Qed.

End SummaryFacts.

(* ================================================================== *)
(** * Closed loans *)
(* ================================================================== *)

Module ClosedFacts.

Import GoStrings GoStringsFacts SubstringFacts LoanCommon Properties.

Lemma Contains_unfold (c : ascii) (s w : string) :
  Contains (String c s) w = HasPrefix (String c s) w || Contains s w.
Proof.
  unfold Contains, HasPrefix. rewrite (Cut_unfold (String c s)).
  destruct (CutPrefix (String c s) w); [reflexivity|].
  simpl. now destruct (Cut s w) as [[b a]|].
Qed.

(** A text without a space that starts [a], a space and [b] starts [a]. *)
Lemma HasPrefix_before_space (w a b : string) :
  Forall (fun c => c <> " "%char) (list_ascii_of_string w) ->
  HasPrefix (a ++ String " " b) w = HasPrefix a w.
Proof.
  unfold HasPrefix. revert a.
  induction w as [|p w IH]; intros a Hw; [reflexivity|].
  inversion_clear Hw as [|? ? Hp Hrest].
  destruct a as [|c a]; cbn [String.append CutPrefix].
  - destruct (Ascii.eqb_spec " " p) as [E|_]; [congruence | reflexivity].
  - destruct (Ascii.eqb c p); [now apply IH | reflexivity].
Qed.

(** A text without a space occurs in two texts joined by a space exactly
    when it occurs in one of them. *)
Lemma Contains_across_space (w a b : string) :
  w <> "" ->
  Forall (fun c => c <> " "%char) (list_ascii_of_string w) ->
  Contains (a ++ String " " b) w = Contains a w || Contains b w.
Proof.
  intros Hne Hw. induction a as [|c a IH].
  - change ("" ++ String " " b) with (String " " b). rewrite Contains_unfold.
    assert (E1 : HasPrefix (String " " b) w = false).
    { destruct w as [|p w]; [congruence|].
      inversion_clear Hw as [|? ? Hp _]. unfold HasPrefix. cbn [CutPrefix].
      destruct (Ascii.eqb_spec " " p) as [E|_]; [congruence | reflexivity]. }
    assert (E2 : Contains "" w = false)
      by (unfold Contains; now rewrite Cut_empty_string).
    now rewrite E1, E2.
  - change (String c a ++ String " " b) with (String c (a ++ String " " b)).
    rewrite !Contains_unfold, IH.
    change (String c (a ++ String " " b)) with (String c a ++ String " " b).
    rewrite (HasPrefix_before_space w (String c a) b Hw).
    now rewrite orb_assoc.
Qed.

Lemma ToLower_app (a b : string) : ToLower (a ++ b) = ToLower a ++ ToLower b.
Proof. induction a as [|c a IH]; simpl; [reflexivity | now rewrite IH]. Qed.

Lemma note_saysClosed (transactionNote note : string) :
  let joined := transactionNote ++ " " ++ note in
  Contains (ToLower joined) "closed" || Contains (ToLower joined) "settled" =
  saysClosed transactionNote || saysClosed note.
Proof.
  cbv zeta. unfold saysClosed. rewrite ToLower_app.
  change (ToLower (" " ++ note)) with (String " " (ToLower note)).
  rewrite !Contains_across_space;
    try discriminate; try (repeat constructor; discriminate).
  destruct (Contains (ToLower transactionNote) "closed");
    destruct (Contains (ToLower transactionNote) "settled");
    destruct (Contains (ToLower note) "closed"); reflexivity.
Qed.

(** X22. [isLoanClosed] holds exactly when some posting says closed or
    settled, in any letter case, within its transaction note or within
    its own note: joining the two notes with a space adds no match
    across them. *)
Theorem isLoanClosed_notes (postings : list posting.Posting) :
  LoanRevision.isLoanClosed postings =
  existsb (fun p => saysClosed (posting.TransactionNote p) ||
                    saysClosed (posting.Note p)) postings.
Proof.
  unfold LoanRevision.isLoanClosed.
  induction postings as [|p postings IH]; [reflexivity|].
  cbn [existsb]. rewrite IH. f_equal. apply note_saysClosed.
Qed.

(** The current value of the totals loop over the raw amounts. *)
Lemma totals_raw (postings : list posting.Posting) :
  snd (totals (fun p => posting.Amount p) postings) = rawBalance postings.
Proof.
  unfold totals, rawBalance.
  enough (H : forall acc : Decimal * Decimal,
             snd (fold_left
                    (fun '(principal, currentValue) p =>
                       (if GreaterThan (posting.Amount p) decimal_Zero
                        then Add principal (posting.Amount p) else principal,
                        Add currentValue (posting.Amount p)))
                    postings acc) =
             fold_left (fun acc p => Add acc (posting.Amount p)) postings (snd acc))
    by apply H.
  induction postings as [|p postings IH]; intros [principal currentValue];
    [reflexivity|].
  cbn [fold_left]. now rewrite IH.
Qed.

Section Service.

Variable strconv_ParseFloat : string -> option float.
Variable GetMarketPrice : posting.Posting -> Time -> Decimal.
Variable ParseDuration : string -> float.
Variable ParseRiskLevel : string -> string.
Variable GetCustomValuations : list config.CustomValuation.
Variable query_Like : string -> list posting.Posting.
Variable EndOfToday : Time.

(** X23. In the version with closed loans, a loan [GetLoans] returns is
    Closed exactly when its postings say so or its current value is not
    above zero; a Closed loan has no maturity date, 0 days to maturity
    and 100 percent complete; and a loan whose postings say closed or
    settled is valued at the raw amounts of its postings, not at their
    market price. *)
Theorem revision_closed_loans :
  Forall
    (fun loan =>
       (Loan.Status loan = LoanStatusClosed <->
        LoanRevision.isLoanClosed (Loan.Postings loan) = true \/
        LessThanOrEqual (Loan.CurrentValue loan) decimal_Zero = true) /\
       (Loan.Status loan = LoanStatusClosed ->
        Loan.MaturityDate loan = None /\
        Loan.DaysToMaturity loan = 0 /\
        Loan.PercentComplete loan = 100%float) /\
       (LoanRevision.isLoanClosed (Loan.Postings loan) = true ->
        Loan.CurrentValue loan = rawBalance (Loan.Postings loan)))
    (LoanRevision.GetLoans strconv_ParseFloat GetMarketPrice ParseDuration
       ParseRiskLevel GetCustomValuations query_Like EndOfToday).
Proof.
  apply Forall_forall. intros loan Hin.
  destruct (LoanListFacts.GetLoans2_built _ _ _ _ _ _ _ loan Hin)
    as [v [account [ps [_ [_ [_ Hb]]]]]].
  destruct (LoanListFacts.buildLoan2_fields _ _ _ _ _ _ _ _ Hb)
    as [_ [_ [Hp [_ [_ [Hcv [Hst Hrule]]]]]]].
  rewrite Hp, LoanFacts.isLoanClosed_sorted. split; [exact Hst | split].
  - intros Hc. unfold statusRule in Hrule.
    destruct (Loan.MaturityDate loan).
    + rewrite Hc in Hrule. destruct (_ <? 0); [discriminate|].
      destruct (_ <=? 30); discriminate.
    + destruct Hrule as [Hd [[Ha _] | [_ Hpc]]]; [congruence | now repeat split].
  - intros Hc. rewrite Hcv, LoanFacts.isLoanClosed_sorted, Hc. apply totals_raw.
Qed.

End Service.

End ClosedFacts.

(* ================================================================== *)
(** * Bounds and results of the library functions *)
(* ================================================================== *)

Module LibraryBounds.

Import Properties.

Local Open Scope float_scope.

(** Comparing two floats the other way round gives the opposite answer. *)
Lemma SFcompare_swap (a b : spec_float) :
  SFcompare b a = option_map CompOpp (SFcompare a b).
Proof.
  destruct a as [s1|s1| |s1 m1 e1], b as [s2|s2| |s2 m2 e2]; simpl;
    try reflexivity;
    try (destruct s1; reflexivity); try (destruct s2; reflexivity);
    try (destruct s1, s2; reflexivity).
  f_equal. rewrite (Z.compare_antisym e1 e2).
  change (PosDef.Pos.compare_cont Eq m2 m1) with (Pos.compare_cont (CompOpp Eq) m2 m1).
  rewrite <- (Pos.compare_cont_antisym m1 m2 Eq).
  destruct s1, s2; try reflexivity;
    destruct (e1 ?= e2)%Z; reflexivity.
Qed.

Lemma ltb_asym (x y : float) : (x <? y) = true -> (y <? x) = false.
Proof.
  rewrite !FloatAxioms.ltb_spec. unfold SFltb.
  rewrite (SFcompare_swap (Prim2SF x) (Prim2SF y)).
  destruct (SFcompare (Prim2SF x) (Prim2SF y)) as [[]|]; simpl; congruence.
Qed.

Lemma ltb_irrefl (x : float) : (x <? x) = false.
Proof.
  destruct (x <? x) eqn:E; [|reflexivity].
  pose proof (ltb_asym x x E). congruence.
Qed.

Lemma eqb_ltb (x y : float) :
  (x =? y) = true -> (x <? y) = false /\ (y <? x) = false.
Proof.
  rewrite FloatAxioms.eqb_spec, !FloatAxioms.ltb_spec. unfold SFeqb, SFltb.
  rewrite (SFcompare_swap (Prim2SF x) (Prim2SF y)).
  destruct (SFcompare (Prim2SF x) (Prim2SF y)) as [[]|]; simpl; intros H;
    try discriminate H; now split.
Qed.

Lemma ltb_infinity (x : float) : (infinity <? x) = false.
Proof.
  rewrite FloatAxioms.ltb_spec. unfold SFltb.
  replace (Prim2SF infinity) with (S754_infinity false) by reflexivity.
  destruct (Prim2SF x) as [s|s| |s m e]; simpl; try reflexivity; now destruct s.
Qed.

Lemma ltb_neg_infinity (x : float) : (x <? neg_infinity) = false.
Proof.
  rewrite FloatAxioms.ltb_spec. unfold SFltb.
  replace (Prim2SF neg_infinity) with (S754_infinity true) by reflexivity.
  destruct (Prim2SF x) as [s|s| |s m e]; simpl; try reflexivity; now destruct s.
Qed.

(** A number that equals an infinity is that infinity. *)
Lemma eqb_infinite (x y : float) (s : bool) :
  Prim2SF y = S754_infinity s -> (x =? y) = true -> x = y.
Proof.
  intros Hy. rewrite FloatAxioms.eqb_spec. unfold SFeqb. rewrite Hy. intros H.
  rewrite <- (SF2Prim_Prim2SF x), <- (SF2Prim_Prim2SF y), Hy. f_equal.
  destruct (Prim2SF x) as [s'|s'| |s' m e]; simpl in H; try discriminate H;
    destruct s, s'; simpl in H; try discriminate H; reflexivity.
Qed.

(** [math.Max] and [math.Min] of two numbers: one of the two, and no
    smaller (no larger) than the other. *)
Lemma Max_cases (x y : float) :
  is_nan x = false -> is_nan y = false ->
  GoMath.Max x y = x /\ (x <? y) = false \/
  GoMath.Max x y = y /\ (y <? x) = false.
Proof.
  intros Hx Hy. unfold GoMath.Max.
  destruct (x =? infinity) eqn:Ex.
  { apply (eqb_infinite x infinity false eq_refl) in Ex. subst x.
    left. split; [reflexivity | apply ltb_infinity]. }
  destruct (y =? infinity) eqn:Ey.
  { apply (eqb_infinite y infinity false eq_refl) in Ey. subst y.
    right. split; [reflexivity | apply ltb_infinity]. }
  cbn [orb]. rewrite Hx, Hy. cbn [orb].
  destruct ((x =? 0) && (x =? y)) eqn:Ez.
  { apply andb_true_iff in Ez as [_ Ez]. apply eqb_ltb in Ez as [H1 H2].
    destruct (GoMath.Signbit x); [right | left]; now split. }
  destruct (y <? x) eqn:E.
  - left. split; [reflexivity | now apply ltb_asym].
  - right. now split.
Qed.

Lemma Min_cases (x y : float) :
  is_nan x = false -> is_nan y = false ->
  GoMath.Min x y = x /\ (y <? x) = false \/
  GoMath.Min x y = y /\ (x <? y) = false.
Proof.
  intros Hx Hy. unfold GoMath.Min.
  destruct (x =? neg_infinity) eqn:Ex.
  { apply (eqb_infinite x neg_infinity true eq_refl) in Ex. subst x.
    left. split; [reflexivity | apply ltb_neg_infinity]. }
  destruct (y =? neg_infinity) eqn:Ey.
  { apply (eqb_infinite y neg_infinity true eq_refl) in Ey. subst y.
    right. split; [reflexivity | apply ltb_neg_infinity]. }
  cbn [orb]. rewrite Hx, Hy. cbn [orb].
  destruct ((x =? 0) && (x =? y)) eqn:Ez.
  { apply andb_true_iff in Ez as [_ Ez]. apply eqb_ltb in Ez as [H1 H2].
    destruct (GoMath.Signbit x); [left | right]; now split. }
  destruct (x <? y) eqn:E.
  - left. split; [reflexivity | now apply ltb_asym].
  - right. now split.
Qed.

(** X24. [min] and [max] on numbers (neither of them NaN) return one of
    their two arguments; neither argument is below the result of [min]
    and the result of [max] is below neither argument. *)
Theorem min_max_bounds (v0 v1 : any) :
  let a := toFloat64 v0 in
  let b := toFloat64 v1 in
  is_nan a = false -> is_nan b = false ->
  exists lower upper,
    fn_min [v0; v1] = Return (AFloat64 lower) /\
    fn_max [v0; v1] = Return (AFloat64 upper) /\
    (lower = a \/ lower = b) /\ (upper = a \/ upper = b) /\
    (a <? lower) = false /\ (b <? lower) = false /\
    (upper <? a) = false /\ (upper <? b) = false.
Proof.
  intros a b Ha Hb.
  exists (GoMath.Min a b), (GoMath.Max a b).
  split; [reflexivity|]. split; [reflexivity|].
  destruct (Min_cases a b Ha Hb) as [[-> Hm] | [-> Hm]];
    destruct (Max_cases a b Ha Hb) as [[-> Hx] | [-> Hx]];
    repeat split; auto using ltb_irrefl.
Qed.

(** [min_max_bounds] at 3 and 2.5. *)
Lemma min_max_bounds_witness :
  fn_min [AInt 3; AFloat64 2.5] = Return (AFloat64 2.5) /\
  fn_max [AInt 3; AFloat64 2.5] = Return (AFloat64 3).
Proof.
  destruct (min_max_bounds (AInt 3) (AFloat64 2.5))
    as [lower [upper [Hmin [Hmax _]]]]; try reflexivity.
  assert (El : lower = 2.5) by (vm_compute in Hmin; congruence).
  assert (Eu : upper = 3) by (vm_compute in Hmax; congruence).
  subst. now split.
Defined.

(** X25. [clamp(value, min, max)] on numbers (none of them NaN) returns
    one of its three arguments; the result is never below [min], and it
    is not above [max] when [max] is not below [min]. *)
Theorem clamp_bounds (v0 v1 v2 : any) :
  let value := toFloat64 v0 in
  let minVal := toFloat64 v1 in
  let maxVal := toFloat64 v2 in
  is_nan value = false -> is_nan minVal = false -> is_nan maxVal = false ->
  exists r,
    fn_clamp [v0; v1; v2] = Return (AFloat64 r) /\
    (r = value \/ r = minVal \/ r = maxVal) /\
    (r <? minVal) = false /\
    ((maxVal <? minVal) = false -> (maxVal <? r) = false).
Proof.
  intros value minVal maxVal Hv Hlo Hhi.
  exists (GoMath.Max minVal (GoMath.Min maxVal value)).
  split; [reflexivity|].
  destruct (Min_cases maxVal value Hhi Hv) as [[Em Hm] | [Em Hm]];
    rewrite Em;
    [destruct (Max_cases minVal maxVal Hlo Hhi) as [[Er Hr] | [Er Hr]]
    |destruct (Max_cases minVal value Hlo Hv) as [[Er Hr] | [Er Hr]]];
    rewrite Er; repeat split; auto using ltb_irrefl.
Qed.

(** [clamp_bounds] at a value above the range. *)
Lemma clamp_bounds_witness :
  fn_clamp [AFloat64 1234.567; AInt 1000; AInt 1200] = Return (AFloat64 1200) /\
  (1200 <? 1000) = false /\ (1200 <? 1200) = false.
Proof.
  destruct (clamp_bounds (AFloat64 1234.567) (AInt 1000) (AInt 1200))
    as [r [Hr [_ [Hlo Hhi]]]]; try reflexivity.
  assert (E : r = 1200) by (vm_compute in Hr; congruence).
  subst r. split; [exact Hr|]. split; [exact Hlo | apply Hhi; reflexivity].
Defined.

Ltac open_arguments :=
  repeat match goal with
  | H : Forall2 _ _ (_ :: _) |- _ => inversion H; subst; clear H
  | H : Forall2 _ _ [] |- _ => inversion H; subst; clear H
  end;
  repeat match goal with
  | H : accepts TFloat _ = true |- _ => clear H
  | H : accepts _ ?v = true |- _ => destruct v; try discriminate H; clear H
  end.

(** X26. Every function of the formula library, called with as many
    arguments as it declares, strings and booleans where it declares
    them and numbers of any numeric type where it declares floats,
    returns a value of its declared result type: none of its type
    assertions panics. *)
Theorem library_functions_return
  (strconv_ParseFloat : string -> option float)
  (math_Pow : float -> float -> float) :
  Forall
    (fun fn =>
       forall args,
         Forall2 (fun v t => accepts t v = true) args (fn_params fn) ->
         exists v, fn_body fn args = Return v /\ gives (fn_result fn) v = true)
    (exprFunctions strconv_ParseFloat math_Pow).
Proof.
  unfold exprFunctions.
  repeat (apply Forall_cons || apply Forall_nil);
    cbn [fn_params fn_body fn_result]; intros args H; open_arguments;
    try (eexists; split; reflexivity).
  destruct b; eexists; split; reflexivity.
Qed.

End LibraryBounds.

(* ================================================================== *)
(** * How often an account is listed *)
(* ================================================================== *)

Module RuleCountFacts.

Import LoanCommon Properties SortPerm.

Section Count.

Variable account : string.

Local Abbreviation keyed :=
  (fun group : string * list posting.Posting => String.eqb (fst group) account).
Local Abbreviation held :=
  (fun p : posting.Posting => String.eqb (posting.Account p) account).

(** Adding a posting makes a group for its account when there was none,
    and no further group otherwise. *)
Lemma addToGroup_count (p : posting.Posting)
  (groups : list (string * list posting.Posting)) :
  List.length (filter keyed (addToGroup p groups)) =
  if held p && (List.length (filter keyed groups) =? 0)%nat then 1%nat
  else List.length (filter keyed groups).
Proof.
  induction groups as [|[a ps] groups IH]; cbn [addToGroup filter fst].
  - cbn. now destruct (String.eqb (posting.Account p) account).
  - destruct (String.eqb_spec a (posting.Account p)) as [Ha|Ha];
      cbn [filter fst].
    + subst a. destruct (String.eqb (posting.Account p) account); cbn; reflexivity.
    + destruct (String.eqb_spec a account) as [Hk|Hk]; cbn [List.length].
      * rewrite IH. destruct (String.eqb_spec (posting.Account p) account);
          [congruence | reflexivity].
      * exact IH.
Qed.

Lemma GroupBy_count_from (postings : list posting.Posting)
  (groups : list (string * list posting.Posting)) :
  List.length
    (filter keyed (fold_left (fun groups p => addToGroup p groups) postings groups)) =
  if (List.length (filter keyed groups) =? 0)%nat
  then (if existsb held postings then 1%nat else 0%nat)
  else List.length (filter keyed groups).
Proof.
  revert groups. induction postings as [|p postings IH]; intros groups;
    cbn [fold_left existsb].
  - now destruct (List.length (filter keyed groups)).
  - rewrite IH, addToGroup_count.
    destruct (String.eqb (posting.Account p) account); cbn [andb orb];
      [|reflexivity].
    destruct (List.length (filter keyed groups)); reflexivity.
Qed.

(** [GroupBy] makes one group for an account that has a posting, none for
    an account that has none. *)
Lemma GroupBy_count (postings : list posting.Posting) :
  List.length (filter keyed (GroupBy postings)) =
  if existsb held postings then 1%nat else 0%nat.
Proof. unfold GroupBy. now rewrite GroupBy_count_from. Qed.

Lemma existsb_filter {A : Type} (f g : A -> bool) (l : list A) :
  existsb g (filter f l) = existsb (fun a => f a && g a) l.
Proof.
  induction l as [|a l IH]; [reflexivity|]. cbn [filter existsb].
  destruct (f a); cbn [existsb andb]; now rewrite IH.
Qed.

Lemma filter_flat_map_length {A B : Type} (f : B -> bool) (g : A -> list B)
  (l : list A) :
  List.length (filter f (flat_map g l)) =
  fold_right (fun a n => (List.length (filter f (g a)) + n)%nat) 0%nat l.
Proof.
  induction l as [|a l IH]; [reflexivity|].
  cbn [flat_map fold_right]. now rewrite filter_app, length_app, IH.
Qed.

Lemma filter_length_sum {A : Type} (f : A -> bool) (l : list A) :
  List.length (filter f l) =
  fold_right (fun a n => ((if f a then 1 else 0) + n)%nat) 0%nat l.
Proof.
  induction l as [|a l IH]; [reflexivity|].
  cbn [filter fold_right]. destruct (f a); cbn [List.length]; now rewrite IH.
Qed.

(** Reordering a list does not change how many elements pass a test. *)
Lemma filter_length_perm {A : Type} (f : A -> bool) (l l' : list A) :
  Permutation l l' -> List.length (filter f l) = List.length (filter f l').
Proof.
  induction 1 as [|a l l' _ IH|a b l|l l' l'' _ IH1 _ IH2]; cbn [filter].
  - reflexivity.
  - destruct (f a); cbn [List.length]; now rewrite IH.
  - destruct (f a), (f b); reflexivity.
  - now rewrite IH1.
Qed.

Lemma fold_right_ext {A : Type} (f g : A -> nat) (l : list A) :
  (forall a, f a = g a) ->
  fold_right (fun a n => (f a + n)%nat) 0%nat l =
  fold_right (fun a n => (g a + n)%nat) 0%nat l.
Proof.
  intros H. induction l as [|a l IH]; [reflexivity|].
  cbn [fold_right]. now rewrite H, IH.
Qed.

Section Service.

Variable strconv_ParseFloat : string -> option float.
Variable GetMarketPrice : posting.Posting -> Time -> Decimal.
Variable ParseDuration : string -> float.
Variable ParseRiskLevel : string -> string.
Variable GetCustomValuations : list config.CustomValuation.
Variable query_Like : string -> list posting.Posting.
Variable EndOfToday : Time.

Local Abbreviation buildLoan2 :=
  (LoanRevision.buildLoan strconv_ParseFloat GetMarketPrice ParseDuration
     ParseRiskLevel).

(** The revision builds one loan for every group, under the account of
    the group. *)
Lemma built_count (now : Time) (groups : list (string * list posting.Posting)) :
  Forall (fun group => snd group <> []) groups ->
  List.length
    (loansOf account
       (flat_map (fun '(a, ps) =>
                    match buildLoan2 a ps now with
                    | Some loan => [loan]
                    | None => []
                    end) groups)) =
  List.length (filter keyed groups).
Proof.
  unfold loansOf.
  induction 1 as [|[a ps] groups Hne _ IH]; [reflexivity|].
  cbn [flat_map filter fst]. rewrite filter_app, length_app, IH.
  destruct (LoanFacts.revision_builds strconv_ParseFloat GetMarketPrice
              ParseDuration ParseRiskLevel a ps now Hne) as [loan [-> Ha]].
  cbn [filter]. rewrite Ha. now destruct (String.eqb a account).
Qed.

(** A rule contributes one loan for an account it covers, none for
    another. *)
Lemma loansOfRule_count (now : Time) (v : config.CustomValuation) :
  List.length
    (loansOf account
       (LoanRevision.loansOfRule strconv_ParseFloat GetMarketPrice ParseDuration
          ParseRiskLevel query_Like now v)) =
  if ruleCovers query_Like account v then 1%nat else 0%nat.
Proof.
  unfold LoanRevision.loansOfRule, ruleCovers.
  destruct (String.eqb (config.Account v) ""); [reflexivity|]. cbn [negb andb].
  rewrite built_count.
  - rewrite GroupBy_count. now rewrite existsb_filter.
  - apply Forall_forall. intros [a ps] Hin.
    now apply LoanListFacts.GroupBy_sound in Hin.
Qed.

(** X27. In the version with closed loans, [GetLoans] lists an account
    once for each rule that covers it (a rule with a pattern for which
    the store returns a posting of the account that the pattern
    matches): an account covered by two rules is listed twice, one
    covered by none is not listed. *)
Theorem revision_lists_once_per_rule :
  List.length
    (loansOf account
       (LoanRevision.GetLoans strconv_ParseFloat GetMarketPrice ParseDuration
          ParseRiskLevel GetCustomValuations query_Like EndOfToday)) =
  List.length (filter (ruleCovers query_Like account) GetCustomValuations).
Proof.
  assert (Hperm :
    Permutation
      (LoanRevision.GetLoans strconv_ParseFloat GetMarketPrice ParseDuration
         ParseRiskLevel GetCustomValuations query_Like EndOfToday)
      (flat_map (LoanRevision.loansOfRule strconv_ParseFloat GetMarketPrice
                   ParseDuration ParseRiskLevel query_Like EndOfToday)
                GetCustomValuations)).
  { unfold LoanRevision.GetLoans.
    destruct GetCustomValuations as [|v vs] eqn:E; [constructor|].
    apply Slice_perm. }
  unfold loansOf at 1.
  rewrite (filter_length_perm _ _ _ Hperm).
  rewrite filter_flat_map_length, filter_length_sum.
  apply fold_right_ext. intros v. apply loansOfRule_count.
Qed.

End Service.
End Count.
End RuleCountFacts.

(* ================================================================== *)
(** * The dashboard *)
(* ================================================================== *)

Module DashboardFacts.

Import LoanCommon Properties SortPerm SortFacts AlertFacts.


End DashboardFacts.

(* ================================================================== *)
(** * Further examples *)
(* ================================================================== *)

Module FurtherExamples.

Import LoanCommon.

(** The formula [amount / 0] runs to an infinity. *)
Example division_by_zero :
  match MiniExpr.Compile Examples.functions "amount / 0" with
  | Ok program =>
      Examples.Run program
        (buildValuationContext Examples.p2pPosting (30 * Examples.day)) =
      Ok (AFloat64 infinity)
  | Err _ => False
  end.
Proof. vm_compute. reflexivity. Qed.

(** [nonfinite_result_panics] at the formula [amount / 0]. *)
Lemma nonfinite_result_panics_witness :
  exists msg,
    GetCustomMarketPrice Strconv.ParseFloat Examples.Pow MiniExpr.Program
      MiniExpr.Compile Examples.Run Examples.decimalOfFinite
      [Examples.p2pRule "amount / 0"] Examples.p2pPosting (30 * Examples.day)
    = Panic msg.
Proof.
  apply (proj2
           (RuleFacts.nonfinite_result_panics Strconv.ParseFloat Examples.Pow
              MiniExpr.Program MiniExpr.Compile Examples.Run
              Examples.decimalOfFinite [Examples.p2pRule "amount / 0"]
              (Examples.p2pRule "amount / 0") Examples.p2pPosting
              (30 * Examples.day)
              (MiniExpr.EBin "/" (MiniExpr.EVar "amount") (MiniExpr.EInt 0))
              infinity eq_refl eq_refl eq_refl)).
  vm_compute. reflexivity.
Defined.

(** The loan of an account with 200 lent in two postings and 40 repaid,
    and its summary. *)
Example summary_of_one_loan :
  let loans :=
    Examples.GetLoans2
      [Examples.lent; Examples.repaid (-40)%Q ""; Examples.lentLater] in
  map (fun loan => (Loan.Status loan, Loan.Principal loan, Loan.CurrentValue loan))
      loans = [(LoanStatusOverdue, 200%Q, 160%Q)] /\
  summarize loans =
  LoanSummary.mk 200%Q 160%Q (-40)%Q 1
    [(LoanStatusOverdue, StatusSummary.mk 1 200%Q)]
    [("unknown", RiskSummary.mk 1 200%Q)].
Proof. vm_compute. split; reflexivity. Qed.

(** Account names of the loans page. *)
Example getAccountName_examples :
  map LoansPage.getAccountName ["Assets:p2p:Lender1"; "Lender1"; "Assets:"; ""]
  = ["Lender1"; "Lender1"; ""; ""].
Proof. reflexivity. Qed.

End FurtherExamples.

